(** * Listener notification layer of the test-execution engine

    A shallow embedding of [src/robot/output/listeners.py]:
    the [no_recursion] class decorator, the [Listeners] registry and the
    [ListenerProxy] adapter, together with the properties of the
    natural-language specification that concern them.

    Python objects live in a heap and are referred to by location, so that
    aliasing between the run's domain objects and the payloads handed to
    listeners can be stated.  Methods that touch [self], the logger or the
    heap are written in a state-and-exception monad. *)

From Stdlib Require Import ZArith String Ascii List Bool Lia.
From stdpp Require Import gmap strings list fin_maps pretty.

Local Open Scope string_scope.
Local Open Scope Z_scope.

(* ===================================================================== *)
(** * Python values                                                       *)
(* ===================================================================== *)

Module Py.

(** Locations of heap objects. *)
Abbreviation loc := nat.

(** A Python float: a finite binary fraction [m * 2^e], an infinity or a
    not-a-number. Only the conversion to an integer is needed. *)
Inductive Float :=
| FFinite (m e : Z)
| FInf (negative : bool)
| FNan.

(** Values are immutable scalars or references to heap objects. *)
Inductive Value :=
| VNone
| VBool (b : bool)
| VInt (z : Z)
| VFloat (f : Float)
| VStr (s : string)
| VRef (l : loc).

(** Heap objects: the mutable containers and class instances. *)
Inductive Obj :=
| OList (xs : list Value)
| ODict (d : gmap string Value)
| OInst (cls : string) (attrs : gmap string Value).

Abbreviation Heap := (list Obj).

Inductive Exception :=
| AttributeError (msg : string)
| TypeError (msg : string)
| ValueError (msg : string)
| OverflowError (msg : string)
| DataError (message : string)
| OtherException (cls msg : string).

Definition is_DataError (e : Exception) : bool :=
  match e with DataError _ => true | _ => false end.

(** ** Strings *)

Definition is_upper (c : ascii) : bool :=
  let n := nat_of_ascii c in ((65 <=? n) && (n <=? 90))%nat.
Definition is_lower (c : ascii) : bool :=
  let n := nat_of_ascii c in ((97 <=? n) && (n <=? 122))%nat.
Definition to_lower (c : ascii) : ascii :=
  if is_upper c then ascii_of_nat (nat_of_ascii c + 32) else c.
Definition to_upper (c : ascii) : ascii :=
  if is_lower c then ascii_of_nat (nat_of_ascii c - 32) else c.

(** [s.lower()] *)
Fixpoint lower (s : string) : string :=
  match s with
  | EmptyString => EmptyString
  | String c r => String (to_lower c) (lower r)
  end.

(** [s.title()]: the first letter of every run of letters is upper-cased,
    the other letters are lower-cased. *)
Fixpoint title_from (prev_cased : bool) (s : string) : string :=
  match s with
  | EmptyString => EmptyString
  | String c r =>
      if is_upper c || is_lower c
      then String (if prev_cased then to_lower c else to_upper c)
                  (title_from true r)
      else String c (title_from false r)
  end.
Definition title (s : string) : string := title_from false s.

(** [s.startswith('-')] *)
Definition startswith_dash (s : string) : bool :=
  match s with
  | String c _ => Ascii.eqb c "-"%char
  | EmptyString => false
  end.

(** [s[1:]] *)
Definition drop_first (s : string) : string :=
  match s with
  | String _ r => r
  | EmptyString => EmptyString
  end.

(** ** [int(x)] *)

Definition is_space (c : ascii) : bool :=
  let n := nat_of_ascii c in ((n =? 32) || ((9 <=? n) && (n <=? 13)))%nat.

Fixpoint lstrip (s : list ascii) : list ascii :=
  match s with
  | c :: r => if is_space c then lstrip r else s
  | [] => []
  end.
Definition strip (s : list ascii) : list ascii :=
  rev (lstrip (rev (lstrip s))).

Definition digit_of (c : ascii) : option Z :=
  let n := nat_of_ascii c in
  if ((48 <=? n) && (n <=? 57))%nat then Some (Z.of_nat n - 48) else None.

Fixpoint digits_value (acc : Z) (s : list ascii) : option Z :=
  match s with
  | [] => Some acc
  | c :: r => match digit_of c with
              | Some d => digits_value (10 * acc + d) r
              | None => None
              end
  end.

Definition unsigned_literal (s : list ascii) : option Z :=
  match s with
  | [] => None
  | _ => digits_value 0 s
  end.

(** A base-ten literal: optional surrounding blanks, an optional sign and
    at least one digit. *)
Definition int_of_string (s : string) : option Z :=
  match strip (list_ascii_of_string s) with
  | c :: r =>
      if Ascii.eqb c "-"%char then Z.opp <$> unsigned_literal r
      else if Ascii.eqb c "+"%char then unsigned_literal r
      else unsigned_literal (c :: r)
  | [] => None
  end.

(** Truncation toward zero of [m * 2^e]. *)
Definition float_trunc (m e : Z) : Z :=
  if 0 <=? e then m * 2 ^ e else Z.quot m (2 ^ (- e)).

(** The built-in [int]: integers and booleans convert, floats truncate,
    strings are parsed; [None] and heap objects are rejected. *)
Definition int (v : Value) : Exception + Z :=
  match v with
  | VInt z => inr z
  | VBool b => inr (if b then 1 else 0)
  | VFloat (FFinite m e) => inr (float_trunc m e)
  | VFloat (FInf _) => inl (OverflowError "cannot convert float infinity to integer")
  | VFloat FNan => inl (ValueError "cannot convert float NaN to integer")
  | VStr s => match int_of_string s with
              | Some z => inr z
              | None => inl (ValueError "invalid literal for int() with base 10")
              end
  | VNone | VRef _ =>
      inl (TypeError "int() argument must be a string or a number")
  end.

(** [v == 2] *)
Definition equals_two (v : Value) : bool :=
  match v with
  | VInt z => z =? 2
  | VFloat (FFinite m e) =>
      if 0 <=? e then m * 2 ^ e =? 2 else m =? 2 * 2 ^ (- e)
  | _ => false
  end.

(** ** Attribute access, truth values, containers *)

Definition getattr (h : Heap) (item : Value) (name : string) : Exception + Value :=
  match item with
  | VRef l =>
      match h !! l with
      | Some (OInst _ attrs) =>
          match attrs !! name with
          | Some v => inr v
          | None => inl (AttributeError name)
          end
      | _ => inl (AttributeError name)
      end
  | _ => inl (AttributeError name)
  end.

(** Truth value of [v], as tested by [if], [or] and [bool]. *)
Definition truthy (h : Heap) (v : Value) : bool :=
  match v with
  | VNone => false
  | VBool b => b
  | VInt z => negb (z =? 0)
  | VFloat (FFinite m _) => negb (m =? 0)
  | VFloat _ => true
  | VStr s => negb (String.eqb s "")
  | VRef l =>
      match h !! l with
      | Some (OList xs) => negb (Nat.eqb (List.length xs) 0)
      | Some (ODict d) => negb (bool_decide (d = ∅))
      | _ => true
      end
  end.

(** [a or b] *)
Definition py_or (h : Heap) (a b : Value) : Value :=
  if truthy h a then a else b.

(** [v == s] for a string constant [s]. *)
Definition eq_str (v : Value) (s : string) : bool :=
  match v with
  | VStr t => String.eqb t s
  | _ => false
  end.

End Py.

(* ===================================================================== *)
(** * A state-and-exception monad                                         *)
(* ===================================================================== *)

(** The outcome of running a piece of code: a value, an escaping exception,
    or exhaustion of the recursion budget of the interpreter of listener
    call-backs. The state survives an exception. *)
Inductive Outcome (A : Type) :=
| Val (a : A)
| Exc (e : Py.Exception)
| OutOfFuel.
Arguments Val {A} a.
Arguments Exc {A} e.
Arguments OutOfFuel {A}.

Definition M (S A : Type) : Type := S -> Outcome A * S.

Definition ret {S A} (a : A) : M S A := fun s => (Val a, s).

Definition bind {S A B} (m : M S A) (k : A -> M S B) : M S B :=
  fun s => match m s with
           | (Val a, s') => k a s'
           | (Exc e, s') => (Exc e, s')
           | (OutOfFuel, s') => (OutOfFuel, s')
           end.

Definition raise {S A} (e : Py.Exception) : M S A := fun s => (Exc e, s).

(** [try: m  except: handler] with a handler for every exception. *)
Definition try_except {S A} (m : M S A) (handler : Py.Exception -> M S A) : M S A :=
  fun s => match m s with
           | (Exc e, s') => handler e s'
           | r => r
           end.

Definition get {S} : M S S := fun s => (Val s, s).
Definition modify {S} (f : S -> S) : M S unit := fun s => (Val tt, f s).

(** An expression that may raise. *)
Definition of_sum {S A} (r : Py.Exception + A) : M S A :=
  match r with
  | inr a => ret a
  | inl e => raise e
  end.

Declare Scope py_scope.
Delimit Scope py_scope with py.
Notation "x <- m ;; k" := (bind m (fun x => k))
  (at level 100, m at next level, right associativity) : py_scope.
Notation "m ;; k" := (bind m (fun _ => k))
  (at level 100, right associativity) : py_scope.
Local Open Scope py_scope.

(** [for x in xs: body x] *)
Fixpoint for_each {S A} (xs : list A) (body : A -> M S unit) : M S unit :=
  match xs with
  | [] => ret tt
  | x :: r => body x ;; for_each r body
  end.

(** [[f(x) for x in xs]] *)
Fixpoint map_m {S A B} (f : A -> M S B) (xs : list A) : M S (list B) :=
  match xs with
  | [] => ret []
  | x :: r => y <- f x ;; ys <- map_m f r ;; ret (y :: ys)
  end.

(* ===================================================================== *)
(** * Listeners, events and the run's state                               *)
(* ===================================================================== *)

(** Arguments handed to a listener method: a value of the run, or the
    attribute dictionary built by the registry for this call. *)
Inductive Arg :=
| AVal (v : Py.Value)
| APayload (attrs : gmap string Py.Value).

(** The public notification operations of the registry. *)
Inductive Event :=
| StartSuite (suite : Py.Value)
| EndSuite (suite : Py.Value)
| StartTest (test : Py.Value)
| EndTest (test : Py.Value)
| StartKeyword (kw : Py.Value)
| EndKeyword (kw : Py.Value)
| Imported (import_type name attrs : Py.Value)
| LogMessage (msg : Py.Value)
| Message (msg : Py.Value)
| OutputFile (file_type path : Py.Value)
| Close.

(** What the code of a listener method does, as far as the registry can
    tell: it returns, it raises, or it first causes a notification on the
    registry it is registered with (for instance by logging). *)
Inductive Action :=
| Return
| Raise (e : Py.Exception)
| Notify (ev : Event) (k : Action).

(** A callable stored in the adapter: its [__name__], which a bound method
    or a function has and a callable object of another kind may lack, and
    its code. *)
Record Callable := {
  method_name : option string;
  code : list Arg -> Action
}.

(** A listener object: its runtime type name (what
    [robot.utils.type_name] returns for it), its
    [ROBOT_LISTENER_API_VERSION] attribute when it has one, and its
    methods. *)
Record Listener := {
  listener_type : string;
  ROBOT_LISTENER_API_VERSION : option Py.Value;
  listener_method : string -> option Callable
}.

(** A listener as configured: a name or path with arguments (a string,
    as [robot.utils.is_string] tells), or an object. *)
Inductive Spec :=
| SpecName (s : string)
| SpecObject (l : Listener).

(** The adapter around one listener. *)
Record Proxy := {
  logger : Listener;
  name : string;
  version : Z
}.

Inductive Level := ERROR | INFO.
Definition LogEntry : Type := Level * string.

(** One invocation of a listener method by [call_method]. *)
Record Delivery := {
  d_listener : Proxy;
  d_method : Callable;
  d_args : list Arg
}.

(** The attributes of a [Listeners] instance. [_listeners] is [None] as
    long as the attribute has not been assigned. *)
Record Registry := {
  _listeners : option (list Proxy);
  _running_test : bool;
  _setup_or_teardown_type : option string;
  _recursion : bool
}.

(** The state of the run that the notification layer reads and writes:
    the heap of the domain objects, the run-wide logger, the record of the
    listener invocations made so far, and the registry instance. *)
Record World := {
  heap : Py.Heap;
  log : list LogEntry;
  trace : list Delivery;
  self : Registry
}.

Definition set_heap (h : Py.Heap) (w : World) : World :=
  {| heap := h; log := log w; trace := trace w; self := self w |}.
Definition set_self (r : Registry) (w : World) : World :=
  {| heap := heap w; log := log w; trace := trace w; self := r |}.
Definition add_log (e : LogEntry) (w : World) : World :=
  {| heap := heap w; log := log w ++ [e]; trace := trace w; self := self w |}.
Definition add_delivery (d : Delivery) (w : World) : World :=
  {| heap := heap w; log := log w; trace := trace w ++ [d]; self := self w |}.

Definition set_running_test (b : bool) (r : Registry) : Registry :=
  {| _listeners := _listeners r; _running_test := b;
     _setup_or_teardown_type := _setup_or_teardown_type r;
     _recursion := _recursion r |}.
Definition set_setup_or_teardown_type (t : option string) (r : Registry) : Registry :=
  {| _listeners := _listeners r; _running_test := _running_test r;
     _setup_or_teardown_type := t; _recursion := _recursion r |}.
Definition set_recursion (b : bool) (r : Registry) : Registry :=
  {| _listeners := _listeners r; _running_test := _running_test r;
     _setup_or_teardown_type := _setup_or_teardown_type r;
     _recursion := b |}.

(** Code that only touches the heap, run inside the run's state. *)
Definition lift_heap {A} (m : M Py.Heap A) : M World A :=
  fun w => let (r, h) := m (heap w) in (r, set_heap h w).

(** The collaborators outside this file. *)
Class Collaborators := {
  (** [robot.utils.get_error_details], called in an exception handler:
      the short message and the full details of the exception being
      handled, or an exception that it raises itself (it raises the
      handled exception again when that is one the run must not
      swallow). *)
  get_error_details : Py.Exception -> Py.Exception + string * string;
  (** [robot.utils.split_args_from_name_or_path] *)
  split_args_from_name_or_path : string -> string * list string;
  (** [os.path.normpath] *)
  normpath : string -> string;
  (** [Importer('listener').import_class_or_module] *)
  import_class_or_module : string -> list string -> Py.Exception + Listener;
  (** What [AbstractLoggerProxy.__init__] stores in the adapter under a
      name of [_methods], given the listener. *)
  proxy_attribute : Listener -> string -> Callable;
  (** [str] of a float or of a heap object. *)
  str_opaque : Py.Value -> string
}.

(** Modelled from the spec: [LOGGER], the run-wide logger of
    [robot.output.logger], exposes [error(msg)] and [info(msg)]; an entry
    is the severity with the message. *)
Definition LOGGER_error (msg : string) : M World unit :=
  modify (add_log (ERROR, msg)).

(** Modelled from the spec: [LOGGER.info(msg)], see [LOGGER_error]. *)
Definition LOGGER_info (msg : string) : M World unit :=
  modify (add_log (INFO, msg)).

Definition newline : string := String (ascii_of_nat 10) EmptyString.

(** ['%s' % v] *)
Definition str `{Collaborators} (v : Py.Value) : string :=
  match v with
  | Py.VNone => "None"
  | Py.VBool true => "True"
  | Py.VBool false => "False"
  | Py.VInt z => pretty z
  | Py.VStr s => s
  | Py.VFloat _ | Py.VRef _ => str_opaque v
  end.

(* ===================================================================== *)
(** * class ListenerProxy(AbstractLoggerProxy)                            *)
(* ===================================================================== *)

Module ListenerProxy.
Section WithCollaborators.
Context `{Collaborators}.

Definition _methods : list string :=
  ["start_suite"; "end_suite"; "start_test"; "end_test";
   "start_keyword"; "end_keyword"; "log_message"; "message";
   "output_file"; "report_file"; "log_file"; "debug_file";
   "xunit_file"; "close"; "library_import"; "resource_import";
   "variables_import"].

(** [listener.<name>] for a name of [_methods]. *)
Definition attribute (p : Proxy) (n : string) : Callable :=
  proxy_attribute (logger p) n.

(** [getattr(listener, n)] for a computed name ending in [_import] or
    [_file]: the adapter has no other attributes with such names than those
    of [_methods]. *)
Definition method_named (p : Proxy) (n : string) : Py.Exception + Callable :=
  if bool_decide (n ∈ _methods) then inr (attribute p n)
  else inl (Py.AttributeError n).

Definition _import_listener (listener : Spec) : Py.Exception + (Listener * string) :=
  match listener with
  | SpecObject l => inr (l, listener_type l)
  | SpecName s =>
      let (name, args) := split_args_from_name_or_path s in
      match import_class_or_module (normpath name) args with
      | inr l => inr (l, name)
      | inl e => inl e
      end
  end.

Definition missing_version_message (name : string) : string :=
  "Listener '" ++ name ++
  "' does not have mandatory 'ROBOT_LISTENER_API_VERSION' attribute.".

Definition unsupported_version_message (name shown : string) : string :=
  "Listener '" ++ name ++ "' uses unsupported API version '" ++ shown ++ "'.".

(** [listener.ROBOT_LISTENER_API_VERSION] *)
Definition version_attribute (listener : Listener) : Py.Exception + Py.Value :=
  match ROBOT_LISTENER_API_VERSION listener with
  | Some v => inr v
  | None => inl (Py.AttributeError "ROBOT_LISTENER_API_VERSION")
  end.

Definition _get_version (self_name : string) (listener : Listener) : Py.Exception + Z :=
  let attempt :=
    match version_attribute listener with
    | inl e => inl e
    | inr v =>
        match Py.int v with
        | inl e => inl e
        | inr version =>
            if negb (version =? 2) then inl (Py.ValueError "") else inr version
        end
    end in
  match attempt with
  | inl (Py.AttributeError _) =>
      inl (Py.DataError (missing_version_message self_name))
  | inl (Py.ValueError _) | inl (Py.TypeError _) =>
      match version_attribute listener with
      | inl e => inl e
      | inr v => inl (Py.DataError (unsupported_version_message self_name (str v)))
      end
  | other => other
  end.

Definition __init__ (listener : Spec) : Py.Exception + Proxy :=
  match _import_listener listener with
  | inl e => inl e
  | inr (l, name) =>
      match _get_version name l with
      | inl e => inl e
      | inr v => inr {| logger := l; name := name; version := v |}
      end
  end.

(** Running the code of a listener method. [notify] is the public entry
    point of the registry the listener is registered with. *)
Fixpoint run (notify : Event -> M World unit) (a : Action) : M World unit :=
  match a with
  | Return => ret tt
  | Raise e => raise e
  | Notify ev k => notify ev ;; run notify k
  end.

(** The call of [method] on [args], recorded in the trace of the run. *)
Definition invoke (notify : Event -> M World unit)
    (p : Proxy) (method : Callable) (args : list Arg) : M World unit :=
  modify (add_delivery {| d_listener := p; d_method := method; d_args := args |}) ;;
  run notify (code method args).

(** [method.__name__] *)
Definition __name__ (method : Callable) : Py.Exception + string :=
  match method_name method with
  | Some n => inr n
  | None => inl (Py.AttributeError "__name__")
  end.

Definition call_failed_message (method_name : string) (p : Proxy) (message : string)
    : string :=
  "Calling method '" ++ method_name ++ "' of listener '" ++ name p ++
  "' failed: " ++ message.

Definition details_message (details : string) : string :=
  "Details:" ++ newline ++ details.

(** The handler is entered for every exception. Its own statements can
    raise: [get_error_details], and the look-up of [method.__name__] while
    the message is formatted, before anything is logged. Such an
    exception leaves [call_method]. *)
Definition call_method (notify : Event -> M World unit)
    (p : Proxy) (method : Callable) (args : list Arg) : M World unit :=
  try_except (invoke notify p method args)
    (fun e =>
       r <- of_sum (get_error_details e) ;;
       let (message, details) := r : string * string in
       method_name <- of_sum (__name__ method) ;;
       LOGGER_error (call_failed_message method_name p message) ;;
       LOGGER_info (details_message details)).

End WithCollaborators.
End ListenerProxy.

(* ===================================================================== *)
(** * def no_recursion(cls)                                               *)
(* ===================================================================== *)

Definition with_recursion (b : bool) (w : World) : World :=
  set_self (set_recursion b (self w)) w.

(** The wrapper put around every public routine of the decorated class. *)
Definition avoid_recursion (method : M World unit) : M World unit :=
  w <- get ;;
  if negb (_recursion (self w)) then
    modify (with_recursion true) ;;
    method ;;
    modify (with_recursion false)
  else ret tt.

(* ===================================================================== *)
(** * class Listeners(object)                                             *)
(* ===================================================================== *)

Module Listeners.
Section WithCollaborators.
Context `{Collaborators}.

Definition _start_attrs : list string := ["id"; "doc"; "starttime"; "longname"].
Definition _end_attrs : list string :=
  (_start_attrs ++ ["endtime"; "elapsedtime"; "status"; "message"])%list.
Definition _kw_extra_attrs : list string :=
  ["args"; "assign"; "kwname"; "libname"; "-id"; "-longname"; "-message"].

(** ** Heap operations *)

(** A new heap object. *)
Definition alloc (o : Py.Obj) : M Py.Heap Py.Value :=
  fun h => (Val (Py.VRef (List.length h)), (h ++ [o])%list).

(** [getattr(item, n)] *)
Definition read (item : Py.Value) (n : string) : M Py.Heap Py.Value :=
  h <- get ;; of_sum (Py.getattr h item n).

(** Modelled from the spec: [robot.utils.is_dict_like] holds of the
    mapping-valued container values. *)
Definition is_dict_like (h : Py.Heap) (v : Py.Value) : bool :=
  match v with
  | Py.VRef l => match h !! l with Some (Py.ODict _) => true | _ => false end
  | _ => false
  end.

(** Modelled from the spec: [robot.utils.is_list_like] holds of the
    sequence-valued container values. *)
Definition is_list_like (h : Py.Heap) (v : Py.Value) : bool :=
  match v with
  | Py.VRef l => match h !! l with Some (Py.OList _) => true | _ => false end
  | _ => false
  end.

(** [dict(value)] *)
Definition dict (value : Py.Value) : M Py.Heap Py.Value :=
  h <- get ;;
  match value with
  | Py.VRef l =>
      match h !! l with
      | Some (Py.ODict d) => alloc (Py.ODict d)
      | _ => raise (Py.TypeError "cannot convert to dict")
      end
  | _ => raise (Py.TypeError "cannot convert to dict")
  end.

(** The elements that iterating over [value] yields. *)
Definition iterate (value : Py.Value) : M Py.Heap (list Py.Value) :=
  h <- get ;;
  match value with
  | Py.VRef l =>
      match h !! l with
      | Some (Py.OList xs) => ret xs
      | Some (Py.ODict d) => ret (Py.VStr <$> (map_to_list d).*1)
      | _ => raise (Py.TypeError "object is not iterable")
      end
  | Py.VStr s => ret ((fun c => Py.VStr (String c EmptyString)) <$> list_ascii_of_string s)
  | _ => raise (Py.TypeError "object is not iterable")
  end.

(** [list(value)] *)
Definition list_of (value : Py.Value) : M Py.Heap Py.Value :=
  xs <- iterate value ;; alloc (Py.OList xs).

(** ** Attribute dictionaries *)

(** [names.remove(n)] for a name that occurs in [names] *)
Fixpoint remove_first (n : string) (names : list string) : list string :=
  match names with
  | [] => []
  | m :: r => if String.eqb m n then r else m :: remove_first n r
  end.

Definition _get_attr_names (default extra : list string) : list string :=
  fold_left
    (fun (names : list string) (name : string) =>
       if negb (Py.startswith_dash name) then (names ++ [name])%list
       else if bool_decide (Py.drop_first name ∈ names)
            then remove_first (Py.drop_first name) names
            else names)
    extra default.

Definition _take_copy_of_mutable_value (value : Py.Value) : M Py.Heap Py.Value :=
  h <- get ;;
  if is_dict_like h value then dict value
  else if is_list_like h value then list_of value
  else ret value.

Definition _get_attr_value (item : Py.Value) (n : string) : M Py.Heap Py.Value :=
  value <- read item n ;;
  _take_copy_of_mutable_value value.

(** [dict((n, f(n)) for n in names)], the pairs being produced and stored
    one after the other. *)
Fixpoint dict_of_names (f : string -> M Py.Heap Py.Value)
    (names : list string) (acc : gmap string Py.Value)
    : M Py.Heap (gmap string Py.Value) :=
  match names with
  | [] => ret acc
  | n :: r => v <- f n ;; dict_of_names f r (<[n := v]> acc)
  end.

Definition _get_attrs (item : Py.Value) (default extra : list string)
    : M Py.Heap (gmap string Py.Value) :=
  let names := _get_attr_names default extra in
  dict_of_names (_get_attr_value item) names ∅.

Definition _get_start_attrs (item : Py.Value) (extra : list string) :=
  _get_attrs item _start_attrs extra.

Definition _get_end_attrs (item : Py.Value) (extra : list string) :=
  _get_attrs item _end_attrs extra.

(** [[x.name for x in items]] *)
Definition names_of (items : Py.Value) : M Py.Heap Py.Value :=
  xs <- iterate items ;;
  ns <- map_m (fun x => read x "name") xs ;;
  alloc (Py.OList ns).

Definition _get_suite_attrs (suite : Py.Value) : M Py.Heap (gmap string Py.Value) :=
  tests <- read suite "tests" ;;
  tests <- names_of tests ;;
  suites <- read suite "suites" ;;
  suites <- names_of suites ;;
  totaltests <- read suite "test_count" ;;
  source <- read suite "source" ;;
  h <- get ;;
  ret (<["source" := Py.py_or h source (Py.VStr "")]>
       (<["totaltests" := totaltests]>
        (<["suites" := suites]>
         (<["tests" := tests]> ∅)))).

(** [attrs.update(other)] *)
Definition update (attrs other : gmap string Py.Value) : gmap string Py.Value :=
  other ∪ attrs.

Definition yes_no (b : bool) : Py.Value :=
  Py.VStr (if b then "yes" else "no").

Definition _create_msg_dict (msg : Py.Value) : M Py.Heap (gmap string Py.Value) :=
  timestamp <- read msg "timestamp" ;;
  message <- read msg "message" ;;
  level <- read msg "level" ;;
  html <- read msg "html" ;;
  h <- get ;;
  ret (<["html" := yes_no (Py.truthy h html)]>
       (<["level" := level]>
        (<["message" := message]>
         (<["timestamp" := timestamp]> ∅)))).

(** [s.lower()], an attribute that only strings have. *)
Definition lower_of (v : Py.Value) : M World string :=
  match v with
  | Py.VStr s => ret (Py.lower s)
  | _ => raise (Py.AttributeError "lower")
  end.

(** ** The instance *)

(** [self._listeners] *)
Definition listeners_attribute : M World (list Proxy) :=
  w <- get ;;
  match _listeners (self w) with
  | Some ls => ret ls
  | None => raise (Py.AttributeError "_listeners")
  end.

Definition set_attribute (f : Registry -> Registry) : M World unit :=
  modify (fun w => set_self (f (self w)) w).

Definition display_name (listener : Spec) : string :=
  match listener with
  | SpecName s => s
  | SpecObject l => listener_type l
  end.

Definition import_failed_message (listener message : string) : string :=
  "Taking listener '" ++ listener ++ "' into use failed: " ++ message.

(** The adapters that the generator yields, in order. *)
Fixpoint _import_listeners (listeners : list Spec) : M World (list Proxy) :=
  match listeners with
  | [] => ret []
  | listener :: rest =>
      match ListenerProxy.__init__ listener with
      | inr p => ps <- _import_listeners rest ;; ret (p :: ps)
      | inl (Py.DataError message) =>
          LOGGER_error (import_failed_message (display_name listener) message) ;;
          _import_listeners rest
      | inl e => raise e
      end
  end.

(** A newly created instance, before [__init__] has run: the class
    attribute [_recursion] is visible, the other attributes are not
    assigned yet. *)
Definition blank : Registry :=
  {| _listeners := None; _running_test := false;
     _setup_or_teardown_type := None; _recursion := false |}.

Definition __init__ (listeners : option (list Spec)) : M World unit :=
  match listeners with
  | Some listeners =>
      ps <- _import_listeners listeners ;;
      set_attribute (fun r =>
        {| _listeners := Some ps; _running_test := _running_test r;
           _setup_or_teardown_type := _setup_or_teardown_type r;
           _recursion := _recursion r |})
  | None => ret tt
  end ;;
  set_attribute (set_running_test false) ;;
  set_attribute (set_setup_or_teardown_type None).

(** [Listeners(listeners)] *)
Definition new (listeners : option (list Spec)) : M World unit :=
  set_attribute (fun _ => blank) ;; __init__ listeners.

Definition __nonzero__ (r : Registry) : Py.Exception + bool :=
  match _listeners r with
  | Some ls => inr (negb (Nat.eqb (List.length ls) 0))
  | None => inl (Py.AttributeError "_listeners")
  end.

(** ** The notification routines

    [notify] stands for the decorated public routines of the instance, as
    a listener that calls back into the registry finds them. *)

Section Routines.
Variable notify : Event -> M World unit.

Definition item_name (item : Py.Value) : M World Py.Value :=
  lift_heap (read item "name").

Definition start_suite (suite : Py.Value) : M World unit :=
  ls <- listeners_attribute ;;
  for_each ls (fun listener =>
    attrs <- lift_heap (_get_start_attrs suite ["metadata"]) ;;
    suite_attrs <- lift_heap (_get_suite_attrs suite) ;;
    let attrs := update attrs suite_attrs in
    suite_name <- item_name suite ;;
    ListenerProxy.call_method notify listener
      (ListenerProxy.attribute listener "start_suite")
      [AVal suite_name; APayload attrs]).

Definition _notify_end_suite (listener : Proxy) (suite : Py.Value) : M World unit :=
  attrs <- lift_heap (_get_end_attrs suite ["metadata"]) ;;
  statistics <- lift_heap (read suite "stat_message") ;;
  let attrs := <["statistics" := statistics]> attrs in
  suite_attrs <- lift_heap (_get_suite_attrs suite) ;;
  let attrs := update attrs suite_attrs in
  suite_name <- item_name suite ;;
  ListenerProxy.call_method notify listener
    (ListenerProxy.attribute listener "end_suite")
    [AVal suite_name; APayload attrs].

Definition end_suite (suite : Py.Value) : M World unit :=
  ls <- listeners_attribute ;;
  for_each ls (fun listener => _notify_end_suite listener suite).

(** The two entries that the test routines add to the attributes. *)
Definition with_critical_and_template (test : Py.Value)
    (attrs : gmap string Py.Value) : M World (gmap string Py.Value) :=
  critical <- lift_heap (read test "critical") ;;
  w <- get ;;
  let attrs := <["critical" := yes_no (Py.truthy (heap w) critical)]> attrs in
  template <- lift_heap (read test "template") ;;
  w <- get ;;
  ret (<["template" := Py.py_or (heap w) template (Py.VStr "")]> attrs).

Definition start_test (test : Py.Value) : M World unit :=
  set_attribute (set_running_test true) ;;
  ls <- listeners_attribute ;;
  for_each ls (fun listener =>
    attrs <- lift_heap (_get_start_attrs test ["tags"]) ;;
    attrs <- with_critical_and_template test attrs ;;
    test_name <- item_name test ;;
    ListenerProxy.call_method notify listener
      (ListenerProxy.attribute listener "start_test")
      [AVal test_name; APayload attrs]).

Definition _notify_end_test (listener : Proxy) (test : Py.Value) : M World unit :=
  attrs <- lift_heap (_get_end_attrs test ["tags"]) ;;
  attrs <- with_critical_and_template test attrs ;;
  test_name <- item_name test ;;
  ListenerProxy.call_method notify listener
    (ListenerProxy.attribute listener "end_test")
    [AVal test_name; APayload attrs].

Definition end_test (test : Py.Value) : M World unit :=
  set_attribute (set_running_test false) ;;
  ls <- listeners_attribute ;;
  for_each ls (fun listener => _notify_end_test listener test).

(** [kw.type.title()] *)
Definition type_title (kw : Py.Value) : M World string :=
  ty <- lift_heap (read kw "type") ;;
  match ty with
  | Py.VStr s => ret (Py.title s)
  | _ => raise (Py.AttributeError "title")
  end.

Definition _get_setup_or_teardown_type (kw : Py.Value) : M World string :=
  w <- get ;;
  let scope := if _running_test (self w) then "Test" else "Suite" in
  role <- type_title kw ;;
  ret (scope ++ " " ++ role).

(** [self._setup_or_teardown_type or 'Keyword'] *)
Definition pending_or_keyword (pending : option string) : string :=
  match pending with
  | Some s => if String.eqb s "" then "Keyword" else s
  | None => "Keyword"
  end.

Definition _get_keyword_type (kw : Py.Value) (start : bool) : M World string :=
  ty <- lift_heap (read kw "type") ;;
  if Py.eq_str ty "kw" then
    w <- get ;;
    ret (pending_or_keyword (_setup_or_teardown_type (self w)))
  else
    kw_type <- _get_setup_or_teardown_type kw ;;
    set_attribute (set_setup_or_teardown_type (if start then Some kw_type else None)) ;;
    ret kw_type.

Definition start_keyword (kw : Py.Value) : M World unit :=
  ls <- listeners_attribute ;;
  for_each ls (fun listener =>
    attrs <- lift_heap (_get_start_attrs kw _kw_extra_attrs) ;;
    kw_type <- _get_keyword_type kw true ;;
    let attrs := <["type" := Py.VStr kw_type]> attrs in
    kw_name <- item_name kw ;;
    ListenerProxy.call_method notify listener
      (ListenerProxy.attribute listener "start_keyword")
      [AVal kw_name; APayload attrs]).

Definition end_keyword (kw : Py.Value) : M World unit :=
  ls <- listeners_attribute ;;
  for_each ls (fun listener =>
    attrs <- lift_heap (_get_end_attrs kw _kw_extra_attrs) ;;
    kw_type <- _get_keyword_type kw false ;;
    let attrs := <["type" := Py.VStr kw_type]> attrs in
    kw_name <- item_name kw ;;
    ListenerProxy.call_method notify listener
      (ListenerProxy.attribute listener "end_keyword")
      [AVal kw_name; APayload attrs]).

Definition imported (import_type name attrs : Py.Value) : M World unit :=
  ls <- listeners_attribute ;;
  for_each ls (fun listener =>
    lowered <- lower_of import_type ;;
    method <- of_sum (ListenerProxy.method_named listener (lowered ++ "_import")) ;;
    ListenerProxy.call_method notify listener method [AVal name; AVal attrs]).

Definition log_message (msg : Py.Value) : M World unit :=
  ls <- listeners_attribute ;;
  for_each ls (fun listener =>
    d <- lift_heap (_create_msg_dict msg) ;;
    ListenerProxy.call_method notify listener
      (ListenerProxy.attribute listener "log_message") [APayload d]).

Definition message (msg : Py.Value) : M World unit :=
  ls <- listeners_attribute ;;
  for_each ls (fun listener =>
    d <- lift_heap (_create_msg_dict msg) ;;
    ListenerProxy.call_method notify listener
      (ListenerProxy.attribute listener "message") [APayload d]).

Definition output_file (file_type path : Py.Value) : M World unit :=
  ls <- listeners_attribute ;;
  for_each ls (fun listener =>
    lowered <- lower_of file_type ;;
    method <- of_sum (ListenerProxy.method_named listener (lowered ++ "_file")) ;;
    ListenerProxy.call_method notify listener method [AVal path]).

Definition close : M World unit :=
  ls <- listeners_attribute ;;
  for_each ls (fun listener =>
    ListenerProxy.call_method notify listener
      (ListenerProxy.attribute listener "close") []).

(** The undecorated routine behind each public operation. *)
Definition routine (ev : Event) : M World unit :=
  match ev with
  | StartSuite suite => start_suite suite
  | EndSuite suite => end_suite suite
  | StartTest test => start_test test
  | EndTest test => end_test test
  | StartKeyword kw => start_keyword kw
  | EndKeyword kw => end_keyword kw
  | Imported import_type name attrs => imported import_type name attrs
  | LogMessage msg => log_message msg
  | Message msg => message msg
  | OutputFile file_type path => output_file file_type path
  | Close => close
  end.

End Routines.

(** The public operations after decoration by [no_recursion]. The budget
    bounds the depth of notifications made from inside listener code. *)
Fixpoint notify (fuel : nat) (ev : Event) : M World unit :=
  match fuel with
  | O => fun w => (OutOfFuel, w)
  | S fuel' => avoid_recursion (routine (notify fuel') ev)
  end.

End WithCollaborators.
End Listeners.

(* ===================================================================== *)
(** * Vocabulary of the properties                                        *)
(* ===================================================================== *)

(** The exception, if any, that the code of a listener method ends with. *)
Fixpoint raised_by (a : Action) : option Py.Exception :=
  match a with
  | Return => None
  | Raise e => Some e
  | Notify _ k => raised_by k
  end.

(** The exception that an invocation ended with. *)
Definition failure (d : Delivery) : option Py.Exception :=
  raised_by (code (d_method d) (d_args d)).

(** What the handler of [call_method] makes of the exception [e] that
    the invocation [d] ended with: the log entries that it writes, or the
    exception that leaves it. *)
Definition handler_result `{Collaborators} (d : Delivery) (e : Py.Exception)
    : Py.Exception + list LogEntry :=
  match get_error_details e with
  | inl e' => inl e'
  | inr (message, details) =>
      match method_name (d_method d) with
      | Some n =>
          inr [(ERROR, ListenerProxy.call_failed_message n (d_listener d) message);
               (INFO, ListenerProxy.details_message details)]
      | None => inl (Py.AttributeError "__name__")
      end
  end.

(** The log entries that an invocation leaves behind. *)
Definition failure_log `{Collaborators} (d : Delivery) : list LogEntry :=
  match failure d with
  | Some e => match handler_result d e with inr entries => entries | inl _ => [] end
  | None => []
  end.

(** The exception that leaves [call_method] at an invocation, if any. *)
Definition escape `{Collaborators} (d : Delivery) : option Py.Exception :=
  match failure d with
  | Some e => match handler_result d e with inl e' => Some e' | inr _ => None end
  | None => None
  end.

(** The exception that left [call_method] at one of the invocations. *)
Fixpoint stopped `{Collaborators} (ds : list Delivery) : option Py.Exception :=
  match ds with
  | [] => None
  | d :: r => match escape d with Some e => Some e | None => stopped r end
  end.

(** The invocations up to the first one at which an exception left
    [call_method], that one included. *)
Fixpoint until_escape `{Collaborators} (ds : list Delivery) : list Delivery :=
  match ds with
  | [] => []
  | d :: r => match escape d with Some _ => [d] | None => d :: until_escape r end
  end.

(** How a piece of code ends when [o] is the exception that left it. *)
Definition ending (o : option Py.Exception) : Outcome unit :=
  match o with Some e => Exc e | None => Val tt end.

(** Every exception that a method of the adapter raises is reported by
    the handler of [call_method]: [get_error_details] returns for it, and
    the method has a [__name__]. *)
Definition handles_failures `{Collaborators} (p : Proxy) : Prop :=
  ∀ n args, escape {| d_listener := p; d_method := ListenerProxy.attribute p n;
                      d_args := args |} = None.

(** The invocations [ds] of a loop over the adapters [ls]: one for each
    adapter, in order, up to the end of the list or to the adapter at
    which an exception left [call_method]. *)
Definition reached `{Collaborators} (ls : list Proxy) (ds : list Delivery) : Prop :=
  map d_listener ds `prefix_of` ls
  ∧ (stopped ds = None → map d_listener ds = ls).

(** The state after the invocation [d] has been made and handled. *)
Definition delivered `{Collaborators} (d : Delivery) (w : World) : World :=
  {| heap := heap w; log := log w ++ failure_log d;
     trace := trace w ++ [d]; self := self w |}.

(** The attribute dictionary among the arguments of an invocation. *)
Definition payload (d : Delivery) : option (gmap string Py.Value) :=
  match d_args d with
  | [_; APayload attrs] | [APayload attrs] => Some attrs
  | _ => None
  end.

(** The deliveries made between two states of the run. *)
Definition deliveries_since (before after : World) : list Delivery :=
  drop (List.length (trace before)) (trace after).

(** The log entries written between two states of the run. *)
Definition logged_since (before after : World) : list LogEntry :=
  drop (List.length (log before)) (log after).

(** ** Well-formed domain objects *)

Definition is_scalar (v : Py.Value) : bool :=
  match v with Py.VRef _ => false | _ => true end.

Definition has_attr (h : Py.Heap) (item : Py.Value) (n : string) : bool :=
  match Py.getattr h item n with inr _ => true | inl _ => false end.

Definition has_scalar (h : Py.Heap) (item : Py.Value) (n : string) : bool :=
  match Py.getattr h item n with inr v => is_scalar v | inl _ => false end.

Definition has_string (h : Py.Heap) (item : Py.Value) (n : string) : bool :=
  match Py.getattr h item n with inr (Py.VStr _) => true | _ => false end.

(** The attribute [n] is a list of objects that have a name. *)
Definition has_named_items (h : Py.Heap) (item : Py.Value) (n : string) : bool :=
  match Py.getattr h item n with
  | inr (Py.VRef l) =>
      match h !! l with
      | Some (Py.OList xs) => forallb (fun x => has_attr h x "name") xs
      | _ => false
      end
  | _ => false
  end.

Definition suite_ready (h : Py.Heap) (suite : Py.Value) (base : list string) : bool :=
  forallb (has_attr h suite) (base ++ ["metadata"; "name"])%list
  && has_named_items h suite "tests" && has_named_items h suite "suites"
  && has_scalar h suite "test_count" && has_scalar h suite "source".

Definition test_ready (h : Py.Heap) (test : Py.Value) (base : list string) : bool :=
  forallb (has_attr h test) (base ++ ["tags"; "name"; "critical"])%list
  && has_scalar h test "template".

Definition kw_ready (h : Py.Heap) (kw : Py.Value) (base : list string) : bool :=
  forallb (has_attr h kw)
    (Listeners._get_attr_names base Listeners._kw_extra_attrs ++ ["name"])%list
  && has_string h kw "type".

Definition msg_ready (h : Py.Heap) (msg : Py.Value) : bool :=
  forallb (has_scalar h msg) ["timestamp"; "message"; "level"]
  && has_attr h msg "html".

Definition names_method (v : Py.Value) (suffix : string) : bool :=
  match v with
  | Py.VStr s => bool_decide ((Py.lower s ++ suffix) ∈ ListenerProxy._methods)
  | _ => false
  end.

(** The objects that an event refers to carry the attributes that the
    routine of the event reads, with values of the kinds that the domain
    model gives them (names, counts, times and texts are scalars; tests,
    suites, tags, arguments and metadata are containers). *)
Definition ready (h : Py.Heap) (ev : Event) : bool :=
  match ev with
  | StartSuite suite => suite_ready h suite Listeners._start_attrs
  | EndSuite suite =>
      suite_ready h suite Listeners._end_attrs && has_scalar h suite "stat_message"
  | StartTest test => test_ready h test Listeners._start_attrs
  | EndTest test => test_ready h test Listeners._end_attrs
  | StartKeyword kw => kw_ready h kw Listeners._start_attrs
  | EndKeyword kw => kw_ready h kw Listeners._end_attrs
  | Imported import_type _ _ => names_method import_type "_import"
  | LogMessage msg | Message msg => msg_ready h msg
  | OutputFile file_type _ => names_method file_type "_file"
  | Close => true
  end.

(** The method of the adapter that an event is delivered to. *)
Definition event_method `{Collaborators} (ev : Event) (p : Proxy) : Callable :=
  ListenerProxy.attribute p
    match ev with
    | StartSuite _ => "start_suite"
    | EndSuite _ => "end_suite"
    | StartTest _ => "start_test"
    | EndTest _ => "end_test"
    | StartKeyword _ => "start_keyword"
    | EndKeyword _ => "end_keyword"
    | Imported (Py.VStr s) _ _ => Py.lower s ++ "_import"
    | Imported _ _ _ => "_import"
    | LogMessage _ => "log_message"
    | Message _ => "message"
    | OutputFile (Py.VStr s) _ => Py.lower s ++ "_file"
    | OutputFile _ _ => "_file"
    | Close => "close"
    end.

(** ** The derived keyword type *)

Definition kw_label (running_test : bool) (ty : string) : string :=
  (if running_test then "Test" else "Suite") ++ " " ++ Py.title ty.

(** The type reported for a keyword whose declared type is [ty]. *)
Definition reported_type (r : Registry) (ty : string) : string :=
  if String.eqb ty "kw"
  then Listeners.pending_or_keyword (_setup_or_teardown_type r)
  else kw_label (_running_test r) ty.

(** The registry after the type of such a keyword has been computed. *)
Definition kw_step (start : bool) (ty : string) (r : Registry) : Registry :=
  if String.eqb ty "kw" then r
  else set_setup_or_teardown_type
         (if start then Some (kw_label (_running_test r) ty) else None) r.

(** The attributes of the registry after the routine of an event has run
    to its end over a list [ls] of adapters. *)
Definition declared_type (h : Py.Heap) (kw : Py.Value) : string :=
  match Py.getattr h kw "type" with
  | inr (Py.VStr s) => s
  | _ => ""
  end.

Definition after_routine (h : Py.Heap) (ev : Event) (ls : list Proxy)
    (r : Registry) : Registry :=
  match ev with
  | StartTest _ => set_running_test true r
  | EndTest _ => set_running_test false r
  | StartKeyword kw =>
      match ls with [] => r | _ => kw_step true (declared_type h kw) r end
  | EndKeyword kw =>
      match ls with [] => r | _ => kw_step false (declared_type h kw) r end
  | _ => r
  end.

(** The keys of the attribute dictionary of an event. *)
Definition payload_keys (ev : Event) : list string :=
  match ev with
  | StartSuite _ =>
      ["id"; "doc"; "starttime"; "longname"; "metadata";
       "tests"; "suites"; "totaltests"; "source"]
  | EndSuite _ =>
      ["id"; "doc"; "starttime"; "longname"; "endtime"; "elapsedtime";
       "status"; "message"; "metadata"; "statistics";
       "tests"; "suites"; "totaltests"; "source"]
  | StartTest _ =>
      ["id"; "doc"; "starttime"; "longname"; "tags"; "critical"; "template"]
  | EndTest _ =>
      ["id"; "doc"; "starttime"; "longname"; "endtime"; "elapsedtime";
       "status"; "message"; "tags"; "critical"; "template"]
  | StartKeyword _ =>
      ["doc"; "starttime"; "args"; "assign"; "kwname"; "libname"; "type"]
  | EndKeyword _ =>
      ["doc"; "starttime"; "endtime"; "elapsedtime"; "status";
       "args"; "assign"; "kwname"; "libname"; "type"]
  | LogMessage _ | Message _ => ["timestamp"; "message"; "level"; "html"]
  | Imported _ _ _ | OutputFile _ _ | Close => []
  end.

(** No entry of the dictionary refers to a list or dictionary that was
    in the heap [h0]: the objects of [h0] that it refers to are class
    instances. *)
Definition no_alias (h0 : Py.Heap) (attrs : gmap string Py.Value) : Prop :=
  ∀ k l, attrs !! k = Some (Py.VRef l) → (l < List.length h0)%nat →
         ∃ cls a, h0 !! l = Some (Py.OInst cls a).

(** The same for a single value. *)
Definition fresh_or_instance (h0 : Py.Heap) (v : Py.Value) : Prop :=
  ∀ l, v = Py.VRef l → (l < List.length h0)%nat →
       ∃ cls a, h0 !! l = Some (Py.OInst cls a).

(** What is seen through a value: the object it refers to, if any. *)
Definition observe (h : Py.Heap) (v : Py.Value) : option Py.Obj :=
  match v with
  | Py.VRef l => h !! l
  | _ => None
  end.

Definition is_container (o : Py.Obj) : bool :=
  match o with Py.OList _ | Py.ODict _ => true | Py.OInst _ _ => false end.

(** What an invocation made for the event [ev] looks like, for a routine
    entered with heap [h0] and registry attributes [r]: the method is the
    one of the event, the attribute dictionary has the keys of the event
    and shares no container with [h0], and for a keyword event it carries
    the derived type. *)
Definition good_delivery `{Collaborators} (h0 : Py.Heap) (r : Registry)
    (ev : Event) (d : Delivery) : Prop :=
  d_method d = event_method ev (d_listener d)
  ∧ match payload_keys ev with
    | [] => True
    | keys => ∃ attrs, payload d = Some attrs
                       ∧ dom attrs = list_to_set keys ∧ no_alias h0 attrs
    end
  ∧ match ev with
    | StartKeyword kw | EndKeyword kw =>
        ∃ attrs, payload d = Some attrs
                 ∧ attrs !! "type" =
                     Some (Py.VStr (reported_type r (declared_type h0 kw)))
    | _ => True
    end.

(** The outcome of a routine that ran to its end from the state [w] over
    the adapters [ls], having made the invocations [ds]. *)
Definition routine_outcome `{Collaborators} (ev : Event) (ls : list Proxy)
    (w w' : World) (ds : list Delivery) : Prop :=
  heap w `prefix_of` heap w'
  ∧ log w' = (log w ++ flat_map failure_log ds)%list
  ∧ trace w' = (trace w ++ ds)%list
  ∧ self w' = after_routine (heap w) ev ls (self w)
  ∧ map d_listener ds = ls
  ∧ Forall (good_delivery (heap w) (self w) ev) ds.

(** How far a routine that started in the state [w] over the adapters
    [ls] has come when it ends, normally or with the exception that left
    [call_method], having made the invocations [ds]. *)
Definition routine_progress `{Collaborators} (ev : Event) (ls : list Proxy)
    (w w' : World) (ds : list Delivery) : Prop :=
  heap w `prefix_of` heap w'
  ∧ log w' = (log w ++ flat_map failure_log ds)%list
  ∧ trace w' = (trace w ++ ds)%list
  ∧ self w' = after_routine (heap w) ev ls (self w)
  ∧ reached ls ds
  ∧ Forall (good_delivery (heap w) (self w) ev) ds.

(** The way and the state in which the body of a routine's loop leaves
    the run, having made the invocation [d]. *)
Definition body_result `{Collaborators} (w : World) (h' : Py.Heap)
    (r' : Registry) (d : Delivery) : Outcome unit * World :=
  (ending (escape d),
   {| heap := h'; log := (log w ++ failure_log d)%list;
      trace := (trace w ++ [d])%list; self := r' |}).

(** A piece of code that leaves the guard set when it finds it set,
    however it ends. *)
Definition keeps_guard {A} (m : M World A) : Prop :=
  ∀ w o w', _recursion (self w) = true → m w = (o, w') →
            _recursion (self w') = true.

(** The derived types carried by a list of invocations. *)
Definition reported_types (ds : list Delivery) : list (option Py.Value) :=
  map (fun d => match payload d with
                | Some attrs => attrs !! "type"
                | None => None
                end) ds.

(** The result of constructing the adapter of each specification. *)
Definition constructed `{Collaborators} (specs : list Spec) : list Proxy :=
  omap (fun s => match ListenerProxy.__init__ s with
                 | inr p => Some p
                 | inl _ => None
                 end) specs.

(** The log entries for the specifications whose adapter could not be
    constructed. *)
Definition rejections `{Collaborators} (specs : list Spec) : list LogEntry :=
  omap (fun s => match ListenerProxy.__init__ s with
                 | inl (Py.DataError message) =>
                     Some (ERROR, Listeners.import_failed_message
                                    (Listeners.display_name s) message)
                 | _ => None
                 end) specs.

(** Construction ends with an adapter or with a [DataError]. *)
Definition constructs_or_data_error `{Collaborators} (s : Spec) : bool :=
  match ListenerProxy.__init__ s with
  | inr _ => true
  | inl e => Py.is_DataError e
  end.

(* ===================================================================== *)
(** * A small run                                                         *)
(* ===================================================================== *)

Module Example.

Definition no_method (n : string) : Callable :=
  {| method_name := Some n; code := fun _ => Return |}.

(** The exceptions that [get_error_details] raises again instead of
    describing them. *)
Definition reraised : list string := ["KeyboardInterrupt"; "SystemExit"; "MemoryError"].

(** Collaborators for the examples: [get_error_details] raises one of the
    exceptions above again and stands for the texts of any other by
    placeholders, the importer knows no module, and a name that the
    listener lacks resolves to a method that does nothing. *)
Definition collaborators : Collaborators := {|
  get_error_details := fun e =>
    match e with
    | Py.OtherException cls _ =>
        if bool_decide (cls ∈ reraised) then inl e
        else inr ("<message>", "<details>")
    | _ => inr ("<message>", "<details>")
    end;
  split_args_from_name_or_path := fun s => (s, []);
  normpath := fun s => s;
  import_class_or_module := fun n _ =>
    inl (Py.DataError ("Importing listener '" ++ n ++ "' failed."));
  proxy_attribute := fun l n =>
    match listener_method l n with Some c => c | None => no_method n end;
  str_opaque := fun _ => "<object>"
|}.

(** A listener whose [start_test] raises. *)
Definition failing : Listener := {|
  listener_type := "Failing";
  ROBOT_LISTENER_API_VERSION := Some (Py.VInt 2);
  listener_method := fun n =>
    if String.eqb n "start_test"
    then Some {| method_name := Some n;
                 code := fun _ => Raise (Py.OtherException "RuntimeError" "boom") |}
    else None
|}.

(** A listener whose [start_test] is interrupted: it raises
    [KeyboardInterrupt]. *)
Definition interrupting : Listener := {|
  listener_type := "Interrupting";
  ROBOT_LISTENER_API_VERSION := Some (Py.VInt 2);
  listener_method := fun n =>
    if String.eqb n "start_test"
    then Some {| method_name := Some n;
                 code := fun _ => Raise (Py.OtherException "KeyboardInterrupt" "") |}
    else None
|}.

(** A listener that implements nothing. *)
Definition silent : Listener := {|
  listener_type := "Silent";
  ROBOT_LISTENER_API_VERSION := Some (Py.VStr "2");
  listener_method := fun _ => None
|}.

(** A listener whose [log_message] logs, which notifies the registry of a
    new message. *)
Definition echoing : Listener := {|
  listener_type := "Echoing";
  ROBOT_LISTENER_API_VERSION := Some (Py.VInt 2);
  listener_method := fun n =>
    if String.eqb n "log_message"
    then Some {| method_name := Some n;
                 code := fun _ => Notify (LogMessage (Py.VRef 11)) Return |}
    else None
|}.

(** Listeners with other version markers: none, ["1"] and [2.5]. *)
Definition unversioned : Listener := {|
  listener_type := "Unversioned";
  ROBOT_LISTENER_API_VERSION := None;
  listener_method := fun _ => None
|}.
Definition outdated : Listener := {|
  listener_type := "Outdated";
  ROBOT_LISTENER_API_VERSION := Some (Py.VStr "1");
  listener_method := fun _ => None
|}.
Definition fractional : Listener := {|
  listener_type := "Fractional";
  ROBOT_LISTENER_API_VERSION := Some (Py.VFloat (Py.FFinite 5 (-1)));
  listener_method := fun _ => None
|}.

Definition proxy_of (l : Listener) : Proxy :=
  {| logger := l; name := listener_type l; version := 2 |}.

Definition instance (cls : string) (attrs : list (string * Py.Value)) : Py.Obj :=
  Py.OInst cls (list_to_map attrs).

Definition times : list (string * Py.Value) :=
  [("starttime", Py.VStr "20150101 12:00:00.000");
   ("endtime", Py.VStr "20150101 12:00:01.000");
   ("elapsedtime", Py.VInt 1000);
   ("status", Py.VStr "PASS");
   ("message", Py.VStr "")].

Definition keyword (kwname ty : string) : Py.Obj :=
  instance "Keyword"
    ([("name", Py.VStr ("BuiltIn." ++ kwname)); ("kwname", Py.VStr kwname);
      ("libname", Py.VStr "BuiltIn"); ("doc", Py.VStr "");
      ("args", Py.VRef 9); ("assign", Py.VRef 10);
      ("type", Py.VStr ty)] ++ times)%list.

(** A suite with one test, the keywords of the test and a log message. *)
Definition objects : Py.Heap :=
  [ (* 0 *) instance "TestSuite"
      ([("id", Py.VStr "s1"); ("name", Py.VStr "Suite"); ("longname", Py.VStr "Suite");
        ("doc", Py.VStr ""); ("metadata", Py.VRef 1); ("tests", Py.VRef 2);
        ("suites", Py.VRef 3); ("test_count", Py.VInt 1); ("source", Py.VNone);
        ("stat_message", Py.VStr "1 critical test, 1 passed, 0 failed")]
       ++ times)%list;
    (* 1 *) Py.ODict {["Author" := Py.VStr "me"]};
    (* 2 *) Py.OList [Py.VRef 4];
    (* 3 *) Py.OList [];
    (* 4 *) instance "TestCase"
      ([("id", Py.VStr "s1-t1"); ("name", Py.VStr "Login");
        ("longname", Py.VStr "Suite.Login"); ("doc", Py.VStr "");
        ("tags", Py.VRef 5); ("critical", Py.VBool true); ("template", Py.VNone)]
       ++ times)%list;
    (* 5 *) Py.OList [Py.VStr "smoke"];
    (* 6 *) keyword "Open Browser" "setup";
    (* 7 *) keyword "Log" "kw";
    (* 8 *) keyword "Click" "kw";
    (* 9 *) Py.OList [Py.VStr "arg"];
    (* 10 *) Py.OList [];
    (* 11 *) instance "Message"
      [("timestamp", Py.VStr "20150101 12:00:00.500"); ("message", Py.VStr "hello");
       ("level", Py.VStr "INFO"); ("html", Py.VBool false)] ].

Definition suite : Py.Value := Py.VRef 0.
Definition test : Py.Value := Py.VRef 4.
Definition setup_kw : Py.Value := Py.VRef 6.
Definition nested_kw : Py.Value := Py.VRef 7.
Definition msg : Py.Value := Py.VRef 11.

(** A run whose registry holds the given adapters. *)
Definition run_with (ls : list Proxy) : World :=
  {| heap := objects; log := []; trace := [];
     self := {| _listeners := Some ls; _running_test := false;
                _setup_or_teardown_type := None; _recursion := false |} |}.

(** A run before the registry has been created. *)
Definition fresh_run : World :=
  {| heap := objects; log := []; trace := []; self := Listeners.blank |}.

Definition two_listeners : list Proxy := [proxy_of failing; proxy_of silent].

Definition one_listener : list Proxy := [proxy_of silent].

Definition interrupted_listeners : list Proxy :=
  [proxy_of interrupting; proxy_of silent].

Definition echoing_listeners : list Proxy := [proxy_of echoing; proxy_of silent].

(** An import whose attributes are the dictionary at location 1. *)
Definition library_import : Event :=
  Imported (Py.VStr "Library") (Py.VStr "BuiltIn") (Py.VRef 1).

(** An import of a type for which the adapter has no method. *)
Definition bogus_import : Event :=
  Imported (Py.VStr "Bogus") (Py.VStr "x") Py.VNone.

(** The state of the run after a notification entered from the run. *)
Definition after (ev : Event) (w : World) : World :=
  (@Listeners.notify collaborators 2 ev w).2.

(** The attributes that [end_test] delivers for the test of the example
    when the heap holds the objects of the example and nothing else. *)
Definition end_test_attrs : gmap string Py.Value :=
  list_to_map
    [("id", Py.VStr "s1-t1"); ("doc", Py.VStr "");
     ("starttime", Py.VStr "20150101 12:00:00.000");
     ("longname", Py.VStr "Suite.Login");
     ("endtime", Py.VStr "20150101 12:00:01.000");
     ("elapsedtime", Py.VInt 1000); ("status", Py.VStr "PASS");
     ("message", Py.VStr ""); ("tags", Py.VRef 12);
     ("critical", Py.VStr "yes"); ("template", Py.VStr "")].

Definition end_test_delivery : Delivery :=
  {| d_listener := proxy_of silent; d_method := no_method "end_test";
     d_args := [AVal (Py.VStr "Login"); APayload end_test_attrs] |}.

Definition configured : list Spec :=
  [SpecObject failing; SpecName "missing.py"; SpecObject unversioned;
   SpecObject outdated; SpecObject silent].

End Example.

(* ===================================================================== *)
(** * Vocabulary of further properties                                    *)
(* ===================================================================== *)

(** The invocation of the method that the adapter [p] holds under the
    name [n], on the arguments [args]. *)
Definition invocation `{Collaborators} (n : string) (args : list Arg)
    (p : Proxy) : Delivery :=
  {| d_listener := p; d_method := ListenerProxy.attribute p n; d_args := args |}.

(** The state after the invocations [ds] have been made and handled,
    nothing else having changed. *)
Definition all_delivered `{Collaborators} (ds : list Delivery) (w : World) : World :=
  {| heap := heap w; log := (log w ++ flat_map failure_log ds)%list;
     trace := (trace w ++ ds)%list; self := self w |}.

(** The result of a notification entered in the state [w] with the guard
    clear that is to make the invocations [ds] in turn: all of them when
    none lets an exception out of [call_method], and the guard is clear
    again; otherwise those up to the first that does, that one included,
    and the notification ends with the exception and the guard set. *)
Definition notified `{Collaborators} (ds : list Delivery) (w : World)
    : Outcome unit * World :=
  match stopped ds with
  | None => (Val tt, all_delivered ds w)
  | Some e => (Exc e, with_recursion true (all_delivered (until_escape ds) w))
  end.

(** The value of [_running_test] after a sequence of notifications. *)
Definition running_after (b : bool) (evs : list Event) : bool :=
  fold_left (fun b ev => match ev with
                         | StartTest _ => true
                         | EndTest _ => false
                         | _ => b
                         end) evs b.

(** [v'] in the heap [h'] is a copy of [v] in the heap [h]: the same
    value, or for a list or a dictionary an object with the same content
    at a location that [h] does not have. *)
Definition is_copy (h : Py.Heap) (v : Py.Value) (h' : Py.Heap) (v' : Py.Value) : Prop :=
  match observe h v with
  | Some (Py.OInst _ _) | None => v' = v
  | Some o => ∃ l', v' = Py.VRef l' ∧ (List.length h <= l')%nat ∧ h' !! l' = Some o
  end.

(** The dictionary that [_create_msg_dict] makes of the attributes of a
    message. *)
Definition msg_dict (h : Py.Heap) (timestamp message level html : Py.Value)
    : gmap string Py.Value :=
  <["html" := Listeners.yes_no (Py.truthy h html)]>
    (<["level" := level]>
      (<["message" := message]>
        (<["timestamp" := timestamp]> ∅))).

(** A value that does not refer to a location outside the heap. *)
Definition is_valid (h : Py.Heap) (v : Py.Value) : bool :=
  match v with
  | Py.VRef l => bool_decide (l < List.length h)%nat
  | _ => true
  end.

(** The item has the attribute [n], with a valid value. *)
Definition has_valid_attr (h : Py.Heap) (item : Py.Value) (n : string) : bool :=
  match Py.getattr h item n with
  | inr v => is_valid h v
  | inl _ => false
  end.

(** ** Further examples *)

Module MoreExamples.

(** A listener whose version marker is the float infinity. *)
Definition infinite : Listener := {|
  listener_type := "Infinite";
  ROBOT_LISTENER_API_VERSION := Some (Py.VFloat (Py.FInf false));
  listener_method := fun _ => None
|}.

(** Collaborators whose importer knows the class [Outdated], and whose
    splitter knows one specification with an argument. *)
Definition importing : Collaborators := {|
  get_error_details := @get_error_details Example.collaborators;
  split_args_from_name_or_path := fun s =>
    if String.eqb s "Outdated:arg" then ("Outdated", ["arg"]) else (s, []);
  normpath := fun s => s;
  import_class_or_module := fun n _ =>
    if String.eqb n "Outdated" then inr Example.outdated
    else inl (Py.DataError ("Importing listener '" ++ n ++ "' failed."));
  proxy_attribute := @proxy_attribute Example.collaborators;
  str_opaque := @str_opaque Example.collaborators
|}.

(** A callable object without a [__name__] that raises. *)
Definition nameless : Callable :=
  {| method_name := None; code := fun _ => Raise (Py.ValueError "boom") |}.

(** A run inside a routine, where the guard is set. *)
Definition guarded_run : World :=
  with_recursion true (Example.run_with Example.one_listener).

(** A run in the middle of a test, with a pending setup type. *)
Definition in_setup : World :=
  {| heap := Example.objects; log := []; trace := [];
     self := {| _listeners := Some Example.two_listeners; _running_test := true;
                _setup_or_teardown_type := Some "Test Setup";
                _recursion := false |} |}.

(** The events of a test with its setup keyword and one keyword in it. *)
Definition test_events : list Event :=
  [StartTest Example.test; StartKeyword Example.setup_kw;
   StartKeyword Example.nested_kw; EndKeyword Example.nested_kw;
   EndKeyword Example.setup_kw; EndTest Example.test].

(** The objects of the example with a teardown keyword after them. *)
Definition objects_with_teardown : Py.Heap :=
  (Example.objects ++ [Example.keyword "Close Browser" "teardown"])%list.

Definition teardown_kw : Py.Value := Py.VRef 12.

(** A run over these objects, in the middle of a test. *)
Definition in_test : World :=
  {| heap := objects_with_teardown; log := []; trace := [];
     self := {| _listeners := Some Example.two_listeners; _running_test := true;
                _setup_or_teardown_type := None; _recursion := false |} |}.

End MoreExamples.

(* ===================================================================== *)
(** * Properties                                                          *)
(* ===================================================================== *)

Local Open Scope list_scope.
#[local] Set Warnings "-clear-no-such-hyp".

Section Basics.
Context `{Collaborators}.

(** A notification entered while the guard is set does nothing. *)
Lemma notify_dropped f ev w :
  _recursion (self w) = true →
  Listeners.notify (S f) ev w = (Val tt, w).
Proof.
  intros Hrec. simpl. unfold avoid_recursion, bind, get. rewrite Hrec. reflexivity.
Qed.

(** Under the guard, the code of a listener method changes nothing and
    ends the way [raised_by] tells. *)
Lemma run_guarded f a w :
  _recursion (self w) = true →
  ListenerProxy.run (Listeners.notify (S f)) a w =
    (match raised_by a with Some e => Exc e | None => Val tt end, w).
Proof.
  intros Hrec. induction a as [| e | ev k IH]; try reflexivity.
  cbn [ListenerProxy.run raised_by]. unfold bind at 1.
  rewrite notify_dropped by assumption. exact IH.
Qed.

(** Under the guard, [call_method] records the invocation and, when the
    method raised, either logs the failure and returns normally, or ends
    with the exception that its handler raised, having logged nothing. *)
Lemma call_method_guarded f p m args w :
  _recursion (self w) = true →
  ListenerProxy.call_method (Listeners.notify (S f)) p m args w =
    (ending (escape {| d_listener := p; d_method := m; d_args := args |}),
     delivered {| d_listener := p; d_method := m; d_args := args |} w).
Proof.
  intros Hrec.
  unfold ListenerProxy.call_method, try_except, ListenerProxy.invoke.
  unfold bind at 1. unfold modify at 1.
  rewrite run_guarded by exact Hrec.
  unfold delivered, escape, failure_log, failure, handler_result, ListenerProxy.__name__.
  cbn [d_method d_args d_listener].
  destruct (raised_by (code m args)) as [e|].
  - destruct (get_error_details e) as [e'|[message details]]; cbn.
    + unfold add_delivery; cbn. by rewrite app_nil_r.
    + destruct (method_name m) as [n|]; cbn.
      * unfold LOGGER_info, modify, add_log, add_delivery; cbn.
        by rewrite <- app_assoc.
      * unfold add_delivery; cbn. by rewrite app_nil_r.
  - unfold add_delivery; cbn. by rewrite app_nil_r.
Qed.

Lemma stopped_app ds ds' :
  stopped ds = None → stopped (ds ++ ds') = stopped ds'.
Proof.
  induction ds as [|d ds IH]; [done|]. cbn.
  destruct (escape d); [done|]. exact IH.
Qed.

Lemma until_escape_all ds : stopped ds = None → until_escape ds = ds.
Proof.
  induction ds as [|d ds IH]; [done|]. cbn.
  destruct (escape d); [done|]. intros Hs. by rewrite IH.
Qed.

(** Adapters that report every failure never stop a loop. *)
Lemma handled_not_stopped ls ds :
  Forall handles_failures ls →
  map d_listener ds `prefix_of` ls →
  Forall (fun d => ∃ n, d_method d = ListenerProxy.attribute (d_listener d) n) ds →
  stopped ds = None.
Proof.
  intros Hls [ls2 ->] Hds. induction Hds as [|d ds [n Hn] _ IH]; [done|].
  cbn in Hls. apply Forall_cons in Hls as [Hd Hls]. cbn.
  specialize (Hd n (d_args d)). rewrite <- Hn in Hd.
  destruct d as [p m args]. cbn in Hd. rewrite Hd. by apply IH.
Qed.

End Basics.

Section HeapFacts.
Context `{Collaborators}.
Implicit Types (h : Py.Heap) (v item : Py.Value) (n : string).

Lemma getattr_prefix h h' item n v :
  Py.getattr h item n = inr v → h `prefix_of` h' → Py.getattr h' item n = inr v.
Proof.
  intros Hget Hpre. destruct item as [| | | | |l]; try discriminate.
  unfold Py.getattr in *.
  destruct (h !! l) as [o|] eqn:Hl; [|discriminate].
  rewrite (prefix_lookup_Some _ _ _ _ Hl Hpre). exact Hget.
Qed.

Lemma has_attr_getattr h item n :
  has_attr h item n = true → ∃ v, Py.getattr h item n = inr v.
Proof. unfold has_attr. destruct (Py.getattr h item n); [discriminate|eauto]. Qed.

Lemma has_scalar_getattr h item n :
  has_scalar h item n = true →
  ∃ v, Py.getattr h item n = inr v ∧ is_scalar v = true.
Proof. unfold has_scalar. destruct (Py.getattr h item n); [discriminate|eauto]. Qed.

Lemma has_string_getattr h item n :
  has_string h item n = true → ∃ s, Py.getattr h item n = inr (Py.VStr s).
Proof.
  unfold has_string. destruct (Py.getattr h item n) as [|[]]; try discriminate; eauto.
Qed.

Lemma has_attr_prefix h h' item n :
  h `prefix_of` h' → has_attr h item n = true → has_attr h' item n = true.
Proof.
  intros Hpre [v Hv]%has_attr_getattr. unfold has_attr.
  by rewrite (getattr_prefix _ _ _ _ _ Hv Hpre).
Qed.

Lemma has_scalar_prefix h h' item n :
  h `prefix_of` h' → has_scalar h item n = true → has_scalar h' item n = true.
Proof.
  intros Hpre (v & Hv & Hs)%has_scalar_getattr. unfold has_scalar.
  by rewrite (getattr_prefix _ _ _ _ _ Hv Hpre).
Qed.

Lemma has_string_prefix h h' item n :
  h `prefix_of` h' → has_string h item n = true → has_string h' item n = true.
Proof.
  intros Hpre [s Hs]%has_string_getattr. unfold has_string.
  by rewrite (getattr_prefix _ _ _ _ _ Hs Hpre).
Qed.

Lemma forallb_prefix (P : Py.Heap → string → bool) h h' (ns : list string) :
  (∀ n, P h n = true → P h' n = true) →
  forallb (P h) ns = true → forallb (P h') ns = true.
Proof.
  intros HP. rewrite !forallb_forall. intros Hall n Hn. apply HP, Hall, Hn.
Qed.

Lemma has_named_items_prefix h h' item n :
  h `prefix_of` h' →
  has_named_items h item n = true → has_named_items h' item n = true.
Proof.
  intros Hpre. unfold has_named_items.
  destruct (Py.getattr h item n) as [|v] eqn:Hv; [discriminate|].
  rewrite (getattr_prefix _ _ _ _ _ Hv Hpre).
  destruct v as [| | | | |l]; try discriminate.
  destruct (h !! l) as [o|] eqn:Hl; [|discriminate].
  rewrite (prefix_lookup_Some _ _ _ _ Hl Hpre).
  destruct o as [xs| |]; try discriminate.
  rewrite !forallb_forall. intros Hall x Hx.
  eapply has_attr_prefix; eauto.
Qed.

Lemma forallb_has_attr_prefix h h' item (ns : list string) :
  h `prefix_of` h' →
  forallb (has_attr h item) ns = true → forallb (has_attr h' item) ns = true.
Proof.
  intros Hpre. apply (forallb_prefix (fun h n => has_attr h item n)).
  intros n. by apply has_attr_prefix.
Qed.

Lemma forallb_has_scalar_prefix h h' item (ns : list string) :
  h `prefix_of` h' →
  forallb (has_scalar h item) ns = true → forallb (has_scalar h' item) ns = true.
Proof.
  intros Hpre. apply (forallb_prefix (fun h n => has_scalar h item n)).
  intros n. by apply has_scalar_prefix.
Qed.

Lemma suite_ready_prefix h h' suite base :
  h `prefix_of` h' → suite_ready h suite base = true → suite_ready h' suite base = true.
Proof.
  intros Hpre. unfold suite_ready. rewrite !andb_true_iff.
  intros ((((Ha & Ht) & Hs) & Hc) & Ho).
  repeat split;
    eauto using forallb_has_attr_prefix, has_named_items_prefix, has_scalar_prefix.
Qed.

Lemma test_ready_prefix h h' test base :
  h `prefix_of` h' → test_ready h test base = true → test_ready h' test base = true.
Proof.
  intros Hpre. unfold test_ready. rewrite !andb_true_iff. intros [Ha Ht].
  split; eauto using forallb_has_attr_prefix, has_scalar_prefix.
Qed.

Lemma kw_ready_prefix h h' kw base :
  h `prefix_of` h' → kw_ready h kw base = true → kw_ready h' kw base = true.
Proof.
  intros Hpre. unfold kw_ready. rewrite !andb_true_iff. intros [Ha Ht].
  split; eauto using forallb_has_attr_prefix, has_string_prefix.
Qed.

Lemma msg_ready_prefix h h' msg :
  h `prefix_of` h' → msg_ready h msg = true → msg_ready h' msg = true.
Proof.
  intros Hpre. unfold msg_ready. rewrite !andb_true_iff. intros [Ha Ht].
  split; eauto using forallb_has_scalar_prefix, has_attr_prefix.
Qed.

(** What made an event ready stays so when objects are added to the heap. *)
Lemma ready_prefix h h' ev :
  h `prefix_of` h' → ready h ev = true → ready h' ev = true.
Proof.
  intros Hpre. destruct ev; cbn [ready]; try done;
    eauto using suite_ready_prefix, test_ready_prefix, kw_ready_prefix,
      msg_ready_prefix.
  rewrite !andb_true_iff. intros [Hs Hm].
  eauto using suite_ready_prefix, has_scalar_prefix.
Qed.

End HeapFacts.

Section AttributeFacts.
Context `{Collaborators}.
Implicit Types (h : Py.Heap) (v item : Py.Value) (n : string).
Implicit Types (attrs acc : gmap string Py.Value).

Lemma bind_eq {S A B} (m : M S A) (k : A → M S B) s a s' :
  m s = (Val a, s') → bind m k s = k a s'.
Proof. intros Hm. unfold bind. by rewrite Hm. Qed.

Lemma bind_exc {S A B} (m : M S A) (k : A → M S B) s e s' :
  m s = (Exc e, s') → bind m k s = (Exc e, s').
Proof. intros Hm. unfold bind. by rewrite Hm. Qed.

Lemma bind_get {S B} (k : S → M S B) s : bind get k s = k s s.
Proof. reflexivity. Qed.

Lemma bind_modify {S B} (f : S → S) (k : unit → M S B) s :
  bind (modify f) k s = k tt (f s).
Proof. reflexivity. Qed.

Lemma bind_ret {S A B} (a : A) (k : A → M S B) s : bind (ret a) k s = k a s.
Proof. reflexivity. Qed.

Lemma getattr_eq h item n v :
  Py.getattr h item n = inr v → Listeners.read item n h = (Val v, h).
Proof. intros Hv. unfold Listeners.read, bind, get. by rewrite Hv. Qed.

Lemma lift_heap_eq {A} (m : M Py.Heap A) w a h' :
  m (heap w) = (Val a, h') →
  lift_heap m w =
    (Val a, {| heap := h'; log := log w; trace := trace w; self := self w |}).
Proof. intros Hm. unfold lift_heap. by rewrite Hm. Qed.

Lemma lift_getattr_eq w item n v :
  Py.getattr (heap w) item n = inr v →
  lift_heap (Listeners.read item n) w =
    (Val v, {| heap := heap w; log := log w; trace := trace w; self := self w |}).
Proof. intros Hv. apply lift_heap_eq. by apply getattr_eq. Qed.

Lemma fresh_or_instance_scalar h0 v : is_scalar v = true → fresh_or_instance h0 v.
Proof. intros Hs l ->. discriminate. Qed.

Lemma no_alias_empty h0 : no_alias h0 ∅.
Proof. intros k l Hk. by rewrite lookup_empty in Hk. Qed.

Lemma no_alias_insert h0 attrs n v :
  no_alias h0 attrs → fresh_or_instance h0 v → no_alias h0 (<[n := v]> attrs).
Proof.
  intros Ha Hv k l Hk Hl. rewrite lookup_insert in Hk. case_decide.
  - inversion Hk; subst. by apply (Hv l).
  - by apply (Ha k l).
Qed.

Lemma no_alias_update h0 attrs other :
  no_alias h0 attrs → no_alias h0 other → no_alias h0 (Listeners.update attrs other).
Proof.
  intros Ha Ho k l Hk Hl. unfold Listeners.update in Hk.
  apply lookup_union_Some_raw in Hk as [Hk|[_ Hk]]; eauto.
Qed.

Lemma take_copy_spec h0 h v :
  h0 `prefix_of` h →
  ∃ v' h', Listeners._take_copy_of_mutable_value v h = (Val v', h')
           ∧ h `prefix_of` h' ∧ fresh_or_instance h0 v'.
Proof.
  intros Hpre.
  unfold Listeners._take_copy_of_mutable_value, Listeners.dict, Listeners.list_of,
    Listeners.iterate, Listeners.is_dict_like, Listeners.is_list_like,
    Listeners.alloc, bind, get, ret.
  pose proof (prefix_length _ _ Hpre) as Hlen.
  destruct v as [| | | | |l];
    try (eexists _, h; split; [reflexivity|];
         split; [done| by apply fresh_or_instance_scalar]).
  cbn. destruct (h !! l) as [[xs|d|cls a]|] eqn:Hl; cbn; rewrite ?Hl; cbn.
  - eexists _, _; split; [reflexivity|]. split; [by apply prefix_app_r|].
    intros l' [= <-] Hlt. lia.
  - eexists _, _; split; [reflexivity|]. split; [by apply prefix_app_r|].
    intros l' [= <-] Hlt. lia.
  - eexists _, h; split; [reflexivity|]. split; [done|].
    intros l' [= <-] Hlt.
    destruct (lookup_lt_is_Some_2 h0 l Hlt) as [o Ho].
    pose proof (prefix_lookup_Some _ _ _ _ Ho Hpre) as Ho'.
    rewrite Hl in Ho'. inversion Ho'; subst. eauto.
  - eexists _, h; split; [reflexivity|]. split; [done|].
    intros l' [= <-] Hlt. apply lookup_ge_None in Hl. lia.
Qed.

Lemma get_attr_value_spec h0 h item n :
  h0 `prefix_of` h → has_attr h item n = true →
  ∃ v' h', Listeners._get_attr_value item n h = (Val v', h')
           ∧ h `prefix_of` h' ∧ fresh_or_instance h0 v'.
Proof.
  intros Hpre [v Hv]%has_attr_getattr.
  unfold Listeners._get_attr_value, Listeners.read, bind, get.
  rewrite Hv. cbn. by apply take_copy_spec.
Qed.

Lemma dict_of_names_spec h0 item names : ∀ h acc,
  h0 `prefix_of` h → forallb (has_attr h item) names = true → no_alias h0 acc →
  ∃ attrs h', Listeners.dict_of_names (Listeners._get_attr_value item) names acc h
                = (Val attrs, h')
              ∧ h `prefix_of` h' ∧ no_alias h0 attrs
              ∧ dom attrs = list_to_set names ∪ dom acc.
Proof.
  induction names as [|n names IH]; intros h acc Hpre Hall Hacc.
  - exists acc, h. cbn. repeat split; [done..|set_solver].
  - cbn in Hall. apply andb_true_iff in Hall as [Hn Hall].
    destruct (get_attr_value_spec h0 h item n Hpre Hn) as (v & h1 & Hv & Hpre1 & Hfresh).
    destruct (IH h1 (<[n := v]> acc)) as (attrs & h2 & Hrun & Hpre2 & Hno & Hdom).
    + by etrans.
    + eapply (forallb_prefix (fun h n => has_attr h item n)); [|exact Hall].
      intros; eapply has_attr_prefix; eauto.
    + by apply no_alias_insert.
    + exists attrs, h2. cbn. unfold bind at 1. rewrite Hv.
      split; [exact Hrun|]. split; [by etrans|]. split; [done|].
      rewrite Hdom, dom_insert_L. set_solver.
Qed.

Lemma get_attrs_spec h0 h item default extra :
  h0 `prefix_of` h →
  forallb (has_attr h item) (Listeners._get_attr_names default extra) = true →
  ∃ attrs h', Listeners._get_attrs item default extra h = (Val attrs, h')
              ∧ h `prefix_of` h' ∧ no_alias h0 attrs
              ∧ dom attrs = list_to_set (Listeners._get_attr_names default extra).
Proof.
  intros Hpre Hall. unfold Listeners._get_attrs.
  destruct (dict_of_names_spec h0 item _ h ∅ Hpre Hall (no_alias_empty h0))
    as (attrs & h' & Hrun & Hpre' & Hno & Hdom).
  exists attrs, h'. repeat split; try done. rewrite Hdom. set_solver.
Qed.

Lemma names_map_spec xs : ∀ h,
  forallb (fun x => has_attr h x "name") xs = true →
  ∃ ns, map_m (fun x => Listeners.read x "name") xs h = (Val ns, h).
Proof.
  induction xs as [|x xs IH]; intros h Hall.
  - by exists [].
  - cbn in Hall. apply andb_true_iff in Hall as [[v Hv]%has_attr_getattr Hall].
    destruct (IH h Hall) as [ns Hns]. exists (v :: ns).
    cbn. unfold bind at 1. unfold Listeners.read at 1, bind, get.
    rewrite Hv. cbn. unfold bind. rewrite Hns. reflexivity.
Qed.

(** The names of the items of attribute [n], in a list of their own. *)
Lemma names_of_attribute_spec h item n :
  has_named_items h item n = true →
  ∃ v ns, Py.getattr h item n = inr v
          ∧ Listeners.names_of v h = (Val (Py.VRef (List.length h)), h ++ [Py.OList ns]).
Proof.
  unfold has_named_items.
  destruct (Py.getattr h item n) as [|v] eqn:Hv; [discriminate|].
  destruct v as [| | | | |l]; try discriminate.
  destruct (h !! l) as [[xs| |]|] eqn:Hl; try discriminate.
  intros Hall. destruct (names_map_spec xs h Hall) as [ns Hns].
  exists (Py.VRef l), ns. split; [done|].
  unfold Listeners.names_of, Listeners.iterate, bind, get. rewrite Hl. cbn.
  rewrite Hns. reflexivity.
Qed.

Lemma get_suite_attrs_spec h0 h suite :
  h0 `prefix_of` h →
  has_named_items h suite "tests" = true → has_named_items h suite "suites" = true →
  has_scalar h suite "test_count" = true → has_scalar h suite "source" = true →
  ∃ attrs h', Listeners._get_suite_attrs suite h = (Val attrs, h')
              ∧ h `prefix_of` h' ∧ no_alias h0 attrs
              ∧ dom attrs = list_to_set ["tests"; "suites"; "totaltests"; "source"].
Proof.
  intros Hpre Htests Hsuites Hcount Hsource.
  pose proof (prefix_length _ _ Hpre) as Hlen.
  destruct (names_of_attribute_spec _ _ _ Htests) as (tv & tns & Htv & Htrun).
  set (h1 := h ++ [Py.OList tns]) in *.
  assert (Hpre1 : h `prefix_of` h1) by apply prefix_app_r, reflexivity.
  destruct (names_of_attribute_spec _ _ _ (has_named_items_prefix _ _ _ _ Hpre1 Hsuites))
    as (sv & sns & Hsv & Hsrun).
  set (h2 := h1 ++ [Py.OList sns]) in *.
  assert (Hpre2 : h1 `prefix_of` h2) by apply prefix_app_r, reflexivity.
  assert (Hpre02 : h `prefix_of` h2) by (by etrans).
  destruct (has_scalar_getattr _ _ _ (has_scalar_prefix _ _ _ _ Hpre02 Hcount))
    as (cv & Hcv & Hcs).
  destruct (has_scalar_getattr _ _ _ (has_scalar_prefix _ _ _ _ Hpre02 Hsource))
    as (ov & Hov & Hos).
  eexists _, h2. split.
  - unfold Listeners._get_suite_attrs.
    rewrite (bind_eq _ _ _ _ _ (getattr_eq _ _ _ _ Htv)).
    rewrite (bind_eq _ _ _ _ _ Htrun).
    rewrite (bind_eq _ _ _ _ _ (getattr_eq _ _ _ _ Hsv)).
    rewrite (bind_eq _ _ _ _ _ Hsrun).
    rewrite (bind_eq _ _ _ _ _ (getattr_eq _ _ _ _ Hcv)).
    rewrite (bind_eq _ _ _ _ _ (getattr_eq _ _ _ _ Hov)).
    reflexivity.
  - split; [done|]. split.
    + repeat apply no_alias_insert; try apply no_alias_empty.
      * intros l [= <-] Hlt. lia.
      * intros l [= <-] Hlt. subst h1. rewrite length_app in Hlt. lia.
      * by apply fresh_or_instance_scalar.
      * unfold Py.py_or. destruct (Py.truthy h2 ov);
          by apply fresh_or_instance_scalar.
    + rewrite !dom_insert_L. set_solver.
Qed.

Lemma create_msg_dict_spec h0 h msg :
  msg_ready h msg = true →
  ∃ attrs, Listeners._create_msg_dict msg h = (Val attrs, h)
           ∧ no_alias h0 attrs
           ∧ dom attrs = list_to_set ["timestamp"; "message"; "level"; "html"].
Proof.
  unfold msg_ready. cbn [forallb]. rewrite !andb_true_iff.
  intros [(Ht & Hm & Hl & _) Hh].
  apply has_scalar_getattr in Ht as (tv & Ht & Hts).
  apply has_scalar_getattr in Hm as (mv & Hm & Hms).
  apply has_scalar_getattr in Hl as (lv & Hl & Hls).
  apply has_attr_getattr in Hh as (hv & Hh).
  eexists. split.
  - unfold Listeners._create_msg_dict, Listeners.read, bind, get.
    rewrite Ht. cbn. rewrite Hm. cbn. rewrite Hl. cbn. rewrite Hh. cbn. reflexivity.
  - split.
    + repeat apply no_alias_insert; try apply no_alias_empty;
        by apply fresh_or_instance_scalar.
    + rewrite !dom_insert_L. set_solver.
Qed.

End AttributeFacts.

Section RoutineFacts.
Context `{Collaborators}.
Implicit Types (h : Py.Heap) (v item : Py.Value) (n : string) (w : World).
Implicit Types (attrs acc : gmap string Py.Value) (r : Registry).

(** A loop over the adapters whose body prepares the arguments and then
    calls [call_method] under the guard: it goes on to the end of the
    list, or to the first invocation at which an exception leaves
    [call_method]. *)
Lemma for_each_delivers (I : Py.Heap → Registry → Prop) (G : Delivery → Prop)
    (step : Registry → Registry) (body : Proxy → M World unit) :
  (∀ r, step (step r) = step r) →
  (∀ p w, I (heap w) (self w) →
     ∃ d h', body p w = body_result w h' (step (self w)) d
             ∧ heap w `prefix_of` h' ∧ d_listener d = p ∧ G d
             ∧ I h' (step (self w))) →
  ∀ ls w, I (heap w) (self w) →
  ∃ ds w', for_each ls body w = (ending (stopped ds), w')
           ∧ heap w `prefix_of` heap w'
           ∧ log w' = log w ++ flat_map failure_log ds
           ∧ trace w' = trace w ++ ds
           ∧ self w' = match ls with [] => self w | _ => step (self w) end
           ∧ reached ls ds ∧ Forall G ds.
Proof.
  intros Hidem Hbody ls. induction ls as [|p ls IH]; intros w HI.
  - exists [], w. cbn. rewrite !app_nil_r. by repeat split.
  - destruct (Hbody p w HI) as (d & h' & Hrun & Hpre & Hp & HG & HI').
    unfold body_result in Hrun.
    set (w1 := {| heap := h'; log := log w ++ failure_log d;
                  trace := trace w ++ [d]; self := step (self w) |}) in *.
    destruct (escape d) as [e|] eqn:He.
    + exists [d], w1. cbn [for_each stopped]. rewrite He.
      unfold bind at 1. rewrite Hrun. cbn [ending].
      split; [done|]. split; [done|].
      split; [cbn; by rewrite app_nil_r|].
      split; [done|]. split; [done|].
      split; [|by repeat constructor].
      split; [|by cbn; rewrite He]. cbn. rewrite Hp.
      by apply prefix_cons, prefix_nil.
    + destruct (IH w1 HI')
        as (ds & w' & Hrest & Hpre' & Hlog & Htrace & Hself & [Hreach Hall] & HGs).
      exists (d :: ds), w'. cbn [for_each stopped]. rewrite He.
      rewrite (bind_eq _ _ _ _ _ Hrun). split; [exact Hrest|].
      split; [by etrans|].
      split; [rewrite Hlog; cbn; by rewrite app_assoc|].
      split; [rewrite Htrace; cbn; by rewrite <- app_assoc|].
      split; [rewrite Hself; cbn; destruct ls; [done|apply Hidem]|].
      split; [|by constructor].
      split; cbn; rewrite Hp.
      * by apply prefix_cons.
      * rewrite He. intros Hs. by rewrite (Hall Hs).
Qed.

Lemma listeners_attribute_eq w ls :
  _listeners (self w) = Some ls → Listeners.listeners_attribute w = (Val ls, w).
Proof.
  intros Hls. unfold Listeners.listeners_attribute, bind, get. by rewrite Hls.
Qed.

Lemma item_name_eq w item v :
  Py.getattr (heap w) item "name" = inr v →
  Listeners.item_name item w =
    (Val v, {| heap := heap w; log := log w; trace := trace w; self := self w |}).
Proof.
  intros Hv. unfold Listeners.item_name. by apply lift_getattr_eq.
Qed.

Lemma with_critical_and_template_spec h0 w test attrs :
  has_attr (heap w) test "critical" = true →
  has_scalar (heap w) test "template" = true →
  no_alias h0 attrs →
  ∃ attrs', Listeners.with_critical_and_template test attrs w =
              (Val attrs', {| heap := heap w; log := log w; trace := trace w;
                              self := self w |})
            ∧ no_alias h0 attrs'
            ∧ dom attrs' = {["critical"; "template"]} ∪ dom attrs.
Proof.
  intros [cv Hc]%has_attr_getattr (tv & Ht & Hts)%has_scalar_getattr Hno.
  eexists. split.
  - unfold Listeners.with_critical_and_template.
    rewrite (bind_eq _ _ _ _ _ (lift_getattr_eq _ _ _ _ Hc)), bind_get.
    cbn [heap log trace self].
    erewrite bind_eq by (by apply lift_getattr_eq).
    rewrite bind_get. reflexivity.
  - split.
    + repeat apply no_alias_insert; try done;
        apply fresh_or_instance_scalar; try reflexivity.
      cbn. unfold Py.py_or. by destruct (Py.truthy _ tv).
    + rewrite !dom_insert_L. set_solver.
Qed.

Lemma get_setup_or_teardown_type_eq w kw s :
  Py.getattr (heap w) kw "type" = inr (Py.VStr s) →
  Listeners._get_setup_or_teardown_type kw w =
    (Val (kw_label (_running_test (self w)) s),
     {| heap := heap w; log := log w; trace := trace w; self := self w |}).
Proof.
  intros Hty. unfold Listeners._get_setup_or_teardown_type, Listeners.type_title.
  rewrite bind_get.
  assert (Htitle : (ty <- lift_heap (Listeners.read kw "type") ;;
                    match ty with
                    | Py.VStr s => ret (Py.title s)
                    | _ => raise (Py.AttributeError "title")
                    end) w =
                   (Val (Py.title s),
                    {| heap := heap w; log := log w; trace := trace w;
                       self := self w |})).
  { by rewrite (bind_eq _ _ _ _ _ (lift_getattr_eq _ _ _ _ Hty)). }
  by rewrite (bind_eq _ _ _ _ _ Htitle).
Qed.

Lemma get_keyword_type_spec w kw start s :
  Py.getattr (heap w) kw "type" = inr (Py.VStr s) →
  Listeners._get_keyword_type kw start w =
    (Val (reported_type (self w) s),
     {| heap := heap w; log := log w; trace := trace w;
        self := kw_step start s (self w) |}).
Proof.
  intros Hty. unfold Listeners._get_keyword_type.
  rewrite (bind_eq _ _ _ _ _ (lift_getattr_eq _ _ _ _ Hty)).
  unfold reported_type, kw_step. cbn [Py.eq_str].
  destruct (String.eqb s "kw").
  - reflexivity.
  - erewrite bind_eq by (by apply get_setup_or_teardown_type_eq).
    reflexivity.
Qed.

End RoutineFacts.

Section Bodies.
Context `{Collaborators}.
Implicit Types (h : Py.Heap) (v item : Py.Value) (n : string) (w : World).
Implicit Types (attrs acc : gmap string Py.Value) (r : Registry) (p : Proxy).

Lemma call_method_result f p m args w :
  _recursion (self w) = true →
  ListenerProxy.call_method (Listeners.notify (S f)) p m args w =
    body_result w (heap w) (self w)
      {| d_listener := p; d_method := m; d_args := args |}.
Proof. intros Hrec. by rewrite call_method_guarded. Qed.

Lemma test_body_spec f base mname test p w h0 :
  _recursion (self w) = true → h0 `prefix_of` heap w →
  test_ready (heap w) test base = true →
  ∃ name attrs h',
    (attrs <- lift_heap (Listeners._get_attrs test base ["tags"]) ;;
     attrs <- Listeners.with_critical_and_template test attrs ;;
     test_name <- Listeners.item_name test ;;
     ListenerProxy.call_method (Listeners.notify (S f)) p
       (ListenerProxy.attribute p mname)
       [AVal test_name; APayload attrs]) w
    = body_result w h' (self w)
        {| d_listener := p; d_method := ListenerProxy.attribute p mname;
           d_args := [AVal name; APayload attrs] |}
    ∧ heap w `prefix_of` h' ∧ no_alias h0 attrs
    ∧ dom attrs = {["critical"; "template"]} ∪ list_to_set (base ++ ["tags"]).
Proof.
  intros Hrec Hpre Hready. unfold test_ready in Hready.
  apply andb_true_iff in Hready as [Hall Htempl].
  rewrite forallb_app in Hall. apply andb_true_iff in Hall as [Hbase Hrest].
  cbn [forallb] in Hrest. rewrite !andb_true_iff in Hrest.
  destruct Hrest as (Htags & Hname & Hcrit & _).
  destruct (get_attrs_spec h0 (heap w) test base ["tags"])
    as (attrs & h1 & Hattrs & Hpre1 & Hno & Hdom); [done| |].
  { cbn. rewrite forallb_app, Hbase. cbn. by rewrite Htags. }
  set (w1 := {| heap := h1; log := log w; trace := trace w; self := self w |}).
  destruct (with_critical_and_template_spec h0 w1 test attrs)
    as (attrs' & Hct & Hno' & Hdom');
    [by eapply has_attr_prefix|by eapply has_scalar_prefix|done|].
  destruct (has_attr_getattr _ _ _ (has_attr_prefix _ _ _ _ Hpre1 Hname)) as [nv Hnv].
  exists nv, attrs', h1. split.
  - rewrite (bind_eq _ _ _ _ _ (lift_heap_eq _ _ _ _ Hattrs)). fold w1.
    rewrite (bind_eq _ _ _ _ _ Hct).
    erewrite bind_eq by (by apply item_name_eq).
    by rewrite call_method_result.
  - repeat split; try done. rewrite Hdom', Hdom. done.
Qed.

Lemma kw_step_idem start ty r : kw_step start ty (kw_step start ty r) = kw_step start ty r.
Proof. unfold kw_step. by destruct (String.eqb ty "kw"). Qed.

Lemma kw_step_recursion start ty r : _recursion (kw_step start ty r) = _recursion r.
Proof. unfold kw_step. by destruct (String.eqb ty "kw"). Qed.

Lemma kw_step_listeners start ty r : _listeners (kw_step start ty r) = _listeners r.
Proof. unfold kw_step. by destruct (String.eqb ty "kw"). Qed.

Lemma reported_type_kw_step start ty r :
  reported_type (kw_step start ty r) ty = reported_type r ty.
Proof. unfold reported_type, kw_step. by destruct (String.eqb ty "kw"). Qed.

Lemma kw_body_spec f base mname start kw p w h0 :
  _recursion (self w) = true → h0 `prefix_of` heap w →
  kw_ready (heap w) kw base = true →
  ∃ name attrs h',
    (attrs <- lift_heap (Listeners._get_attrs kw base Listeners._kw_extra_attrs) ;;
     kw_type <- Listeners._get_keyword_type kw start ;;
     let attrs := <["type" := Py.VStr kw_type]> attrs in
     kw_name <- Listeners.item_name kw ;;
     ListenerProxy.call_method (Listeners.notify (S f)) p
       (ListenerProxy.attribute p mname)
       [AVal kw_name; APayload attrs]) w
    = body_result w h' (kw_step start (declared_type (heap w) kw) (self w))
        {| d_listener := p; d_method := ListenerProxy.attribute p mname;
           d_args := [AVal name; APayload attrs] |}
    ∧ heap w `prefix_of` h' ∧ no_alias h0 attrs
    ∧ dom attrs = {["type"]} ∪
                  list_to_set (Listeners._get_attr_names base Listeners._kw_extra_attrs)
    ∧ attrs !! "type" =
        Some (Py.VStr (reported_type (self w) (declared_type (heap w) kw))).
Proof.
  intros Hrec Hpre Hready. unfold kw_ready in Hready.
  apply andb_true_iff in Hready as [Hall Hty].
  rewrite forallb_app in Hall. apply andb_true_iff in Hall as [Hbase Hrest].
  cbn [forallb] in Hrest. rewrite !andb_true_iff in Hrest.
  destruct Hrest as (Hname & _).
  destruct (has_string_getattr _ _ _ Hty) as [s Hs].
  assert (Hdecl : declared_type (heap w) kw = s) by (unfold declared_type; by rewrite Hs).
  rewrite Hdecl.
  destruct (get_attrs_spec h0 (heap w) kw base Listeners._kw_extra_attrs)
    as (attrs & h1 & Hattrs & Hpre1 & Hno & Hdom); [done|done|].
  set (w1 := {| heap := h1; log := log w; trace := trace w; self := self w |}).
  assert (Hs1 : Py.getattr (heap w1) kw "type" = inr (Py.VStr s))
    by (by eapply getattr_prefix).
  destruct (has_attr_getattr _ _ _ (has_attr_prefix _ _ _ _ Hpre1 Hname)) as [nv Hnv].
  exists nv, (<["type" := Py.VStr (reported_type (self w) s)]> attrs), h1. split.
  - rewrite (bind_eq _ _ _ _ _ (lift_heap_eq _ _ _ _ Hattrs)). fold w1.
    rewrite (bind_eq _ _ _ _ _ (get_keyword_type_spec w1 kw start s Hs1)).
    cbn [heap log trace self w1].
    erewrite bind_eq by (by apply item_name_eq).
    rewrite call_method_result by (cbn; by rewrite kw_step_recursion).
    reflexivity.
  - split; [done|]. split.
    + apply no_alias_insert; [done|]. by apply fresh_or_instance_scalar.
    + split; [by rewrite dom_insert_L, Hdom|]. by rewrite lookup_insert_eq.
Qed.

Lemma msg_body_spec f mname msg p w h0 :
  _recursion (self w) = true → msg_ready (heap w) msg = true →
  ∃ attrs,
    (d <- lift_heap (Listeners._create_msg_dict msg) ;;
     ListenerProxy.call_method (Listeners.notify (S f)) p
       (ListenerProxy.attribute p mname) [APayload d]) w
    = body_result w (heap w) (self w)
        {| d_listener := p; d_method := ListenerProxy.attribute p mname;
           d_args := [APayload attrs] |}
    ∧ no_alias h0 attrs
    ∧ dom attrs = list_to_set ["timestamp"; "message"; "level"; "html"].
Proof.
  intros Hrec Hready.
  destruct (create_msg_dict_spec h0 (heap w) msg Hready) as (attrs & Hrun & Hno & Hdom).
  exists attrs. split; [|done].
  rewrite (bind_eq _ _ _ _ _ (lift_heap_eq _ _ _ _ Hrun)).
  by rewrite call_method_result.
Qed.

Lemma dynamic_body_spec f suffix kind args p w :
  _recursion (self w) = true → names_method kind suffix = true →
  ∃ s, kind = Py.VStr s ∧
    (lowered <- Listeners.lower_of kind ;;
     method <- of_sum (ListenerProxy.method_named p (lowered ++ suffix)%string) ;;
     ListenerProxy.call_method (Listeners.notify (S f)) p method args) w
    = body_result w (heap w) (self w)
        {| d_listener := p;
           d_method := ListenerProxy.attribute p (Py.lower s ++ suffix)%string;
           d_args := args |}.
Proof.
  intros Hrec Hnames. destruct kind as [| | | |s|]; try discriminate.
  exists s. split; [done|]. cbn in Hnames. apply bool_decide_eq_true in Hnames.
  cbn [Listeners.lower_of]. rewrite bind_ret.
  unfold ListenerProxy.method_named. rewrite bool_decide_eq_true_2 by done.
  cbn [of_sum]. rewrite bind_ret. by rewrite call_method_result.
Qed.

Lemma start_suite_body_spec f suite p w h0 :
  _recursion (self w) = true → h0 `prefix_of` heap w →
  suite_ready (heap w) suite Listeners._start_attrs = true →
  ∃ name attrs h',
    (attrs <- lift_heap (Listeners._get_start_attrs suite ["metadata"]) ;;
     suite_attrs <- lift_heap (Listeners._get_suite_attrs suite) ;;
     let attrs := Listeners.update attrs suite_attrs in
     suite_name <- Listeners.item_name suite ;;
     ListenerProxy.call_method (Listeners.notify (S f)) p
       (ListenerProxy.attribute p "start_suite")
       [AVal suite_name; APayload attrs]) w
    = body_result w h' (self w)
        {| d_listener := p; d_method := ListenerProxy.attribute p "start_suite";
           d_args := [AVal name; APayload attrs] |}
    ∧ heap w `prefix_of` h' ∧ no_alias h0 attrs
    ∧ dom attrs = list_to_set (payload_keys (StartSuite suite)).
Proof.
  intros Hrec Hpre Hready. unfold suite_ready in Hready.
  rewrite !andb_true_iff in Hready.
  destruct Hready as ((((Hall & Htests) & Hsuites) & Hcount) & Hsource).
  rewrite forallb_app in Hall. apply andb_true_iff in Hall as [Hbase Hrest].
  cbn [forallb] in Hrest. rewrite !andb_true_iff in Hrest.
  destruct Hrest as (Hmeta & Hname & _).
  destruct (get_attrs_spec h0 (heap w) suite Listeners._start_attrs ["metadata"])
    as (attrs & h1 & Hattrs & Hpre1 & Hno & Hdom); [done| |].
  { cbn. cbn in Hbase. rewrite !andb_true_iff in *. tauto. }
  destruct (get_suite_attrs_spec h0 h1 suite) as (sattrs & h2 & Hsattrs & Hpre2 & Hsno & Hsdom);
    eauto using has_named_items_prefix, has_scalar_prefix; [by etrans|].
  assert (Hpre02 : heap w `prefix_of` h2) by (by etrans).
  destruct (has_attr_getattr _ _ _ (has_attr_prefix _ _ _ _ Hpre02 Hname)) as [nv Hnv].
  exists nv, (Listeners.update attrs sattrs), h2. split.
  - unfold Listeners._get_start_attrs.
    rewrite (bind_eq _ _ _ _ _ (lift_heap_eq _ _ _ _ Hattrs)).
    erewrite bind_eq by (by apply lift_heap_eq).
    cbn [heap log trace self].
    erewrite bind_eq by (by apply item_name_eq).
    by rewrite call_method_result.
  - split; [done|]. split; [by apply no_alias_update|].
    unfold Listeners.update. rewrite dom_union_L, Hdom, Hsdom. cbn. set_solver.
Qed.

Lemma end_suite_body_spec f suite p w h0 :
  _recursion (self w) = true → h0 `prefix_of` heap w →
  suite_ready (heap w) suite Listeners._end_attrs = true →
  has_scalar (heap w) suite "stat_message" = true →
  ∃ name attrs h',
    Listeners._notify_end_suite (Listeners.notify (S f)) p suite w
    = body_result w h' (self w)
        {| d_listener := p; d_method := ListenerProxy.attribute p "end_suite";
           d_args := [AVal name; APayload attrs] |}
    ∧ heap w `prefix_of` h' ∧ no_alias h0 attrs
    ∧ dom attrs = list_to_set (payload_keys (EndSuite suite)).
Proof.
  intros Hrec Hpre Hready Hstat. unfold suite_ready in Hready.
  rewrite !andb_true_iff in Hready.
  destruct Hready as ((((Hall & Htests) & Hsuites) & Hcount) & Hsource).
  rewrite forallb_app in Hall. apply andb_true_iff in Hall as [Hbase Hrest].
  cbn [forallb] in Hrest. rewrite !andb_true_iff in Hrest.
  destruct Hrest as (Hmeta & Hname & _).
  destruct (get_attrs_spec h0 (heap w) suite Listeners._end_attrs ["metadata"])
    as (attrs & h1 & Hattrs & Hpre1 & Hno & Hdom); [done| |].
  { cbn. cbn in Hbase. rewrite !andb_true_iff in *. tauto. }
  destruct (has_scalar_getattr _ _ _ (has_scalar_prefix _ _ _ _ Hpre1 Hstat))
    as (sv & Hsv & Hss).
  destruct (get_suite_attrs_spec h0 h1 suite) as (sattrs & h2 & Hsattrs & Hpre2 & Hsno & Hsdom);
    eauto using has_named_items_prefix, has_scalar_prefix; [by etrans|].
  assert (Hpre02 : heap w `prefix_of` h2) by (by etrans).
  destruct (has_attr_getattr _ _ _ (has_attr_prefix _ _ _ _ Hpre02 Hname)) as [nv Hnv].
  exists nv, (Listeners.update (<["statistics" := sv]> attrs) sattrs), h2. split.
  - unfold Listeners._notify_end_suite, Listeners._get_end_attrs.
    rewrite (bind_eq _ _ _ _ _ (lift_heap_eq _ _ _ _ Hattrs)).
    erewrite bind_eq by (by apply lift_getattr_eq).
    cbn [heap log trace self].
    erewrite bind_eq by (by apply lift_heap_eq).
    cbn [heap log trace self].
    erewrite bind_eq by (by apply item_name_eq).
    by rewrite call_method_result.
  - split; [done|]. split.
    + apply no_alias_update; [|done]. apply no_alias_insert; [done|].
      by apply fresh_or_instance_scalar.
    + unfold Listeners.update. rewrite dom_union_L, dom_insert_L, Hdom, Hsdom.
      cbn. set_solver.
Qed.

End Bodies.

Section Loops.
Context `{Collaborators}.
Implicit Types (h : Py.Heap) (v item : Py.Value) (n : string) (w : World).
Implicit Types (attrs acc : gmap string Py.Value) (r : Registry) (p : Proxy).

Lemma loop_outcome ev ls w (step : Registry → Registry) (J : Registry → Prop)
    (body : Proxy → M World unit) :
  (∀ r, step (step r) = step r) →
  (∀ r, _recursion (step r) = _recursion r) →
  (∀ r, J r → J (step r)) →
  _recursion (self w) = true → ready (heap w) ev = true → J (self w) →
  (∀ p w', heap w `prefix_of` heap w' → ready (heap w') ev = true →
           _recursion (self w') = true → J (self w') →
     ∃ d h', body p w' = body_result w' h' (step (self w')) d
             ∧ heap w' `prefix_of` h' ∧ d_listener d = p
             ∧ good_delivery (heap w) (self w) ev d) →
  ∃ ds w', for_each ls body w = (ending (stopped ds), w')
           ∧ heap w `prefix_of` heap w'
           ∧ log w' = log w ++ flat_map failure_log ds
           ∧ trace w' = trace w ++ ds
           ∧ self w' = match ls with [] => self w | _ => step (self w) end
           ∧ reached ls ds
           ∧ Forall (good_delivery (heap w) (self w) ev) ds.
Proof.
  intros Hidem Hsteprec HstepJ Hrec Hready HJ Hbody.
  apply (for_each_delivers
           (fun h r => heap w `prefix_of` h ∧ ready h ev = true
                       ∧ _recursion r = true ∧ J r)
           (good_delivery (heap w) (self w) ev) step body Hidem); [|done].
  intros p w' (Hpre & Hready' & Hrec' & HJ').
  destruct (Hbody p w' Hpre Hready' Hrec' HJ') as (d & h' & Hrun & Hpre' & Hp & Hgood).
  exists d, h'. split; [exact Hrun|]. split; [done|]. split; [done|]. split; [done|].
  split; [by etrans|]. split; [by eapply ready_prefix|].
  split; [by rewrite Hsteprec|by apply HstepJ].
Qed.

Lemma declared_type_prefix h h' kw base :
  h `prefix_of` h' → kw_ready h kw base = true →
  declared_type h' kw = declared_type h kw.
Proof.
  intros Hpre Hready. unfold kw_ready in Hready.
  apply andb_true_iff in Hready as [_ [s Hs]%has_string_getattr].
  unfold declared_type. by rewrite Hs, (getattr_prefix _ _ _ _ _ Hs Hpre).
Qed.

Lemma kw_start_names :
  Listeners._get_attr_names Listeners._start_attrs Listeners._kw_extra_attrs
  = ["doc"; "starttime"; "args"; "assign"; "kwname"; "libname"].
Proof. reflexivity. Qed.

Lemma kw_end_names :
  Listeners._get_attr_names Listeners._end_attrs Listeners._kw_extra_attrs
  = ["doc"; "starttime"; "endtime"; "elapsedtime"; "status";
     "args"; "assign"; "kwname"; "libname"].
Proof. reflexivity. Qed.

Lemma kw_routine_outcome f base mname start kw ev ls w :
  (ev = StartKeyword kw ∨ ev = EndKeyword kw) →
  (∀ h, ready h ev = kw_ready h kw base) →
  event_method ev = (fun p => ListenerProxy.attribute p mname) →
  list_to_set (payload_keys ev) =@{gset string}
    {["type"]} ∪ list_to_set (Listeners._get_attr_names base Listeners._kw_extra_attrs) →
  payload_keys ev ≠ [] →
  _recursion (self w) = true → ready (heap w) ev = true →
  ∃ ds w',
    for_each ls (fun listener =>
      attrs <- lift_heap (Listeners._get_attrs kw base Listeners._kw_extra_attrs) ;;
      kw_type <- Listeners._get_keyword_type kw start ;;
      let attrs := <["type" := Py.VStr kw_type]> attrs in
      kw_name <- Listeners.item_name kw ;;
      ListenerProxy.call_method (Listeners.notify (S f)) listener
        (ListenerProxy.attribute listener mname)
        [AVal kw_name; APayload attrs]) w = (ending (stopped ds), w')
    ∧ heap w `prefix_of` heap w'
    ∧ log w' = log w ++ flat_map failure_log ds
    ∧ trace w' = trace w ++ ds
    ∧ self w' = match ls with
                | [] => self w
                | _ => kw_step start (declared_type (heap w) kw) (self w)
                end
    ∧ reached ls ds
    ∧ Forall (good_delivery (heap w) (self w) ev) ds.
Proof.
  intros Hev Hreadyeq Hmeth Hkeys Hne Hrec Hready.
  set (ty := declared_type (heap w) kw).
  apply (loop_outcome ev ls w (kw_step start ty)
           (fun r => reported_type r ty = reported_type (self w) ty)).
  - apply kw_step_idem.
  - apply kw_step_recursion.
  - intros r Hr. by rewrite reported_type_kw_step.
  - done.
  - done.
  - done.
  - intros p w' Hpre Hready' Hrec' HJ.
    rewrite Hreadyeq in Hready, Hready'.
    destruct (kw_body_spec f base mname start kw p w' (heap w) Hrec' Hpre Hready')
      as (name & attrs & h' & Hrun & Hpre' & Hno & Hdom & Htype).
    rewrite (declared_type_prefix _ _ _ _ Hpre Hready) in Hrun, Htype. fold ty in Hrun, Htype.
    eexists _, h'. split; [exact Hrun|]. split; [done|]. split; [done|].
    unfold good_delivery. cbn [d_method d_listener]. rewrite Hmeth.
    split; [done|]. split.
    + destruct (payload_keys ev) eqn:Hk; [done|].
      exists attrs. split; [done|]. split; [|done]. by rewrite Hdom, <- Hkeys.
    + assert (Hgoal : ∃ attrs0, payload
               {| d_listener := p; d_method := ListenerProxy.attribute p mname;
                  d_args := [AVal name; APayload attrs] |} = Some attrs0
               ∧ attrs0 !! "type" = Some (Py.VStr (reported_type (self w) ty))).
      { exists attrs. split; [done|]. by rewrite Htype, HJ. }
      by destruct Hev as [-> | ->].
Qed.

End Loops.

Section RoutineSpecs.
Context `{Collaborators}.
Implicit Types (h : Py.Heap) (v item : Py.Value) (n : string) (w : World).
Implicit Types (attrs acc : gmap string Py.Value) (r : Registry) (p : Proxy).

Lemma good_delivery_registry h0 r r' ev d :
  match ev with StartKeyword _ | EndKeyword _ => False | _ => True end →
  good_delivery h0 r ev d → good_delivery h0 r' ev d.
Proof. by destruct ev. Qed.

Lemma test_routine_outcome f base mname test ev ls w b :
  (ev = StartTest test ∨ ev = EndTest test) →
  (∀ h, ready h ev = test_ready h test base) →
  event_method ev = (fun p => ListenerProxy.attribute p mname) →
  list_to_set (payload_keys ev) =@{gset string}
    {["critical"; "template"]} ∪ list_to_set (base ++ ["tags"]) →
  payload_keys ev ≠ [] →
  _recursion (self w) = true → ready (heap w) ev = true →
  let w1 := set_self (set_running_test b (self w)) w in
  ∃ ds w',
    for_each ls (fun listener =>
      attrs <- lift_heap (Listeners._get_attrs test base ["tags"]) ;;
      attrs <- Listeners.with_critical_and_template test attrs ;;
      test_name <- Listeners.item_name test ;;
      ListenerProxy.call_method (Listeners.notify (S f)) listener
        (ListenerProxy.attribute listener mname)
        [AVal test_name; APayload attrs]) w1 = (ending (stopped ds), w')
    ∧ heap w `prefix_of` heap w'
    ∧ log w' = log w ++ flat_map failure_log ds
    ∧ trace w' = trace w ++ ds
    ∧ self w' = set_running_test b (self w)
    ∧ reached ls ds
    ∧ Forall (good_delivery (heap w) (self w) ev) ds.
Proof.
  intros Hev Hreadyeq Hmeth Hkeys Hne Hrec Hready w1.
  destruct (loop_outcome ev ls w1 (fun r => r) (fun _ => True)
              (fun listener =>
                 attrs <- lift_heap (Listeners._get_attrs test base ["tags"]) ;;
                 attrs <- Listeners.with_critical_and_template test attrs ;;
                 test_name <- Listeners.item_name test ;;
                 ListenerProxy.call_method (Listeners.notify (S f)) listener
                   (ListenerProxy.attribute listener mname)
                   [AVal test_name; APayload attrs]))
    as (ds & w' & Hrun & Hpre & Hlog & Htrace & Hself & Hmap & Hgood); try done.
  - intros p w' Hpre Hready' Hrec' _. rewrite Hreadyeq in Hready'.
    destruct (test_body_spec f base mname test p w' (heap w) Hrec' Hpre Hready')
      as (name & attrs & h' & Hrun & Hpre' & Hno & Hdom).
    eexists _, h'. split; [exact Hrun|]. split; [done|]. split; [done|].
    unfold good_delivery. cbn [d_method d_listener]. rewrite Hmeth.
    split; [done|]. split; [|by destruct Hev as [-> | ->]].
    destruct (payload_keys ev) eqn:Hk; [done|].
    exists attrs. split; [done|]. split; [|done]. by rewrite Hdom, <- Hkeys.
  - exists ds, w'. do 4 (split; [done|]).
    split; [rewrite Hself; by destruct ls|]. split; [done|].
    eapply Forall_impl; [exact Hgood|]. intros d. apply good_delivery_registry.
    by destruct Hev as [-> | ->].
Qed.

Lemma simple_routine_outcome ev ls w (body : Proxy → M World unit) :
  match ev with
  | StartKeyword _ | EndKeyword _ | StartTest _ | EndTest _ => False
  | _ => True
  end →
  _recursion (self w) = true → ready (heap w) ev = true →
  (∀ p w', heap w `prefix_of` heap w' → ready (heap w') ev = true →
           _recursion (self w') = true →
     ∃ d h', body p w' = body_result w' h' (self w') d
             ∧ heap w' `prefix_of` h' ∧ d_listener d = p
             ∧ good_delivery (heap w) (self w) ev d) →
  ∃ ds w', for_each ls body w = (ending (stopped ds), w') ∧ routine_progress ev ls w w' ds.
Proof.
  intros Hev Hrec Hready Hbody.
  destruct (loop_outcome ev ls w (fun r => r) (fun _ => True) body)
    as (ds & w' & Hrun & Hpre & Hlog & Htrace & Hself & Hmap & Hgood); try done.
  - intros p w' Hpre Hready' Hrec' _. by apply Hbody.
  - exists ds, w'. do 4 (split; [done|]). split; [|done].
    rewrite Hself. destruct ev; try done; by destruct ls.
Qed.

(** Entered under the guard with its event ready, every routine invokes
    the method of the event on each adapter, in the order of
    registration, and logs the failures, until an exception leaves
    [call_method] or the adapters are exhausted. *)
Lemma routine_progresses f ev w ls :
  _recursion (self w) = true → _listeners (self w) = Some ls →
  ready (heap w) ev = true →
  ∃ ds w', Listeners.routine (Listeners.notify (S f)) ev w = (ending (stopped ds), w')
           ∧ routine_progress ev ls w w' ds.
Proof.
  intros Hrec Hls Hready.
  destruct ev as [suite|suite|test|test|kw|kw|ity iname iattrs|msg|msg|fty path|];
    cbn [Listeners.routine].
  - unfold Listeners.start_suite.
    rewrite (bind_eq _ _ _ _ _ (listeners_attribute_eq _ _ Hls)).
    apply simple_routine_outcome; try done.
    intros p w' Hpre Hready' Hrec'.
    destruct (start_suite_body_spec f suite p w' (heap w) Hrec' Hpre Hready')
      as (name & attrs & h' & Hrun & Hpre' & Hno & Hdom).
    eexists _, h'. split; [exact Hrun|]. repeat split; try done.
    by exists attrs.
  - unfold Listeners.end_suite.
    rewrite (bind_eq _ _ _ _ _ (listeners_attribute_eq _ _ Hls)).
    apply simple_routine_outcome; try done.
    intros p w' Hpre Hready' Hrec'.
    cbn [ready] in Hready'. apply andb_true_iff in Hready' as [Hs Hstat].
    destruct (end_suite_body_spec f suite p w' (heap w) Hrec' Hpre Hs Hstat)
      as (name & attrs & h' & Hrun & Hpre' & Hno & Hdom).
    eexists _, h'. split; [exact Hrun|]. repeat split; try done.
    by exists attrs.
  - unfold Listeners.start_test, Listeners.set_attribute. rewrite bind_modify.
    erewrite bind_eq by (by apply listeners_attribute_eq).
    destruct (test_routine_outcome f Listeners._start_attrs "start_test" test
                (StartTest test) ls w true (or_introl eq_refl) (fun _ => eq_refl) eq_refl
                ltac:(cbn; set_solver) ltac:(done) Hrec Hready)
      as (ds & w' & Hrun & Hout).
    by exists ds, w'.
  - unfold Listeners.end_test, Listeners.set_attribute. rewrite bind_modify.
    erewrite bind_eq by (by apply listeners_attribute_eq).
    destruct (test_routine_outcome f Listeners._end_attrs "end_test" test
                (EndTest test) ls w false (or_intror eq_refl) (fun _ => eq_refl) eq_refl
                ltac:(cbn; set_solver) ltac:(done) Hrec Hready)
      as (ds & w' & Hrun & Hout).
    by exists ds, w'.
  - unfold Listeners.start_keyword.
    rewrite (bind_eq _ _ _ _ _ (listeners_attribute_eq _ _ Hls)).
    destruct (kw_routine_outcome f Listeners._start_attrs "start_keyword" true kw
                (StartKeyword kw) ls w (or_introl eq_refl) (fun _ => eq_refl) eq_refl
                ltac:(rewrite kw_start_names; cbn; set_solver) ltac:(done) Hrec Hready)
      as (ds & w' & Hrun & Hout).
    by exists ds, w'.
  - unfold Listeners.end_keyword.
    rewrite (bind_eq _ _ _ _ _ (listeners_attribute_eq _ _ Hls)).
    destruct (kw_routine_outcome f Listeners._end_attrs "end_keyword" false kw
                (EndKeyword kw) ls w (or_intror eq_refl) (fun _ => eq_refl) eq_refl
                ltac:(rewrite kw_end_names; cbn; set_solver) ltac:(done) Hrec Hready)
      as (ds & w' & Hrun & Hout).
    by exists ds, w'.
  - unfold Listeners.imported.
    rewrite (bind_eq _ _ _ _ _ (listeners_attribute_eq _ _ Hls)).
    apply simple_routine_outcome; try done.
    intros p w' Hpre Hready' Hrec'.
    destruct (dynamic_body_spec f "_import" ity [AVal iname; AVal iattrs] p w' Hrec' Hready')
      as (s & -> & Hrun).
    eexists _, (heap w'). split; [exact Hrun|]. by repeat split.
  - unfold Listeners.log_message.
    rewrite (bind_eq _ _ _ _ _ (listeners_attribute_eq _ _ Hls)).
    apply simple_routine_outcome; try done.
    intros p w' Hpre Hready' Hrec'.
    destruct (msg_body_spec f "log_message" msg p w' (heap w) Hrec' Hready')
      as (attrs & Hrun & Hno & Hdom).
    eexists _, (heap w'). split; [exact Hrun|]. repeat split; try done.
    by exists attrs.
  - unfold Listeners.message.
    rewrite (bind_eq _ _ _ _ _ (listeners_attribute_eq _ _ Hls)).
    apply simple_routine_outcome; try done.
    intros p w' Hpre Hready' Hrec'.
    destruct (msg_body_spec f "message" msg p w' (heap w) Hrec' Hready')
      as (attrs & Hrun & Hno & Hdom).
    eexists _, (heap w'). split; [exact Hrun|]. repeat split; try done.
    by exists attrs.
  - unfold Listeners.output_file.
    rewrite (bind_eq _ _ _ _ _ (listeners_attribute_eq _ _ Hls)).
    apply simple_routine_outcome; try done.
    intros p w' Hpre Hready' Hrec'.
    destruct (dynamic_body_spec f "_file" fty [AVal path] p w' Hrec' Hready')
      as (s & -> & Hrun).
    eexists _, (heap w'). split; [exact Hrun|]. by repeat split.
  - unfold Listeners.close.
    rewrite (bind_eq _ _ _ _ _ (listeners_attribute_eq _ _ Hls)).
    apply simple_routine_outcome; try done.
    intros p w' Hpre Hready' Hrec'.
    eexists _, (heap w'). split; [by apply call_method_result|]. by repeat split.
Qed.

Lemma good_delivery_method h0 r ev d :
  good_delivery h0 r ev d →
  ∃ n, d_method d = ListenerProxy.attribute (d_listener d) n.
Proof. intros [Hm _]. rewrite Hm. unfold event_method. by eexists. Qed.

(** Over adapters that report every failure, a routine is not stopped. *)
Lemma progress_not_stopped ev ls w w' ds :
  Forall handles_failures ls → routine_progress ev ls w w' ds →
  stopped ds = None ∧ routine_outcome ev ls w w' ds.
Proof.
  intros Hls (Hpre & Hlog & Htrace & Hself & [Hreach Hall] & Hgood).
  assert (Hs : stopped ds = None).
  { apply (handled_not_stopped ls); [done|done|].
    eapply Forall_impl; [exact Hgood|]. intros d. apply good_delivery_method. }
  split; [done|]. do 4 (split; [done|]). split; [by apply Hall|done].
Qed.

(** Entered under the guard with its event ready, over adapters that
    report every failure, every routine runs to its end: it invokes the
    method of the event on each adapter, in the order of registration,
    and logs the failures. *)
Lemma routine_spec f ev w ls :
  _recursion (self w) = true → _listeners (self w) = Some ls →
  Forall handles_failures ls → ready (heap w) ev = true →
  ∃ ds w', Listeners.routine (Listeners.notify (S f)) ev w = (Val tt, w')
           ∧ routine_outcome ev ls w w' ds.
Proof.
  intros Hrec Hls Hhandled Hready.
  destruct (routine_progresses f ev w ls Hrec Hls Hready) as (ds & w' & Hrun & Hout).
  destruct (progress_not_stopped _ _ _ _ _ Hhandled Hout) as [Hs Hout'].
  rewrite Hs in Hrun. by exists ds, w'.
Qed.

End RoutineSpecs.

Section NotifySpec.
Context `{Collaborators}.
Implicit Types (h : Py.Heap) (v item : Py.Value) (n : string) (w : World).
Implicit Types (attrs acc : gmap string Py.Value) (r : Registry) (p : Proxy).

Lemma after_routine_set_recursion h ev ls b r :
  set_recursion b (after_routine h ev ls r) = after_routine h ev ls (set_recursion b r).
Proof.
  destruct ev; try done; cbn [after_routine]; destruct ls; try done;
    unfold kw_step; by destruct (String.eqb _ "kw").
Qed.

(** A notification entered with the guard clear and its event ready runs
    the routine. When the routine returns, the guard is cleared again;
    when an exception leaves [call_method], the adapters after that one
    are not invoked, the exception leaves the notification, and the guard
    stays set. *)
Lemma notify_progresses f ev w ls :
  _recursion (self w) = false → _listeners (self w) = Some ls →
  ready (heap w) ev = true →
  ∃ ds w', Listeners.notify (S (S f)) ev w = (ending (stopped ds), w')
           ∧ heap w `prefix_of` heap w'
           ∧ log w' = log w ++ flat_map failure_log ds
           ∧ trace w' = trace w ++ ds
           ∧ self w' = set_recursion
                         match stopped ds with Some _ => true | None => false end
                         (after_routine (heap w) ev ls (self w))
           ∧ reached ls ds
           ∧ Forall (good_delivery (heap w) (self w) ev) ds.
Proof.
  intros Hrec Hls Hready.
  destruct (routine_progresses f ev (with_recursion true w) ls)
    as (ds & w1 & Hrun & Hpre & Hlog & Htrace & Hself & Hreach & Hgood); try done.
  cbn [self with_recursion set_self heap] in Hself.
  rewrite <- after_routine_set_recursion in Hself.
  assert (Hnotify : Listeners.notify (S (S f)) ev w =
            (ending (stopped ds),
             match stopped ds with
             | Some _ => w1
             | None => with_recursion false w1
             end)).
  { cbn [Listeners.notify]. unfold avoid_recursion at 1.
    rewrite bind_get, Hrec. cbn [negb]. rewrite bind_modify.
    destruct (stopped ds); cbn [ending] in *.
    - by rewrite (bind_exc _ _ _ _ _ Hrun).
    - by rewrite (bind_eq _ _ _ _ _ Hrun). }
  eexists ds, _. split; [exact Hnotify|].
  destruct (stopped ds); cbn [self with_recursion set_self heap log trace];
    (do 3 (split; [done|])); (split; [|done]); rewrite Hself; [done|].
  by destruct (after_routine (heap w) ev ls (self w)).
Qed.

(** Over adapters that report every failure, a notification entered with
    the guard clear and its event ready runs the routine to its end and
    clears the guard again. *)
Lemma notify_spec f ev w ls :
  _recursion (self w) = false → _listeners (self w) = Some ls →
  Forall handles_failures ls → ready (heap w) ev = true →
  ∃ ds w', Listeners.notify (S (S f)) ev w = (Val tt, w')
           ∧ routine_outcome ev ls w w' ds.
Proof.
  intros Hrec Hls Hhandled Hready.
  destruct (notify_progresses f ev w ls Hrec Hls Hready)
    as (ds & w' & Hrun & Hpre & Hlog & Htrace & Hself & Hreach & Hgood).
  assert (Hout : routine_progress ev ls w w' ds ∧ stopped ds = None).
  { assert (Hs : stopped ds = None).
    { apply (handled_not_stopped ls); [done|apply Hreach|].
      eapply Forall_impl; [exact Hgood|]. intros d. apply good_delivery_method. }
    split; [|done]. do 3 (split; [done|]). split; [|done].
    rewrite Hself, Hs, after_routine_set_recursion. f_equal.
    destruct (self w) as [a b c e]. cbn in *. by subst. }
  destruct Hout as [Hout Hs]. rewrite Hs in Hrun.
  exists ds, w'. split; [done|].
  by apply (progress_not_stopped ev ls w w' ds Hhandled).
Qed.

(** The invocations and the log entries of a notification, read off the
    states before and after it. *)
Lemma outcome_since ev ls w w' ds :
  routine_outcome ev ls w w' ds →
  deliveries_since w w' = ds ∧ logged_since w w' = flat_map failure_log ds.
Proof.
  intros (_ & Hlog & Htrace & _). unfold deliveries_since, logged_since.
  rewrite Hlog, Htrace. by rewrite !drop_app_length.
Qed.

(** ** Preservation of the guard *)

Lemma keeps_guard_ret {A} (a : A) : keeps_guard (ret a).
Proof. intros w o w' Hrec [= _ <-]. done. Qed.

Lemma keeps_guard_raise {A} e : keeps_guard (@raise World A e).
Proof. intros w o w' Hrec [= _ <-]. done. Qed.

Lemma keeps_guard_of_sum {A} (x : Py.Exception + A) : keeps_guard (of_sum x).
Proof. destruct x; [apply keeps_guard_raise|apply keeps_guard_ret]. Qed.

Lemma keeps_guard_bind {A B} (m : M World A) (k : A → M World B) :
  keeps_guard m → (∀ a, keeps_guard (k a)) → keeps_guard (bind m k).
Proof.
  intros Hm Hk w o w' Hrec. unfold bind.
  destruct (m w) as [[a|e|] w1] eqn:Hrun.
  - intros Hrun'. eapply Hk; [|exact Hrun']. eapply Hm; eauto.
  - intros [= _ <-]. eapply Hm; eauto.
  - intros [= _ <-]. eapply Hm; eauto.
Qed.

Lemma keeps_guard_get : keeps_guard get.
Proof. intros w o w' Hrec [= _ <-]. done. Qed.

Lemma keeps_guard_lift_heap {A} (m : M Py.Heap A) : keeps_guard (lift_heap m).
Proof.
  intros w o w' Hrec. unfold lift_heap. destruct (m (heap w)). by intros [= _ <-].
Qed.

Lemma keeps_guard_set_attribute (g : Registry → Registry) :
  (∀ r, _recursion (g r) = _recursion r) →
  keeps_guard (Listeners.set_attribute g).
Proof. intros Hg w o w' Hrec [= _ <-]. cbn. by rewrite Hg. Qed.

Lemma keeps_guard_for_each {A} (xs : list A) (body : A → M World unit) :
  (∀ x, keeps_guard (body x)) → keeps_guard (for_each xs body).
Proof.
  intros Hbody. induction xs as [|x xs IH]; cbn.
  - apply keeps_guard_ret.
  - apply keeps_guard_bind; [apply Hbody|done].
Qed.

Lemma keeps_guard_notify f ev : keeps_guard (Listeners.notify f ev).
Proof.
  intros w o w' Hrec. destruct f as [|f].
  - by intros [= _ <-].
  - rewrite notify_dropped by done. by intros [= _ <-].
Qed.

Lemma keeps_guard_run f a : keeps_guard (ListenerProxy.run (Listeners.notify f) a).
Proof.
  induction a as [| e | ev k IH]; cbn.
  - apply keeps_guard_ret.
  - apply keeps_guard_raise.
  - apply keeps_guard_bind; [apply keeps_guard_notify|done].
Qed.

Lemma keeps_guard_call_method f p m args :
  keeps_guard (ListenerProxy.call_method (Listeners.notify f) p m args).
Proof.
  intros w o w' Hrec. unfold ListenerProxy.call_method, try_except.
  destruct (ListenerProxy.invoke (Listeners.notify f) p m args w) as [o1 w1] eqn:Hinv.
  assert (Hrec1 : _recursion (self w1) = true).
  { revert Hinv. unfold ListenerProxy.invoke. rewrite bind_modify.
    intros Hinv. eapply keeps_guard_run; [|exact Hinv]. done. }
  destruct o1 as [[]|e|]; try (by intros [= _ <-]).
  destruct (get_error_details e) as [e'|[message details]]; cbn [of_sum].
  - unfold bind, raise. by intros [= _ <-].
  - rewrite bind_ret. unfold ListenerProxy.__name__.
    destruct (method_name m) as [n|]; cbn [of_sum].
    + rewrite bind_ret. unfold LOGGER_error, LOGGER_info. rewrite bind_modify.
      by intros [= _ <-].
    + unfold bind, raise. by intros [= _ <-].
Qed.

Lemma keeps_guard_listeners : keeps_guard Listeners.listeners_attribute.
Proof.
  intros w o w' Hrec. unfold Listeners.listeners_attribute. rewrite bind_get.
  destruct (_listeners (self w)); by intros [= _ <-].
Qed.

Lemma keeps_guard_get_keyword_type kw start :
  keeps_guard (Listeners._get_keyword_type kw start).
Proof.
  unfold Listeners._get_keyword_type, Listeners._get_setup_or_teardown_type,
    Listeners.type_title.
  apply keeps_guard_bind; [apply keeps_guard_lift_heap|]. intros ty.
  destruct (Py.eq_str ty "kw").
  - apply keeps_guard_bind; [apply keeps_guard_get|]. intros. apply keeps_guard_ret.
  - apply keeps_guard_bind.
    + apply keeps_guard_bind; [apply keeps_guard_get|]. intros w.
      apply keeps_guard_bind.
      * apply keeps_guard_bind; [apply keeps_guard_lift_heap|].
        intros []; first [apply keeps_guard_ret | apply keeps_guard_raise].
      * intros. apply keeps_guard_ret.
    + intros kw_type. apply keeps_guard_bind; [|intros; apply keeps_guard_ret].
      by apply keeps_guard_set_attribute.
Qed.

Lemma keeps_guard_with_critical test attrs :
  keeps_guard (Listeners.with_critical_and_template test attrs).
Proof.
  unfold Listeners.with_critical_and_template.
  repeat first [ apply keeps_guard_lift_heap | apply keeps_guard_get
               | apply keeps_guard_ret
               | apply keeps_guard_bind; [|intros] ].
Qed.

Lemma keeps_guard_lower v : keeps_guard (Listeners.lower_of v).
Proof. destruct v; first [apply keeps_guard_ret | apply keeps_guard_raise]. Qed.

(** Nothing that a routine does clears the guard, whether it returns or
    raises. *)
Lemma keeps_guard_routine f ev : keeps_guard (Listeners.routine (Listeners.notify f) ev).
Proof.
  destruct ev; cbn [Listeners.routine];
    unfold Listeners.start_suite, Listeners.end_suite, Listeners._notify_end_suite,
      Listeners.start_test, Listeners.end_test, Listeners._notify_end_test,
      Listeners.start_keyword, Listeners.end_keyword, Listeners.imported,
      Listeners.log_message, Listeners.message, Listeners.output_file,
      Listeners.close, Listeners.item_name;
    repeat first
      [ apply keeps_guard_listeners | apply keeps_guard_lift_heap
      | apply keeps_guard_call_method | apply keeps_guard_get_keyword_type
      | apply keeps_guard_with_critical | apply keeps_guard_lower
      | apply keeps_guard_of_sum
      | apply keeps_guard_set_attribute; done
      | apply keeps_guard_for_each; intros
      | apply keeps_guard_bind; [|intros] ].
Qed.

End NotifySpec.

Section Sequences.
Context `{Collaborators}.
Implicit Types (h : Py.Heap) (w : World) (r : Registry) (p : Proxy).

Lemma after_routine_recursion h ev ls r :
  _recursion (after_routine h ev ls r) = _recursion r.
Proof.
  destruct ev; try done; cbn [after_routine]; destruct ls; try done;
    apply kw_step_recursion.
Qed.

Lemma after_routine_listeners h ev ls r :
  _listeners (after_routine h ev ls r) = _listeners r.
Proof.
  destruct ev; try done; cbn [after_routine]; destruct ls; try done;
    apply kw_step_listeners.
Qed.

Lemma declared_type_eq h h' kw s :
  Py.getattr h kw "type" = inr (Py.VStr s) → h `prefix_of` h' →
  declared_type h' kw = s.
Proof.
  intros Hs Hpre. unfold declared_type. by rewrite (getattr_prefix _ _ _ _ _ Hs Hpre).
Qed.

(** One notification of a sequence, the objects of which were ready in
    the heap [h0] that the run started from. *)
Lemma notify_step f ev w ls h0 :
  _recursion (self w) = false → _listeners (self w) = Some ls →
  Forall handles_failures ls →
  h0 `prefix_of` heap w → ready h0 ev = true →
  ∃ w', Listeners.notify (S (S f)) ev w = (Val tt, w')
        ∧ h0 `prefix_of` heap w'
        ∧ _recursion (self w') = false ∧ _listeners (self w') = Some ls
        ∧ self w' = after_routine (heap w) ev ls (self w)
        ∧ map d_listener (deliveries_since w w') = ls
        ∧ Forall (good_delivery (heap w) (self w) ev) (deliveries_since w w').
Proof.
  intros Hrec Hls Hhandled Hpre Hready.
  destruct (notify_spec f ev w ls Hrec Hls Hhandled (ready_prefix _ _ _ Hpre Hready))
    as (ds & w' & Hrun & Hout).
  destruct (outcome_since _ _ _ _ _ Hout) as [Hds _].
  destruct Hout as (Hpre' & _ & _ & Hself & Hmap & Hgood).
  exists w'. rewrite Hds. repeat split; try done.
  - by etrans.
  - by rewrite Hself, after_routine_recursion.
  - by rewrite Hself, after_routine_listeners.
Qed.

(** The invocations of one notification, whether or not it is
    interrupted by an exception that leaves [call_method]. *)
Lemma notify_deliveries f ev w ls :
  _recursion (self w) = false → _listeners (self w) = Some ls →
  ready (heap w) ev = true →
  ∃ w', Listeners.notify (S (S f)) ev w
          = (ending (stopped (deliveries_since w w')), w')
        ∧ heap w `prefix_of` heap w'
        ∧ (Forall handles_failures ls →
           stopped (deliveries_since w w') = None
           ∧ map d_listener (deliveries_since w w') = ls)
        ∧ Forall (good_delivery (heap w) (self w) ev) (deliveries_since w w').
Proof.
  intros Hrec Hls Hready.
  destruct (notify_progresses f ev w ls Hrec Hls Hready)
    as (ds & w' & Hrun & Hpre & _ & Htrace & _ & [Hreach Hall] & Hgood).
  assert (Hds : deliveries_since w w' = ds).
  { unfold deliveries_since. by rewrite Htrace, drop_app_length. }
  exists w'. rewrite Hds. do 2 (split; [done|]). split; [|done].
  intros Hhandled.
  assert (Hs : stopped ds = None).
  { apply (handled_not_stopped ls); [done|done|].
    eapply Forall_impl; [exact Hgood|]. intros d. apply good_delivery_method. }
  split; [done|by apply Hall].
Qed.

(** The derived type that the invocations of a keyword event carry. *)
Lemma keyword_types h0 r ev kw (ds : list Delivery) :
  (ev = StartKeyword kw ∨ ev = EndKeyword kw) →
  Forall (good_delivery h0 r ev) ds →
  reported_types ds =
    replicate (length ds) (Some (Py.VStr (reported_type r (declared_type h0 kw)))).
Proof.
  intros Hev Hgood. unfold reported_types.
  induction Hgood as [|d ds Hd _ IH]; [done|].
  cbn [map length replicate]. rewrite IH. f_equal.
  destruct Hd as (_ & _ & Hty).
  destruct Hev as [-> | ->]; destruct Hty as (attrs & -> & Hattrs); done.
Qed.

End Sequences.

Section GuardFacts.
Context `{Collaborators}.
Implicit Types (h : Py.Heap) (w : World) (r : Registry) (p : Proxy).

(** The wrapper around a routine that returns: the guard is set before
    the routine and cleared after it. *)
Lemma notify_returns f ev w w1 :
  _recursion (self w) = false →
  Listeners.routine (Listeners.notify f) ev (with_recursion true w) = (Val tt, w1) →
  Listeners.notify (S f) ev w = (Val tt, with_recursion false w1).
Proof.
  intros Hrec Hrun. cbn [Listeners.notify]. unfold avoid_recursion at 1.
  rewrite bind_get, Hrec. cbn [negb]. rewrite bind_modify.
  by rewrite (bind_eq _ _ _ _ _ Hrun).
Qed.

(** The wrapper around a routine that raises: the exception passes
    through, and the assignment that clears the guard is not reached. *)
Lemma notify_raises f ev w e w1 :
  _recursion (self w) = false →
  Listeners.notify (S f) ev w = (Exc e, w1) →
  Listeners.routine (Listeners.notify f) ev (with_recursion true w) = (Exc e, w1).
Proof.
  intros Hrec. cbn [Listeners.notify]. unfold avoid_recursion at 1.
  rewrite bind_get, Hrec. cbn [negb]. rewrite bind_modify. unfold bind at 1.
  destruct (Listeners.routine (Listeners.notify f) ev (with_recursion true w))
    as [[[]|e'|] w2]; [discriminate| |discriminate].
  by intros [= -> ->].
Qed.

(** The wrapper around a routine, however it ends. *)
Lemma notify_wrapped f ev w o w1 :
  _recursion (self w) = false →
  Listeners.routine (Listeners.notify f) ev (with_recursion true w) = (ending o, w1) →
  Listeners.notify (S f) ev w
  = (ending o, match o with Some _ => w1 | None => with_recursion false w1 end).
Proof.
  intros Hrec Hrun. cbn [Listeners.notify]. unfold avoid_recursion at 1.
  rewrite bind_get, Hrec. cbn [negb]. rewrite bind_modify.
  destruct o as [e|]; cbn [ending] in *.
  - by rewrite (bind_exc _ _ _ _ _ Hrun).
  - by rewrite (bind_eq _ _ _ _ _ Hrun).
Qed.

(** Once the guard is set, notifications leave the run as it is. *)
Lemma notifications_dropped f evs w :
  _recursion (self w) = true →
  for_each evs (Listeners.notify (S f)) w = (Val tt, w).
Proof.
  intros Hrec. induction evs as [|ev evs IH]; [done|].
  cbn [for_each]. by rewrite (bind_eq _ _ _ _ _ (notify_dropped f ev w Hrec)).
Qed.

End GuardFacts.

(* ===================================================================== *)
(** * The claims of the specification                                     *)
(* ===================================================================== *)

Section Claims.
Context `{Collaborators}.
Implicit Types (h : Py.Heap) (w : World) (r : Registry) (p : Proxy).

(** C1 (as amended). A notification entered from the run, for an event
    whose objects are well formed, invokes the adapters once each, in the
    order of registration, and an exception raised by a listener method
    that the handler of [call_method] reports does not reach the caller:
    it costs exactly one [ERROR] entry (naming the method and the
    listener) and one [INFO] entry (the details), and the adapters after
    it are still invoked. The notification returns normally unless an
    exception leaves the handler itself, which happens only when
    [get_error_details] raises or the method has no [__name__]; nothing
    is logged for that invocation. Over adapters that report every
    failure, the notification returns normally and every adapter is
    invoked. *)
Theorem listener_failure_is_isolated f ev w ls :
  _recursion (self w) = false → _listeners (self w) = Some ls →
  ready (heap w) ev = true →
  ∃ w', Listeners.notify (S (S f)) ev w
          = (ending (stopped (deliveries_since w w')), w')
        ∧ trace w' = trace w ++ deliveries_since w w'
        ∧ log w' = log w ++ logged_since w w'
        ∧ map d_listener (deliveries_since w w') `prefix_of` ls
        ∧ (stopped (deliveries_since w w') = None →
           map d_listener (deliveries_since w w') = ls)
        ∧ (Forall handles_failures ls → stopped (deliveries_since w w') = None)
        ∧ Forall (fun d => d_method d = event_method ev (d_listener d))
            (deliveries_since w w')
        ∧ logged_since w w' = flat_map failure_log (deliveries_since w w')
        ∧ (∀ d, failure d = None → escape d = None ∧ failure_log d = [])
        ∧ (∀ d e message details n,
             failure d = Some e →
             get_error_details e = inr (message, details) →
             method_name (d_method d) = Some n →
             escape d = None
             ∧ failure_log d =
                 [(ERROR, "Calling method '" ++ n ++ "' of listener '"
                          ++ name (d_listener d) ++ "' failed: " ++ message)%string;
                  (INFO, "Details:" ++ newline ++ details)%string])
        ∧ (∀ d e, escape d = Some e → failure_log d = []).
Proof.
  intros Hrec Hls Hready.
  destruct (notify_progresses f ev w ls Hrec Hls Hready)
    as (ds & w' & Hrun & _ & Hlog & Htrace & _ & [Hreach Hall] & Hgood).
  assert (Hds : deliveries_since w w' = ds).
  { unfold deliveries_since. by rewrite Htrace, drop_app_length. }
  assert (Hlogged : logged_since w w' = flat_map failure_log ds).
  { unfold logged_since. by rewrite Hlog, drop_app_length. }
  exists w'. rewrite Hds, Hlogged.
  do 5 (split; [done|]).
  split.
  { intros Hhandled. apply (handled_not_stopped ls); [done|done|].
    eapply Forall_impl; [exact Hgood|]. intros d. apply good_delivery_method. }
  split; [eapply Forall_impl; [exact Hgood|]; by intros d [Hm _]|].
  split; [done|].
  split; [intros d Hd; unfold escape, failure_log; by rewrite Hd|].
  split.
  - intros d e message details n Hd He Hn.
    unfold escape, failure_log, handler_result. by rewrite Hd, He, Hn.
  - intros d e. unfold escape, failure_log.
    destruct (failure d) as [e0|]; [|done].
    by destruct (handler_result d e0).
Qed.

(** C2 (as amended). The adapter of a listener object cannot be
    constructed without the version attribute ([DataError]: the listener
    does not have the mandatory attribute), nor when [int] of the attribute
    raises [ValueError] or [TypeError] or gives an integer other than 2
    ([DataError]: unsupported API version); it is constructed, with
    version 2, exactly when [int] of the attribute gives 2. *)
Theorem version_is_validated_through_int (l : Listener) :
  match ROBOT_LISTENER_API_VERSION l with
  | None =>
      ListenerProxy.__init__ (SpecObject l) =
        inl (Py.DataError ("Listener '" ++ listener_type l ++
               "' does not have mandatory 'ROBOT_LISTENER_API_VERSION' attribute.")%string)
  | Some v =>
      match Py.int v with
      | inr z =>
          if z =? 2
          then ListenerProxy.__init__ (SpecObject l) =
                 inr {| logger := l; name := listener_type l; version := 2 |}
          else ListenerProxy.__init__ (SpecObject l) =
                 inl (Py.DataError ("Listener '" ++ listener_type l ++
                        "' uses unsupported API version '" ++ str v ++ "'.")%string)
      | inl (Py.ValueError _) | inl (Py.TypeError _) =>
          ListenerProxy.__init__ (SpecObject l) =
            inl (Py.DataError ("Listener '" ++ listener_type l ++
                   "' uses unsupported API version '" ++ str v ++ "'.")%string)
      | inl (Py.AttributeError _) =>
          ListenerProxy.__init__ (SpecObject l) =
            inl (Py.DataError ("Listener '" ++ listener_type l ++
                   "' does not have mandatory 'ROBOT_LISTENER_API_VERSION' attribute.")%string)
      | inl e => ListenerProxy.__init__ (SpecObject l) = inl e
      end
  end
  ∧ ((∃ p, ListenerProxy.__init__ (SpecObject l) = inr p)
     ↔ ∃ v, ROBOT_LISTENER_API_VERSION l = Some v ∧ Py.int v = inr 2).
Proof.
  unfold ListenerProxy.__init__, ListenerProxy._import_listener,
    ListenerProxy._get_version, ListenerProxy.version_attribute.
  destruct (ROBOT_LISTENER_API_VERSION l) as [v|].
  - destruct (Py.int v) as [e|z] eqn:Hint.
    + split; [by destruct e|].
      split; [destruct e; by intros [p Hp]|intros (v' & [= <-] & Hv'); congruence].
    + destruct (Z.eqb_spec z 2) as [->|Hz]; cbn.
      * split; [done|]. split; eauto.
      * split; [done|]. split; [by intros [p Hp]|].
        intros (v' & [= <-] & Hv'). congruence.
  - split; [done|]. split; [by intros [p Hp]|by intros (v' & Hv' & _)].
Qed.

End Claims.

Section Claim3.
Context `{Collaborators}.


End Claim3.

Section Guard.
Context `{Collaborators}.
Implicit Types (h : Py.Heap) (w : World) (r : Registry) (p : Proxy).

(** C4 (as amended). While the guard is set, a notification on the same
    instance does nothing: it invokes no adapter, writes no log entry and
    raises nothing. A notification entered from the run sets the guard
    before its routine, the guard is set during the whole routine and
    when the routine ends, and when the routine returns, the guard is
    cleared afterwards. Over adapters that report every failure of their
    methods the routine does return: each adapter is invoked exactly once
    even if listeners call back into the registry, and the next
    notification entered from the run is delivered to every adapter
    again. *)
Theorem guard_drops_nested_notifications f ev next w ls :
  _recursion (self w) = false → _listeners (self w) = Some ls →
  ready (heap w) ev = true → ready (heap w) next = true →
  (∀ nested wn, _recursion (self wn) = true →
     Listeners.notify (S f) nested wn = (Val tt, wn))
  ∧ (∀ o w1,
       Listeners.routine (Listeners.notify (S f)) ev (with_recursion true w) = (o, w1) →
       _recursion (self w1) = true)
  ∧ (∀ w1,
       Listeners.routine (Listeners.notify (S f)) ev (with_recursion true w)
         = (Val tt, w1) →
       Listeners.notify (S (S f)) ev w = (Val tt, with_recursion false w1))
  ∧ (Forall handles_failures ls →
     ∃ w1 w2,
       Listeners.routine (Listeners.notify (S f)) ev (with_recursion true w)
         = (Val tt, w1)
       ∧ Listeners.notify (S (S f)) ev w = (Val tt, with_recursion false w1)
       ∧ map d_listener (deliveries_since w (with_recursion false w1)) = ls
       ∧ Listeners.notify (S (S f)) next (with_recursion false w1) = (Val tt, w2)
       ∧ map d_listener (deliveries_since (with_recursion false w1) w2) = ls).
Proof.
  intros Hrec Hls Hready Hnext.
  split; [intros nested wn; apply notify_dropped|].
  split; [intros o w1 Hrun; eapply keeps_guard_routine; [|exact Hrun]; done|].
  split; [intros w1 Hrun; by apply notify_returns|].
  intros Hhandled.
  destruct (routine_spec f ev (with_recursion true w) ls)
    as (ds & w1 & Hrun & Hout); try done.
  pose proof (notify_returns (S f) ev w w1 Hrec Hrun) as Hnotify.
  destruct (notify_step f ev w ls (heap w) Hrec Hls Hhandled (reflexivity _) Hready)
    as (w' & Hrun' & Hpre' & Hrec' & Hls' & _ & Hmap' & _).
  rewrite Hnotify in Hrun'. injection Hrun' as <-.
  destruct (notify_step f next (with_recursion false w1) ls (heap w) Hrec' Hls'
              Hhandled Hpre' Hnext)
    as (w2 & Hrun2 & _ & _ & _ & _ & Hmap2 & _).
  by exists w1, w2.
Qed.

(** C10. When an exception escapes the routine behind a public
    notification operation, the guard is still set afterwards, and it
    stays set: every later notification on the instance returns at once,
    leaving the run, and so the record of invocations, as it is. *)
Theorem escaping_exception_leaves_guard_set f ev w e w1 :
  _recursion (self w) = false →
  Listeners.notify (S f) ev w = (Exc e, w1) →
  _recursion (self w1) = true
  ∧ ∀ f' later, for_each later (Listeners.notify (S f')) w1 = (Val tt, w1).
Proof.
  intros Hrec Hrun. apply notify_raises in Hrun; [|done].
  assert (Hset : _recursion (self w1) = true).
  { eapply keeps_guard_routine; [|exact Hrun]. done. }
  split; [done|]. intros f' later. by apply notifications_dropped.
Qed.

(** C9, the registry made from no specification at all: [__init__] does
    not assign [_listeners], so the emptiness check raises, and so does
    the first notification, whatever its event, which also leaves the
    guard set. *)
Theorem absent_listeners_break_the_registry f ev w :
  ∃ w1 w2,
    Listeners.new None w = (Val tt, w1)
    ∧ Listeners.__nonzero__ (self w1) = inl (Py.AttributeError "_listeners")
    ∧ Listeners.notify (S f) ev w1 = (Exc (Py.AttributeError "_listeners"), w2)
    ∧ _recursion (self w2) = true.
Proof.
  exists (Listeners.new None w).2,
         (Listeners.notify (S f) ev (Listeners.new None w).2).2.
  split; [reflexivity|]. split; [reflexivity|]. by destruct ev.
Qed.

(** The registry made from an empty sequence is inert. *)
Lemma empty_registry_is_inert f ev w :
  ∃ w1 w2,
    Listeners.new (Some []) w = (Val tt, w1)
    ∧ Listeners.__nonzero__ (self w1) = inr false
    ∧ Listeners.notify (S f) ev w1 = (Val tt, w2)
    ∧ log w2 = log w ∧ trace w2 = trace w ∧ heap w2 = heap w.
Proof.
  exists (Listeners.new (Some []) w).2,
         (Listeners.notify (S f) ev (Listeners.new (Some []) w).2).2.
  split; [reflexivity|]. split; [reflexivity|]. by destruct ev.
Qed.

End Guard.

Section Construction.
Context `{Collaborators}.
Implicit Types (h : Py.Heap) (w : World) (r : Registry) (p : Proxy).

Lemma constructed_cons s specs :
  constructed (s :: specs) =
    match ListenerProxy.__init__ s with
    | inr p => p :: constructed specs
    | inl _ => constructed specs
    end.
Proof. unfold constructed. cbn. by destruct (ListenerProxy.__init__ s). Qed.

Lemma rejections_cons s specs :
  rejections (s :: specs) =
    match ListenerProxy.__init__ s with
    | inl (Py.DataError message) =>
        (ERROR, Listeners.import_failed_message (Listeners.display_name s) message)
        :: rejections specs
    | _ => rejections specs
    end.
Proof.
  unfold rejections. cbn. by destruct (ListenerProxy.__init__ s) as [[]|].
Qed.

Lemma import_listeners_spec specs : ∀ w,
  forallb constructs_or_data_error specs = true →
  Listeners._import_listeners specs w =
    (Val (constructed specs),
     {| heap := heap w; log := log w ++ rejections specs;
        trace := trace w; self := self w |}).
Proof.
  induction specs as [|s specs IH]; intros w Hall.
  - cbn. rewrite app_nil_r. destruct w. reflexivity.
  - cbn [forallb] in Hall. apply andb_true_iff in Hall as [Hs Hall].
    unfold constructs_or_data_error in Hs.
    rewrite constructed_cons, rejections_cons. cbn [Listeners._import_listeners].
    destruct (ListenerProxy.__init__ s) as [e|p].
    + destruct e; try discriminate.
      unfold LOGGER_error. rewrite bind_modify, IH by done.
      cbn. by rewrite <- app_assoc.
    + rewrite (bind_eq _ _ _ _ _ (IH w Hall)). reflexivity.
Qed.

Lemma constructed_rejections_length specs :
  forallb constructs_or_data_error specs = true →
  (length (constructed specs) + length (rejections specs) = length specs)%nat.
Proof.
  induction specs as [|s specs IH]; [done|]. cbn [forallb].
  intros [Hs Hall]%andb_true_iff. specialize (IH Hall).
  unfold constructs_or_data_error in Hs.
  rewrite constructed_cons, rejections_cons.
  destruct (ListenerProxy.__init__ s) as [e|p].
  - destruct e; try discriminate. cbn [length]. lia.
  - cbn [length]. lia.
Qed.

(** C5. When the construction of each adapter ends with an adapter or
    with a [DataError], the registry is created with the adapters that
    could be constructed, in the order of their specifications, and the
    log grows by one [ERROR] entry for each specification that could not,
    naming it by its string, or by the type name of the object. The number
    of adapters is the number of specifications less the number of these
    failures. *)
Theorem failed_listeners_are_dropped specs w :
  forallb constructs_or_data_error specs = true →
  Listeners.new (Some specs) w =
    (Val tt,
     {| heap := heap w; log := log w ++ rejections specs; trace := trace w;
        self := {| _listeners := Some (constructed specs); _running_test := false;
                   _setup_or_teardown_type := None; _recursion := false |} |})
  ∧ (length (constructed specs) = length specs - length (rejections specs))%nat
  ∧ constructed specs =
      omap (fun s => match ListenerProxy.__init__ s with
                     | inr p => Some p
                     | inl _ => None
                     end) specs
  ∧ rejections specs =
      omap (fun s => match ListenerProxy.__init__ s with
                     | inl (Py.DataError message) =>
                         Some (ERROR,
                               ("Taking listener '" ++
                                match s with
                                | SpecName path => path
                                | SpecObject l => listener_type l
                                end ++ "' into use failed: " ++ message)%string)
                     | _ => None
                     end) specs.
Proof.
  intros Hall. split; [|split; [|done]].
  - unfold Listeners.new, Listeners.__init__, Listeners.set_attribute.
    rewrite bind_modify.
    erewrite bind_eq;
      [|erewrite bind_eq by (by apply import_listeners_spec); reflexivity].
    reflexivity.
  - pose proof (constructed_rejections_length specs Hall). lia.
Qed.

End Construction.

Section Payloads.
Context `{Collaborators}.
Implicit Types (h : Py.Heap) (w : World) (r : Registry) (p : Proxy).

(** C6 (as amended). The attribute dictionary that the registry builds
    for an invocation (of the suite, test, keyword and message events)
    shares no list and no dictionary with the heap that the notification
    started from: its lists and dictionaries are new objects, copied one
    level deep. So when a list or a dictionary that existed then, such as
    the test list of the suite or the tag list of the test, is changed or
    replaced after the notification, the object that every entry of the
    dictionary refers to is what it was. This holds of every invocation
    made, also when the notification is interrupted. (The name and the
    attributes that [imported] receives are no such dictionary: they are
    handed on as they are.) *)
Theorem payload_is_not_aliased f ev w ls :
  _recursion (self w) = false → _listeners (self w) = Some ls →
  ready (heap w) ev = true → payload_keys ev ≠ [] →
  ∃ w', Listeners.notify (S (S f)) ev w
          = (ending (stopped (deliveries_since w w')), w')
        ∧ (Forall handles_failures ls →
           stopped (deliveries_since w w') = None
           ∧ map d_listener (deliveries_since w w') = ls)
        ∧ ∀ d, d ∈ deliveries_since w w' →
            ∃ attrs, payload d = Some attrs
              ∧ ∀ k v l0 o0 o,
                  attrs !! k = Some v →
                  heap w !! l0 = Some o0 → is_container o0 = true →
                  observe (<[l0 := o]> (heap w')) v = observe (heap w') v.
Proof.
  intros Hrec Hls Hready Hkeys.
  destruct (notify_deliveries f ev w ls Hrec Hls Hready)
    as (w' & Hrun & Hpre & Hall & Hgood).
  exists w'. split; [done|]. split; [done|].
  intros d Hd. rewrite Forall_forall in Hgood.
  destruct (Hgood d Hd) as (_ & Hpayload & _).
  destruct (payload_keys ev) as [|key keys]; [done|].
  destruct Hpayload as (attrs & Hattrs & _ & Hno).
  exists attrs. split; [done|].
  intros k v l0 o0 o Hk Hl0 Hcont.
  destruct v as [| | | | |l]; try done. cbn [observe].
  apply list_lookup_insert_ne. intros <-.
  destruct (Hno k l0 Hk) as (cls & a & Hinst).
  - by eapply lookup_lt_Some.
  - rewrite Hl0 in Hinst. by injection Hinst as ->.
Qed.

Lemma in_key_list (k : string) (keys : list string) :
  k ∈ (list_to_set keys : gset string) ↔ In k keys.
Proof. by rewrite elem_of_list_to_set, list_elem_of_In. Qed.

(** C7 (as amended). The attribute dictionary of every invocation of
    [end_test] has exactly the keys id, doc, starttime, longname, endtime,
    elapsedtime, status, message, tags, critical and template. This holds
    of every invocation made, also when an exception that leaves
    [call_method] interrupts the notification; over adapters that report
    every failure the notification returns normally and every adapter is
    invoked. *)
Theorem end_test_payload_keys f test w ls :
  _recursion (self w) = false → _listeners (self w) = Some ls →
  ready (heap w) (EndTest test) = true →
  ∃ w', Listeners.notify (S (S f)) (EndTest test) w
          = (ending (stopped (deliveries_since w w')), w')
        ∧ (Forall handles_failures ls →
           stopped (deliveries_since w w') = None
           ∧ map d_listener (deliveries_since w w') = ls)
        ∧ ∀ d, d ∈ deliveries_since w w' →
            ∃ attrs, payload d = Some attrs
              ∧ dom attrs =
                  list_to_set ["id"; "doc"; "starttime"; "longname"; "endtime";
                               "elapsedtime"; "status"; "message"; "tags";
                               "critical"; "template"].
Proof.
  intros Hrec Hls Hready.
  destruct (notify_deliveries f _ w ls Hrec Hls Hready)
    as (w' & Hrun & _ & Hall & Hgood).
  exists w'. split; [done|]. split; [done|].
  intros d Hd. rewrite Forall_forall in Hgood.
  destruct (Hgood d Hd) as (_ & (attrs & Hattrs & Hdom & _) & _).
  by exists attrs.
Qed.

(** C8. The attribute dictionary of every invocation of [start_keyword]
    and of [end_keyword] lacks the keys id, longname and message and has
    the keys args, assign, kwname, libname and type. This holds of every
    invocation made, also when an exception that leaves [call_method]
    interrupts the notification; over adapters that report every failure
    the notification returns normally and every adapter is invoked. *)
Theorem keyword_payload_keys f ev kw w ls :
  ev = StartKeyword kw ∨ ev = EndKeyword kw →
  _recursion (self w) = false → _listeners (self w) = Some ls →
  ready (heap w) ev = true →
  ∃ w', Listeners.notify (S (S f)) ev w
          = (ending (stopped (deliveries_since w w')), w')
        ∧ (Forall handles_failures ls →
           stopped (deliveries_since w w') = None
           ∧ map d_listener (deliveries_since w w') = ls)
        ∧ ∀ d, d ∈ deliveries_since w w' →
            ∃ attrs, payload d = Some attrs
              ∧ Forall (fun k => k ∉ dom attrs) ["id"; "longname"; "message"]
              ∧ Forall (fun k => k ∈ dom attrs)
                  ["args"; "assign"; "kwname"; "libname"; "type"].
Proof.
  intros Hev Hrec Hls Hready.
  destruct (notify_deliveries f _ w ls Hrec Hls Hready)
    as (w' & Hrun & _ & Hall & Hgood).
  exists w'. split; [done|]. split; [done|].
  intros d Hd. rewrite Forall_forall in Hgood.
  destruct (Hgood d Hd) as (_ & Hpayload & _).
  destruct Hev as [-> | ->]; destruct Hpayload as (attrs & Hattrs & Hdom & _);
    exists attrs; (split; [done|]); rewrite Hdom; cbn [payload_keys];
    split; repeat constructor; rewrite in_key_list; cbn;
    intuition discriminate.
Qed.

End Payloads.

(* ===================================================================== *)
(** * The claims on the small run                                         *)
(* ===================================================================== *)

(** C2 (as stated) fails: a listener whose version attribute is the float
    2.5, which is not equal to 2, is accepted, with version 2. *)
Lemma fractional_version_is_accepted :
  ROBOT_LISTENER_API_VERSION Example.fractional = Some (Py.VFloat (Py.FFinite 5 (-1)))
  ∧ Py.equals_two (Py.VFloat (Py.FFinite 5 (-1))) = false
  ∧ @ListenerProxy.__init__ Example.collaborators (SpecObject Example.fractional)
    = inr {| logger := Example.fractional; name := "Fractional"; version := 2 |}.
Proof. repeat split. Qed.

(** The listeners of the examples raise nothing that the handler of
    [call_method] does not report. *)
Lemma two_listeners_report :
  Forall (@handles_failures Example.collaborators) Example.two_listeners.
Proof.
  repeat constructor; intros n args; unfold escape, failure; cbn;
    destruct (String.eqb n "start_test"); reflexivity.
Qed.

Lemma one_listener_reports :
  Forall (@handles_failures Example.collaborators) Example.one_listener.
Proof. repeat constructor; intros n args; reflexivity. Qed.

Lemma echoing_listeners_report :
  Forall (@handles_failures Example.collaborators) Example.echoing_listeners.
Proof.
  repeat constructor; intros n args; unfold escape, failure; cbn;
    destruct (String.eqb n "log_message"); reflexivity.
Qed.

(** C1 (as amended) at work: the first of two listeners raises an
    exception in [start_test] that the handler reports; the second is
    still invoked, and the log has the two entries, with the message and
    the details that [get_error_details] returns. *)
Lemma failing_listener_does_not_stop_delivery :
  ∃ w' message details,
    @Listeners.notify Example.collaborators 2 (StartTest Example.test)
      (Example.run_with Example.two_listeners) = (Val tt, w')
    ∧ map (fun d => name (d_listener d))
        (deliveries_since (Example.run_with Example.two_listeners) w')
      = ["Failing"; "Silent"]
    ∧ @get_error_details Example.collaborators
        (Py.OtherException "RuntimeError" "boom") = inr (message, details)
    ∧ log w' =
        [(ERROR, ("Calling method 'start_test' of listener 'Failing' failed: "
                  ++ message)%string);
         (INFO, ("Details:" ++ newline ++ details)%string)].
Proof.
  destruct (@listener_failure_is_isolated Example.collaborators 0
              (StartTest Example.test) (Example.run_with Example.two_listeners)
              Example.two_listeners)
    as (w' & Hrun & _ & _ & _ & _ & Hstop & _);
    [vm_compute; reflexivity..|].
  rewrite (Hstop two_listeners_report) in Hrun.
  exists w', "<message>", "<details>". split; [exact Hrun|].
  replace w' with (@Listeners.notify Example.collaborators 2 (StartTest Example.test)
                     (Example.run_with Example.two_listeners)).2
    by (by rewrite Hrun).
  split; [vm_compute; reflexivity|]. split; vm_compute; reflexivity.
Defined.

(** C1 (as stated) fails: the first of two listeners raises
    [KeyboardInterrupt] in [start_test]. [get_error_details] raises it
    again inside the handler, so it leaves [call_method] and the
    notification: the second listener is not invoked, nothing is logged,
    and the guard stays set. *)
Lemma interrupt_is_not_isolated :
  _listeners (self (Example.run_with Example.interrupted_listeners))
    = Some Example.interrupted_listeners
  ∧ @Listeners.notify Example.collaborators 2 (StartTest Example.test)
      (Example.run_with Example.interrupted_listeners)
    = (Exc (Py.OtherException "KeyboardInterrupt" ""),
       Example.after (StartTest Example.test)
         (Example.run_with Example.interrupted_listeners))
  ∧ map (fun d => name (d_listener d))
      (trace (Example.after (StartTest Example.test)
                (Example.run_with Example.interrupted_listeners)))
    = ["Interrupting"]
  ∧ log (Example.after (StartTest Example.test)
           (Example.run_with Example.interrupted_listeners)) = []
  ∧ _recursion
      (self (Example.after (StartTest Example.test)
               (Example.run_with Example.interrupted_listeners))) = true.
Proof. repeat split; vm_compute; reflexivity. Qed.


(** C4 (as amended) at work: a listener whose [log_message] causes a new
    [log_message] notification is invoked once, as is the listener after
    it, and the guard is clear again afterwards. *)
Lemma feedback_example :
  ∃ w1 w2,
    @Listeners.notify Example.collaborators 2 (LogMessage Example.msg)
      (Example.run_with Example.echoing_listeners)
      = (Val tt, with_recursion false w1)
    ∧ map d_listener
        (deliveries_since (Example.run_with Example.echoing_listeners)
           (with_recursion false w1))
      = Example.echoing_listeners
    ∧ @Listeners.notify Example.collaborators 2 Close (with_recursion false w1)
      = (Val tt, w2)
    ∧ map d_listener (deliveries_since (with_recursion false w1) w2)
      = Example.echoing_listeners.
Proof.
  destruct (@guard_drops_nested_notifications Example.collaborators 0
              (LogMessage Example.msg) Close
              (Example.run_with Example.echoing_listeners)
              Example.echoing_listeners)
    as (_ & _ & _ & Hhandled); [vm_compute; reflexivity..|].
  destruct (Hhandled echoing_listeners_report) as (w1 & w2 & _ & H1 & M1 & H2 & M2).
  exists w1, w2. repeat split; assumption.
Defined.

(** C4 (as stated) fails: a notification whose routine raises, here for
    an import type that no method of the adapter is named after, ends with
    the guard set; the next notification entered from the run invokes no
    adapter, although the registry has one. *)
Lemma guard_not_cleared_after_exception :
  _listeners (self (Example.run_with Example.one_listener))
    = Some Example.one_listener
  ∧ _recursion (self (Example.run_with Example.one_listener)) = false
  ∧ @Listeners.notify Example.collaborators 2 Example.bogus_import
      (Example.run_with Example.one_listener)
    = (Exc (Py.AttributeError "bogus_import"),
       Example.after Example.bogus_import (Example.run_with Example.one_listener))
  ∧ _recursion
      (self (Example.after Example.bogus_import
               (Example.run_with Example.one_listener))) = true
  ∧ @Listeners.notify Example.collaborators 2 Close
      (Example.after Example.bogus_import (Example.run_with Example.one_listener))
    = (Val tt,
       Example.after Example.bogus_import (Example.run_with Example.one_listener))
  ∧ trace (Example.after Example.bogus_import
             (Example.run_with Example.one_listener)) = [].
Proof. repeat split; vm_compute; reflexivity. Qed.

(** C5 at work: of five configured listeners, one cannot be imported, one
    has no version attribute and one declares version "1". *)
Lemma configured_listeners_example :
  ∃ w', @Listeners.new Example.collaborators (Some Example.configured)
          Example.fresh_run = (Val tt, w')
        ∧ _listeners (self w')
          = Some [Example.proxy_of Example.failing; Example.proxy_of Example.silent]
        ∧ log w' =
            [(ERROR, "Taking listener 'missing.py' into use failed: Importing listener 'missing.py' failed.");
             (ERROR, "Taking listener 'Unversioned' into use failed: Listener 'Unversioned' does not have mandatory 'ROBOT_LISTENER_API_VERSION' attribute.");
             (ERROR, "Taking listener 'Outdated' into use failed: Listener 'Outdated' uses unsupported API version '1'.")].
Proof.
  destruct (@failed_listeners_are_dropped Example.collaborators
              Example.configured Example.fresh_run) as (Hrun & _);
    [vm_compute; reflexivity|].
  eexists. split; [exact Hrun|]. split; vm_compute; reflexivity.
Defined.

(** C6 (as amended) at work: after [start_suite] has been delivered, the
    test list of the suite (object 2) and its metadata (object 1) are
    replaced; the lists and the dictionary seen through the delivered
    attributes are unchanged. *)
Lemma suite_payload_example :
  ∃ w', @Listeners.notify Example.collaborators 2 (StartSuite Example.suite)
          (Example.run_with Example.two_listeners) = (Val tt, w')
        ∧ map d_listener (deliveries_since (Example.run_with Example.two_listeners) w')
          = Example.two_listeners
        ∧ ∀ d, d ∈ deliveries_since (Example.run_with Example.two_listeners) w' →
            ∃ attrs, payload d = Some attrs
              ∧ ∀ k v, attrs !! k = Some v →
                  observe (<[2%nat := Py.OList []]> (heap w')) v = observe (heap w') v
                  ∧ observe (<[1%nat := Py.ODict ∅]> (heap w')) v = observe (heap w') v.
Proof.
  destruct (@payload_is_not_aliased Example.collaborators 0
              (StartSuite Example.suite) (Example.run_with Example.two_listeners)
              Example.two_listeners) as (w' & Hrun & Hall & Hds);
    [vm_compute; reflexivity | vm_compute; reflexivity | vm_compute; reflexivity
    | discriminate |].
  destruct (Hall two_listeners_report) as [Hs Hmap]. rewrite Hs in Hrun.
  exists w'. split; [exact Hrun|]. split; [exact Hmap|]. intros d Hd.
  destruct (Hds d Hd) as (attrs & Hattrs & Hobs).
  exists attrs. split; [exact Hattrs|]. intros k v Hk. split.
  - apply (Hobs k v 2%nat (Py.OList [Py.VRef 4]) _ Hk); reflexivity.
  - apply (Hobs k v 1%nat (Py.ODict {["Author" := Py.VStr "me"]}) _ Hk); reflexivity.
Defined.

(** C6 (as stated) fails: [imported] hands the attributes of the import
    to the listener as they are. Here they are the dictionary at location
    1; the listener receives this very reference, so that a change of the
    dictionary after the notification changes what the listener sees
    through the argument it was given. *)
Lemma imported_attributes_are_aliased :
  heap (Example.run_with Example.one_listener) !! 1%nat
    = Some (Py.ODict {["Author" := Py.VStr "me"]})
  ∧ @Listeners.notify Example.collaborators 2 Example.library_import
      (Example.run_with Example.one_listener)
    = (Val tt, Example.after Example.library_import
                 (Example.run_with Example.one_listener))
  ∧ map d_args
      (deliveries_since (Example.run_with Example.one_listener)
         (Example.after Example.library_import
            (Example.run_with Example.one_listener)))
    = [[AVal (Py.VStr "BuiltIn"); AVal (Py.VRef 1)]]
  ∧ observe
      (<[1%nat := Py.ODict ∅]>
         (heap (Example.after Example.library_import
                  (Example.run_with Example.one_listener))))
      (Py.VRef 1)
    ≠ observe
        (heap (Example.after Example.library_import
                 (Example.run_with Example.one_listener)))
        (Py.VRef 1).
Proof.
  split; [reflexivity|]. split; [vm_compute; reflexivity|].
  split; [vm_compute; reflexivity|]. vm_compute. discriminate.
Qed.

(** C7 (as amended) at work. *)
Lemma end_test_keys_example :
  ∃ w', @Listeners.notify Example.collaborators 2 (EndTest Example.test)
          (Example.run_with Example.two_listeners) = (Val tt, w')
        ∧ map d_listener (deliveries_since (Example.run_with Example.two_listeners) w')
          = Example.two_listeners
        ∧ ∀ d, d ∈ deliveries_since (Example.run_with Example.two_listeners) w' →
            ∃ attrs, payload d = Some attrs
              ∧ dom attrs =
                  list_to_set ["id"; "doc"; "starttime"; "longname"; "endtime";
                               "elapsedtime"; "status"; "message"; "tags";
                               "critical"; "template"].
Proof.
  destruct (@end_test_payload_keys Example.collaborators 0 Example.test
              (Example.run_with Example.two_listeners) Example.two_listeners)
    as (w' & Hrun & Hall & Hds); [vm_compute; reflexivity..|].
  destruct (Hall two_listeners_report) as [Hs Hmap]. rewrite Hs in Hrun.
  exists w'. split; [exact Hrun|]. split; assumption.
Defined.

(** C7 (as stated) fails: the attributes delivered with [end_test] have
    the key starttime, which is not among the ten keys of the claim. *)
Lemma end_test_payload_has_starttime :
  @Listeners.notify Example.collaborators 2 (EndTest Example.test)
    (Example.run_with Example.one_listener)
  = (Val tt, Example.after (EndTest Example.test)
               (Example.run_with Example.one_listener))
  ∧ deliveries_since (Example.run_with Example.one_listener)
      (Example.after (EndTest Example.test) (Example.run_with Example.one_listener))
    = [Example.end_test_delivery]
  ∧ payload Example.end_test_delivery = Some Example.end_test_attrs
  ∧ Example.end_test_attrs !! "starttime" = Some (Py.VStr "20150101 12:00:00.000")
  ∧ dom Example.end_test_attrs ≠
      list_to_set ["id"; "doc"; "endtime"; "elapsedtime"; "status"; "message";
                   "longname"; "tags"; "critical"; "template"].
Proof.
  split; [vm_compute; reflexivity|]. split; [vm_compute; reflexivity|].
  split; [reflexivity|]. split; [vm_compute; reflexivity|].
  intros Hdom.
  assert (Hin : "starttime" ∈ dom Example.end_test_attrs).
  { apply elem_of_dom. exists (Py.VStr "20150101 12:00:00.000").
    vm_compute. reflexivity. }
  rewrite Hdom in Hin. apply in_key_list in Hin. cbn in Hin.
  intuition discriminate.
Qed.

(** C8 at work. *)
Lemma keyword_keys_example :
  ∃ w', @Listeners.notify Example.collaborators 2 (EndKeyword Example.setup_kw)
          (Example.run_with Example.two_listeners) = (Val tt, w')
        ∧ map d_listener (deliveries_since (Example.run_with Example.two_listeners) w')
          = Example.two_listeners
        ∧ ∀ d, d ∈ deliveries_since (Example.run_with Example.two_listeners) w' →
            ∃ attrs, payload d = Some attrs
              ∧ Forall (fun k => k ∉ dom attrs) ["id"; "longname"; "message"]
              ∧ Forall (fun k => k ∈ dom attrs)
                  ["args"; "assign"; "kwname"; "libname"; "type"].
Proof.
  destruct (@keyword_payload_keys Example.collaborators 0
              (EndKeyword Example.setup_kw) Example.setup_kw
              (Example.run_with Example.two_listeners) Example.two_listeners)
    as (w' & Hrun & Hall & Hds);
    [by right | vm_compute; reflexivity..|].
  destruct (Hall two_listeners_report) as [Hs Hmap]. rewrite Hs in Hrun.
  exists w'. split; [exact Hrun|]. split; assumption.
Defined.

(** C10 at work: after a notification of an import of an unknown type,
    the later notifications of the run are dropped. *)
Lemma unknown_import_type_example :
  _recursion
    (self (@Listeners.notify Example.collaborators 2
             Example.bogus_import
             (Example.run_with Example.one_listener)).2) = true
  ∧ ∀ later,
      for_each later (@Listeners.notify Example.collaborators 2)
        (@Listeners.notify Example.collaborators 2
           Example.bogus_import
           (Example.run_with Example.one_listener)).2
      = (Val tt,
         (@Listeners.notify Example.collaborators 2
            Example.bogus_import
            (Example.run_with Example.one_listener)).2).
Proof.
  destruct (@escaping_exception_leaves_guard_set Example.collaborators 1
              Example.bogus_import
              (Example.run_with Example.one_listener)
              (Py.AttributeError "bogus_import")
              (@Listeners.notify Example.collaborators 2
                 Example.bogus_import
                 (Example.run_with Example.one_listener)).2)
    as [Hset Hlater]; [vm_compute; reflexivity..|].
  split; [exact Hset|]. intros later. apply (Hlater 1%nat).
Defined.

(** ** Values of the embedded functions *)

Example title_of_setup : Py.title "setup" = "Setup".
Proof. reflexivity. Qed.

Example title_of_two_words : Py.title "for item" = "For Item".
Proof. reflexivity. Qed.

Example int_of_padded_string : Py.int (Py.VStr " +2 ") = inr 2.
Proof. reflexivity. Qed.

Example int_of_word :
  Py.int (Py.VStr "two") = inl (Py.ValueError "invalid literal for int() with base 10").
Proof. reflexivity. Qed.

Example int_of_infinity :
  Py.int (Py.VFloat (Py.FInf false))
  = inl (Py.OverflowError "cannot convert float infinity to integer").
Proof. reflexivity. Qed.

Example start_test_names :
  Listeners._get_attr_names Listeners._start_attrs ["tags"]
  = ["id"; "doc"; "starttime"; "longname"; "tags"].
Proof. reflexivity. Qed.

Example end_keyword_names :
  Listeners._get_attr_names Listeners._end_attrs Listeners._kw_extra_attrs
  = ["doc"; "starttime"; "endtime"; "elapsedtime"; "status";
     "args"; "assign"; "kwname"; "libname"].
Proof. reflexivity. Qed.

Example suite_setup_label : kw_label false "setup" = "Suite Setup".
Proof. reflexivity. Qed.

Example test_teardown_label : kw_label true "teardown" = "Test Teardown".
Proof. reflexivity. Qed.

Example string_version_is_accepted :
  @ListenerProxy.__init__ Example.collaborators (SpecObject Example.silent)
  = inr (Example.proxy_of Example.silent).
Proof. reflexivity. Qed.

(* ===================================================================== *)
(** * Further properties of the code                                      *)
(* ===================================================================== *)

Section MoreConstruction.
Context `{Collaborators}.
Implicit Types (h : Py.Heap) (w : World) (r : Registry) (p : Proxy).

Lemma get_version_inv name l z :
  ListenerProxy._get_version name l = inr z →
  z = 2 ∧ ∃ v, ROBOT_LISTENER_API_VERSION l = Some v ∧ Py.int v = inr 2.
Proof.
  unfold ListenerProxy._get_version, ListenerProxy.version_attribute.
  destruct (ROBOT_LISTENER_API_VERSION l) as [v|]; [|discriminate].
  destruct (Py.int v) as [e|z'] eqn:Hint; [by destruct e|].
  destruct (Z.eqb_spec z' 2) as [->|Hz]; cbn; [|discriminate].
  intros [= <-]. split; [done|]. by exists v.
Qed.

Lemma init_inv (spec : Spec) p :
  ListenerProxy.__init__ spec = inr p →
  version p = 2
  ∧ ∃ v, ROBOT_LISTENER_API_VERSION (logger p) = Some v ∧ Py.int v = inr 2.
Proof.
  unfold ListenerProxy.__init__.
  destruct (ListenerProxy._import_listener spec) as [e|[l n]]; [discriminate|].
  destruct (ListenerProxy._get_version n l) as [e|z] eqn:Hv; [discriminate|].
  intros [= <-]. cbn. by apply get_version_inv in Hv.
Qed.

Lemma constructed_elem p specs :
  p ∈ constructed specs ↔ ∃ s, s ∈ specs ∧ ListenerProxy.__init__ s = inr p.
Proof.
  unfold constructed. rewrite list_elem_of_omap. split.
  - intros (s & Hs & Hp). exists s. split; [done|].
    by destruct (ListenerProxy.__init__ s) as [|q]; simplify_eq.
  - intros (s & Hs & Hp). exists s. by rewrite Hp.
Qed.

Lemma new_some_eq specs w :
  forallb constructs_or_data_error specs = true →
  Listeners.new (Some specs) w =
    (Val tt,
     {| heap := heap w; log := log w ++ rejections specs; trace := trace w;
        self := {| _listeners := Some (constructed specs); _running_test := false;
                   _setup_or_teardown_type := None; _recursion := false |} |}).
Proof.
  intros Hall. unfold Listeners.new, Listeners.__init__, Listeners.set_attribute.
  rewrite bind_modify.
  erewrite bind_eq;
    [|erewrite bind_eq by (by apply import_listeners_spec); reflexivity].
  reflexivity.
Qed.

(** X1. Whatever the specification, an adapter that has been constructed
    has version 2 and wraps a listener whose version attribute converts
    to 2. *)
Theorem constructed_adapter_has_version_two (spec : Spec) p :
  ListenerProxy.__init__ spec = inr p →
  version p = 2
  ∧ ∃ v, ROBOT_LISTENER_API_VERSION (logger p) = Some v ∧ Py.int v = inr 2.
Proof. apply init_inv. Qed.

(** X2. The emptiness check of a registry made from a sequence of
    specifications returns true exactly when the adapter of at least one
    of them could be constructed, and every adapter that the registry
    holds has version 2. *)
Theorem registry_is_true_iff_some_listener specs w :
  forallb constructs_or_data_error specs = true →
  ∃ w' ls b,
    Listeners.new (Some specs) w = (Val tt, w')
    ∧ _listeners (self w') = Some ls
    ∧ Listeners.__nonzero__ (self w') = inr b
    ∧ (b = true ↔ ∃ s p, s ∈ specs ∧ ListenerProxy.__init__ s = inr p)
    ∧ Forall (fun p => version p = 2) ls.
Proof.
  intros Hall. pose proof (new_some_eq specs w Hall) as Hnew.
  eexists _, (constructed specs), _.
  split; [exact Hnew|]. split; [reflexivity|]. split; [reflexivity|]. split.
  - destruct (constructed specs) as [|p ps] eqn:Hc; cbn; split; try done.
    + intros (s & p & Hs & Hp).
      assert (Hin : p ∈ constructed specs) by (apply constructed_elem; eauto).
      rewrite Hc in Hin. by apply elem_of_nil in Hin.
    + intros _. assert (Hin : p ∈ constructed specs) by (rewrite Hc; left).
      apply constructed_elem in Hin as (s & Hs & Hp). eauto.
  - apply Forall_forall. intros p Hp.
    apply constructed_elem in Hp as (s & _ & Hs). apply init_inv in Hs. tauto.
Qed.

Lemma import_listeners_escape pre s post e : ∀ w,
  forallb constructs_or_data_error pre = true →
  ListenerProxy.__init__ s = inl e → Py.is_DataError e = false →
  Listeners._import_listeners (pre ++ s :: post) w =
    (Exc e, {| heap := heap w; log := log w ++ rejections pre;
               trace := trace w; self := self w |}).
Proof.
  induction pre as [|s0 pre IH]; intros w Hall Hs He.
  - cbn. rewrite Hs, app_nil_r. destruct e; try discriminate; by destruct w.
  - cbn [forallb] in Hall. apply andb_true_iff in Hall as [Hs0 Hall].
    unfold constructs_or_data_error in Hs0.
    rewrite rejections_cons. cbn [app Listeners._import_listeners].
    destruct (ListenerProxy.__init__ s0) as [e0|p].
    + destruct e0; try discriminate.
      unfold LOGGER_error. rewrite bind_modify, IH by done.
      cbn. by rewrite <- app_assoc.
    + unfold bind. by rewrite IH.
Qed.

(** X3. Only a [DataError] is turned into a log entry. When the
    construction of an adapter raises another exception, the exception
    escapes the creation of the registry: the failures before it have
    been logged, the specifications after it are not looked at, and the
    instance is left without its [_listeners] attribute. *)
Theorem other_exception_escapes_creation pre s post e w :
  forallb constructs_or_data_error pre = true →
  ListenerProxy.__init__ s = inl e → Py.is_DataError e = false →
  Listeners.new (Some (pre ++ s :: post)) w =
    (Exc e, {| heap := heap w; log := log w ++ rejections pre; trace := trace w;
               self := Listeners.blank |}).
Proof.
  intros Hall Hs He.
  unfold Listeners.new, Listeners.__init__, Listeners.set_attribute.
  rewrite bind_modify. unfold bind at 1. unfold bind at 1.
  by rewrite (import_listeners_escape pre s post e _ Hall Hs He).
Qed.

(** X4. A listener given by a name with arguments that can be imported
    but declares another version than 2 is dropped: the log entry names
    it by the whole specification, the message inside by the name without
    the arguments. *)
Theorem named_listener_with_wrong_version s l v z w :
  import_class_or_module (normpath (split_args_from_name_or_path s).1)
    (split_args_from_name_or_path s).2 = inr l →
  ROBOT_LISTENER_API_VERSION l = Some v → Py.int v = inr z → z ≠ 2 →
  Listeners.new (Some [SpecName s]) w =
    (Val tt,
     {| heap := heap w;
        log := log w ++
          [(ERROR, ("Taking listener '" ++ s ++ "' into use failed: Listener '"
                    ++ (split_args_from_name_or_path s).1
                    ++ "' uses unsupported API version '" ++ str v ++ "'.")%string)];
        trace := trace w;
        self := {| _listeners := Some []; _running_test := false;
                   _setup_or_teardown_type := None; _recursion := false |} |}).
Proof.
  intros Himp Hv Hint Hz.
  assert (Hinit : ListenerProxy.__init__ (SpecName s) =
            inl (Py.DataError (ListenerProxy.unsupported_version_message
                                 (split_args_from_name_or_path s).1 (str v)))).
  { unfold ListenerProxy.__init__, ListenerProxy._import_listener.
    destruct (split_args_from_name_or_path s) as [n args]. cbn in *.
    rewrite Himp. unfold ListenerProxy._get_version, ListenerProxy.version_attribute.
    rewrite Hv, Hint. apply Z.eqb_neq in Hz. by rewrite Hz. }
  rewrite new_some_eq.
  - unfold rejections, constructed. cbn. rewrite Hinit. reflexivity.
  - cbn. unfold constructs_or_data_error. by rewrite Hinit.
Qed.

End MoreConstruction.

Section AttrNames.
Implicit Types (n m e : string) (names default extra : list string).

Lemma dashed_name e n :
  Py.startswith_dash e = true → Py.drop_first e = n → e = String "-" n.
Proof.
  destruct e as [|c r]; [discriminate|]. cbn.
  intros Hc%Ascii.eqb_eq <-. by subst.
Qed.

Lemma get_attr_names_cons names e extra :
  Listeners._get_attr_names names (e :: extra)
  = Listeners._get_attr_names
      (if negb (Py.startswith_dash e) then names ++ [e]
       else if bool_decide (Py.drop_first e ∈ names)
            then Listeners.remove_first (Py.drop_first e) names
            else names) extra.
Proof. reflexivity. Qed.

Lemma remove_first_subset m names x :
  x ∈ Listeners.remove_first m names → x ∈ names.
Proof.
  induction names as [|y names IH]; cbn; [done|].
  destruct (String.eqb_spec y m) as [->|Hne].
  - by right.
  - intros [->|Hx]%elem_of_cons; [left|right; auto].
Qed.

Lemma remove_first_other m names x :
  x ≠ m → x ∈ names → x ∈ Listeners.remove_first m names.
Proof.
  intros Hxm. induction names as [|y names IH]; cbn; [done|].
  intros [->|Hx]%elem_of_cons.
  - destruct (String.eqb_spec y m); [done|left].
  - destruct (String.eqb_spec y m); [done|right; auto].
Qed.

Lemma remove_first_count m names x :
  count_occ string_dec (Listeners.remove_first m names) x
  = if decide (x = m) then Nat.pred (count_occ string_dec names x)
    else count_occ string_dec names x.
Proof.
  induction names as [|y names IH]; cbn [Listeners.remove_first].
  - cbn. by case_decide.
  - destruct (String.eqb_spec y m) as [->|Hne].
    + case_decide as Hx.
      * subst. by rewrite count_occ_cons_eq.
      * rewrite count_occ_cons_neq; [done|congruence].
    + destruct (decide (y = x)) as [->|Hyx].
      * rewrite !count_occ_cons_eq, IH by done.
        repeat case_decide; congruence.
      * rewrite !count_occ_cons_neq, IH by done. done.
Qed.

Lemma get_attr_names_subset extra : ∀ names n,
  n ∈ Listeners._get_attr_names names extra →
  n ∈ names ∨ (n ∈ extra ∧ Py.startswith_dash n = false).
Proof.
  induction extra as [|e extra IH]; intros names n; [by left|].
  rewrite get_attr_names_cons. intros Hn. apply IH in Hn as [Hn|[Hn Hd]].
  - destruct (Py.startswith_dash e) eqn:He; cbn [negb] in Hn.
    + case_bool_decide; [left; by eapply remove_first_subset|by left].
    + apply elem_of_app in Hn as [Hn|Hn%list_elem_of_singleton]; [by left|].
      subst. right. split; [left|done].
  - right. split; [by right|done].
Qed.

Lemma get_attr_names_keep extra : ∀ names n,
  n ∈ names → String "-" n ∉ extra →
  n ∈ Listeners._get_attr_names names extra.
Proof.
  induction extra as [|e extra IH]; intros names n Hn Hmark; [done|].
  rewrite get_attr_names_cons.
  apply not_elem_of_cons in Hmark as [Hne Hmark]. apply IH; [|done].
  destruct (Py.startswith_dash e) eqn:He; cbn [negb].
  - case_bool_decide; [|done]. apply remove_first_other; [|done].
    intros ->. apply Hne. symmetry. by apply dashed_name.
  - apply elem_of_app. by left.
Qed.

Lemma get_attr_names_count_le extra : ∀ names n,
  (n ∈ extra → Py.startswith_dash n = true) →
  (count_occ string_dec (Listeners._get_attr_names names extra) n
   ≤ count_occ string_dec names n)%nat.
Proof.
  induction extra as [|e extra IH]; intros names n Hpos; [done|].
  rewrite get_attr_names_cons. etrans.
  { apply IH. intros Hn. apply Hpos. by right. }
  destruct (Py.startswith_dash e) eqn:He; cbn [negb].
  - case_bool_decide; [|done]. rewrite remove_first_count.
    case_decide; lia.
  - rewrite count_occ_app. cbn. destruct (string_dec e n) as [->|]; [|lia].
    assert (Py.startswith_dash n = true) by (apply Hpos; left). congruence.
Qed.

Lemma get_attr_names_removed extra : ∀ names n,
  (count_occ string_dec names n ≤ 1)%nat →
  (n ∈ extra → Py.startswith_dash n = true) →
  String "-" n ∈ extra →
  n ∉ Listeners._get_attr_names names extra.
Proof.
  induction extra as [|e extra IH]; intros names n Hcount Hpos Hmark.
  { by apply elem_of_nil in Hmark. }
  rewrite get_attr_names_cons.
  assert (Hpos' : n ∈ extra → Py.startswith_dash n = true).
  { intros Hn. apply Hpos. by right. }
  destruct (decide (e = String "-" n)) as [->|Hne].
  - cbn [Py.startswith_dash Py.drop_first Ascii.eqb Bool.eqb negb].
    intros Hin%list_elem_of_In%(count_occ_In string_dec).
    pose proof (get_attr_names_count_le extra
                  (if bool_decide (n ∈ names)
                   then Listeners.remove_first n names else names) n Hpos') as Hle.
    case_bool_decide as Hmem.
    + rewrite remove_first_count, decide_True in Hle by done. lia.
    + assert (count_occ string_dec names n = 0%nat).
      { apply count_occ_not_In. by rewrite <- list_elem_of_In. }
      lia.
  - apply elem_of_cons in Hmark as [Heq|Hmark]; [congruence|].
    apply IH; [|done|done].
    destruct (Py.startswith_dash e) eqn:He; cbn [negb].
    + case_bool_decide; [|done]. rewrite remove_first_count. case_decide; lia.
    + rewrite count_occ_app. cbn. destruct (string_dec e n) as [->|]; [|lia].
      assert (Py.startswith_dash n = true) by (apply Hpos; left). congruence.
Qed.

(** X5. Without removal markers among the extra names, the attribute
    names are the default names followed by the extra names. *)
Theorem attr_names_without_markers default extra :
  forallb (fun e => negb (Py.startswith_dash e)) extra = true →
  Listeners._get_attr_names default extra = default ++ extra.
Proof.
  revert default. induction extra as [|e extra IH]; intros default Hall.
  - by rewrite app_nil_r.
  - cbn [forallb] in Hall. apply andb_true_iff in Hall as [He Hall].
    rewrite get_attr_names_cons, He, IH by done. by rewrite <- app_assoc.
Qed.

(** X6. When the default names are distinct and no extra name is the
    target of a removal marker, a name is among the attribute names
    exactly when it is a default name without a marker among the extra
    names, or an extra name that is not a marker. A marker for a name that
    is not there is ignored. *)
Theorem attr_names_membership default extra n :
  NoDup default →
  (∀ e, e ∈ extra → Py.startswith_dash e = false → String "-" e ∉ extra) →
  n ∈ Listeners._get_attr_names default extra ↔
    (n ∈ default ∧ String "-" n ∉ extra)
    ∨ (n ∈ extra ∧ Py.startswith_dash n = false).
Proof.
  intros Hnodup Htargets. split.
  - intros Hn. destruct (get_attr_names_subset extra default n Hn) as [Hd|He];
      [|by right].
    destruct (decide (n ∈ extra ∧ Py.startswith_dash n = false)) as [|Hnot];
      [by right|].
    left. split; [done|]. intros Hmark.
    eapply get_attr_names_removed; [| |exact Hmark|exact Hn].
    + apply NoDup_ListNoDup in Hnodup.
      by apply (NoDup_count_occ string_dec).
    + intros Hin. destruct (Py.startswith_dash n) eqn:Hd'; [done|]. by destruct Hnot.
  - intros [[Hd Hmark]|[He Hdash]].
    + by apply get_attr_names_keep.
    + clear Hnodup. revert default.
      induction extra as [|e extra IH]; intros default.
      { by apply elem_of_nil in He. }
      rewrite get_attr_names_cons.
      apply elem_of_cons in He as [<-|He].
      * rewrite Hdash. cbn [negb]. apply get_attr_names_keep.
        -- apply elem_of_app. right. by left.
        -- intros Hin. apply (Htargets n); [left|done|by right].
      * apply IH; [|done]. intros e' He' Hd' Hin.
        apply (Htargets e'); [by right|done|by right].
Qed.

End AttrNames.

Section CallMethod.
Context `{Collaborators}.

(** X7. [call_method], called under the guard, records the invocation
    and lets an exception out exactly when its handler raises one: the
    exception that [get_error_details] raises for the exception of the
    method, or [AttributeError] when the method has no [__name__];
    nothing is logged then. Otherwise it returns normally, having logged
    nothing when the method returned, and one [ERROR] and one [INFO] entry
    when the method raised. The heap and the registry are left as they
    are. *)
Theorem call_method_lets_handler_exceptions_out f p m args w :
  _recursion (self w) = true →
  ∃ o entries,
    ListenerProxy.call_method (Listeners.notify (S f)) p m args w
    = (o, {| heap := heap w; log := log w ++ entries;
             trace := trace w ++ [{| d_listener := p; d_method := m; d_args := args |}];
             self := self w |})
    ∧ match raised_by (code m args) with
      | None => o = Val tt ∧ entries = []
      | Some e =>
          match get_error_details e with
          | inl e' => o = Exc e' ∧ entries = []
          | inr (message, details) =>
              match method_name m with
              | None => o = Exc (Py.AttributeError "__name__") ∧ entries = []
              | Some n =>
                  o = Val tt
                  ∧ entries =
                      [(ERROR, "Calling method '" ++ n ++ "' of listener '"
                               ++ name p ++ "' failed: " ++ message)%string;
                       (INFO, "Details:" ++ newline ++ details)%string]
              end
          end
      end.
Proof.
  intros Hrec. rewrite call_method_guarded by done.
  eexists _, _. split; [reflexivity|].
  unfold escape, failure_log, failure, handler_result. cbn [d_method d_args d_listener].
  destruct (raised_by (code m args)) as [e|]; [|done].
  destruct (get_error_details e) as [e'|[message details]]; [done|].
  by destruct (method_name m).
Qed.

End CallMethod.

Section ExactDeliveries.
Context `{Collaborators}.
Implicit Types (h : Py.Heap) (w : World) (r : Registry) (p : Proxy).

Lemma loop_exact (mk : Proxy → Delivery) (body : Proxy → M World unit) h r ls :
  (∀ p w, heap w = h → self w = r → body p w = body_result w h r (mk p)) →
  ∀ w, heap w = h → self w = r →
  for_each ls body w
  = (ending (stopped (map mk ls)), all_delivered (until_escape (map mk ls)) w).
Proof.
  intros Hbody. induction ls as [|p ls IH]; intros w Hh Hr.
  - cbn. unfold all_delivered. cbn. rewrite !app_nil_r. by destruct w.
  - cbn [for_each map stopped until_escape].
    pose proof (Hbody p w Hh Hr) as Hrun. unfold body_result in Hrun.
    destruct (escape (mk p)) as [e|]; cbn [ending] in Hrun.
    + rewrite (bind_exc _ _ _ _ _ Hrun). unfold all_delivered. cbn.
      rewrite !app_nil_r. by subst.
    + rewrite (bind_eq _ _ _ _ _ Hrun). rewrite IH by done.
      unfold all_delivered. cbn. rewrite <- !app_assoc. by subst.
Qed.

Lemma guard_round_trip ds w :
  _recursion (self w) = false →
  with_recursion false (all_delivered ds (with_recursion true w)) = all_delivered ds w.
Proof.
  intros Hrec. destruct w as [h l t [ls b ty rec]]. cbn in *. by subst.
Qed.

Lemma notify_exact f ev ds w :
  _recursion (self w) = false →
  Listeners.routine (Listeners.notify (S f)) ev (with_recursion true w)
    = (ending (stopped ds), all_delivered (until_escape ds) (with_recursion true w)) →
  Listeners.notify (S (S f)) ev w = notified ds w.
Proof.
  intros Hrec Hrun. unfold notified.
  destruct (stopped ds) as [e|] eqn:Hs; cbn [ending] in Hrun.
  - cbn [Listeners.notify]. unfold avoid_recursion at 1.
    rewrite bind_get, Hrec. cbn [negb]. rewrite bind_modify.
    by rewrite (bind_exc _ _ _ _ _ Hrun).
  - rewrite (notify_returns _ _ _ _ Hrec Hrun).
    by rewrite guard_round_trip, until_escape_all.
Qed.

Lemma invocations_not_stopped n args ls :
  Forall handles_failures ls → stopped (map (invocation n args) ls) = None.
Proof.
  induction 1 as [|p ls Hp _ IH]; [done|]. cbn [map stopped].
  unfold invocation at 1. by rewrite (Hp n args).
Qed.

(** Over adapters that report every failure, all the invocations are
    made and the notification returns. *)
Lemma notified_handled n args ls w :
  Forall handles_failures ls →
  notified (map (invocation n args) ls) w
  = (Val tt, all_delivered (map (invocation n args) ls) w).
Proof. intros Hls. unfold notified. by rewrite invocations_not_stopped. Qed.

(** X8. [close] invokes the [close] method of the adapters, in the order
    of registration and without arguments, and changes nothing else but
    the log, by the entries of the failures. It goes through all of them
    unless an exception leaves [call_method]: then the adapters after
    that one are not invoked, the exception leaves [close], and the guard
    stays set. Over adapters that report every failure, every adapter is
    invoked and [close] returns. *)
Theorem close_reaches_every_adapter f w ls :
  _recursion (self w) = false → _listeners (self w) = Some ls →
  Listeners.notify (S (S f)) Close w
  = notified (map (invocation "close" []) ls) w
  ∧ (Forall handles_failures ls →
     Listeners.notify (S (S f)) Close w
     = (Val tt, all_delivered (map (invocation "close" []) ls) w)).
Proof.
  intros Hrec Hls.
  assert (Hrun : Listeners.notify (S (S f)) Close w
                 = notified (map (invocation "close" []) ls) w).
  { apply notify_exact; [done|].
    cbn [Listeners.routine]. unfold Listeners.close.
    erewrite bind_eq by (by apply listeners_attribute_eq).
    apply (loop_exact (invocation "close" []) _ (heap w)
             (set_recursion true (self w))); [|done..].
    intros p w' <- Hr. rewrite call_method_result by (by rewrite Hr).
    by rewrite Hr. }
  split; [done|]. intros Hhandled. by rewrite Hrun, notified_handled.
Qed.

Lemma dynamic_loop f suffix s args ls w :
  _recursion (self w) = true → _listeners (self w) = Some ls →
  (Py.lower s ++ suffix)%string ∈ ListenerProxy._methods →
  (ls <- Listeners.listeners_attribute ;;
   for_each ls (fun listener =>
     lowered <- Listeners.lower_of (Py.VStr s) ;;
     method <- of_sum (ListenerProxy.method_named listener (lowered ++ suffix)%string) ;;
     ListenerProxy.call_method (Listeners.notify (S f)) listener method args)) w
  = (ending (stopped (map (invocation (Py.lower s ++ suffix)%string args) ls)),
     all_delivered
       (until_escape (map (invocation (Py.lower s ++ suffix)%string args) ls)) w).
Proof.
  intros Hrec Hls Hin.
  erewrite bind_eq by (by apply listeners_attribute_eq).
  apply (loop_exact (invocation (Py.lower s ++ suffix)%string args) _ (heap w) (self w));
    [|done..].
  intros p w' <- Hr. cbn [Listeners.lower_of]. rewrite bind_ret.
  unfold ListenerProxy.method_named. rewrite bool_decide_eq_true_2 by done.
  cbn [of_sum]. rewrite bind_ret.
  rewrite call_method_result by (by rewrite Hr). by rewrite Hr.
Qed.

(** X9. [imported] with an import type that is library, resource or
    variables in any letter case invokes, on the adapters in the order
    of registration, the method named after the lower-cased type, with
    the name and the attributes that the caller passed, as they are. It
    goes through all the adapters unless an exception leaves
    [call_method]; over adapters that report every failure, every adapter
    is invoked and [imported] returns. *)
Theorem imported_reaches_every_adapter f s name attrs w ls :
  _recursion (self w) = false → _listeners (self w) = Some ls →
  Py.lower s ∈ ["library"; "resource"; "variables"] →
  Listeners.notify (S (S f)) (Imported (Py.VStr s) name attrs) w
  = notified
      (map (invocation (Py.lower s ++ "_import")%string [AVal name; AVal attrs]) ls) w
  ∧ (Forall handles_failures ls →
     Listeners.notify (S (S f)) (Imported (Py.VStr s) name attrs) w
     = (Val tt,
        all_delivered
          (map (invocation (Py.lower s ++ "_import")%string [AVal name; AVal attrs]) ls)
          w)).
Proof.
  intros Hrec Hls Hs.
  assert (Hrun : Listeners.notify (S (S f)) (Imported (Py.VStr s) name attrs) w
                 = notified
                     (map (invocation (Py.lower s ++ "_import")%string
                             [AVal name; AVal attrs]) ls) w).
  { apply notify_exact; [done|].
    apply dynamic_loop; [done|done|].
    rewrite list_elem_of_In in Hs. rewrite list_elem_of_In.
    cbn in Hs. destruct Hs as [<-|[<-|[<-|[]]]]; cbn; tauto. }
  split; [done|]. intros Hhandled. by rewrite Hrun, notified_handled.
Qed.

(** X10. [output_file] with a file type that is output, report, log,
    debug or xunit in any letter case invokes, on the adapters in the
    order of registration, the method named after the lower-cased type,
    with the path. It goes through all the adapters unless an exception
    leaves [call_method]; over adapters that report every failure, every
    adapter is invoked and [output_file] returns. *)
Theorem output_file_reaches_every_adapter f s path w ls :
  _recursion (self w) = false → _listeners (self w) = Some ls →
  Py.lower s ∈ ["output"; "report"; "log"; "debug"; "xunit"] →
  Listeners.notify (S (S f)) (OutputFile (Py.VStr s) path) w
  = notified (map (invocation (Py.lower s ++ "_file")%string [AVal path]) ls) w
  ∧ (Forall handles_failures ls →
     Listeners.notify (S (S f)) (OutputFile (Py.VStr s) path) w
     = (Val tt,
        all_delivered
          (map (invocation (Py.lower s ++ "_file")%string [AVal path]) ls) w)).
Proof.
  intros Hrec Hls Hs.
  assert (Hrun : Listeners.notify (S (S f)) (OutputFile (Py.VStr s) path) w
                 = notified
                     (map (invocation (Py.lower s ++ "_file")%string [AVal path]) ls) w).
  { apply notify_exact; [done|].
    apply dynamic_loop; [done|done|].
    rewrite list_elem_of_In in Hs. rewrite list_elem_of_In.
    cbn in Hs. destruct Hs as [<-|[<-|[<-|[<-|[<-|[]]]]]]; cbn; tauto. }
  split; [done|]. intros Hhandled. by rewrite Hrun, notified_handled.
Qed.

Lemma notify_raise_eq f ev w e w1 :
  _recursion (self w) = false →
  Listeners.routine (Listeners.notify f) ev (with_recursion true w) = (Exc e, w1) →
  Listeners.notify (S f) ev w = (Exc e, w1).
Proof.
  intros Hrec Hrun. cbn [Listeners.notify]. unfold avoid_recursion at 1.
  rewrite bind_get, Hrec. cbn [negb]. rewrite bind_modify.
  unfold bind at 1. by rewrite Hrun.
Qed.

(** X11. [imported] with a type after which no method of the adapters is
    named raises [AttributeError] at the first adapter, before any method
    is invoked, and leaves the guard set; the same holds of [output_file]. *)
Theorem unknown_type_raises_before_delivery f s name attrs path w p ls :
  _recursion (self w) = false → _listeners (self w) = Some (p :: ls) →
  ((Py.lower s ++ "_import")%string ∉ ListenerProxy._methods →
   Listeners.notify (S f) (Imported (Py.VStr s) name attrs) w
   = (Exc (Py.AttributeError (Py.lower s ++ "_import")), with_recursion true w))
  ∧ ((Py.lower s ++ "_file")%string ∉ ListenerProxy._methods →
     Listeners.notify (S f) (OutputFile (Py.VStr s) path) w
     = (Exc (Py.AttributeError (Py.lower s ++ "_file")), with_recursion true w)).
Proof.
  intros Hrec Hls. split; intros Hs; (apply notify_raise_eq; [done|]);
    cbn [Listeners.routine]; unfold Listeners.imported, Listeners.output_file;
    (erewrite bind_eq by (by apply listeners_attribute_eq));
    cbn [for_each Listeners.lower_of]; unfold bind at 1; rewrite bind_ret;
    unfold ListenerProxy.method_named; by rewrite bool_decide_eq_false_2.
Qed.

(** X12. [log_message] hands the adapters, in the order of registration,
    one dictionary with the timestamp, the message and the level of the
    message as they are and with html as "yes" or "no"; [message] does the
    same with the [message] method. The heap is not changed. They go
    through all the adapters unless an exception leaves [call_method];
    over adapters that report every failure, every adapter is invoked and
    the notification returns. *)
Theorem message_reaches_every_adapter f msg timestamp message level html w ls :
  _recursion (self w) = false → _listeners (self w) = Some ls →
  Py.getattr (heap w) msg "timestamp" = inr timestamp →
  Py.getattr (heap w) msg "message" = inr message →
  Py.getattr (heap w) msg "level" = inr level →
  Py.getattr (heap w) msg "html" = inr html →
  Listeners.notify (S (S f)) (LogMessage msg) w
  = notified
      (map (invocation "log_message"
              [APayload (msg_dict (heap w) timestamp message level html)]) ls) w
  ∧ Listeners.notify (S (S f)) (Message msg) w
    = notified
        (map (invocation "message"
                [APayload (msg_dict (heap w) timestamp message level html)]) ls) w
  ∧ (Forall handles_failures ls →
     Listeners.notify (S (S f)) (LogMessage msg) w
     = (Val tt,
        all_delivered
          (map (invocation "log_message"
                  [APayload (msg_dict (heap w) timestamp message level html)]) ls) w)
     ∧ Listeners.notify (S (S f)) (Message msg) w
       = (Val tt,
          all_delivered
            (map (invocation "message"
                    [APayload (msg_dict (heap w) timestamp message level html)]) ls) w)).
Proof.
  intros Hrec Hls Ht Hm Hl Hh.
  assert (Hdict : ∀ w', heap w' = heap w →
            lift_heap (Listeners._create_msg_dict msg) w'
            = (Val (msg_dict (heap w) timestamp message level html),
               {| heap := heap w'; log := log w'; trace := trace w'; self := self w' |})).
  { intros w' Hw'. apply lift_heap_eq. rewrite Hw'.
    unfold Listeners._create_msg_dict.
    rewrite (bind_eq _ _ _ _ _ (getattr_eq _ _ _ _ Ht)).
    rewrite (bind_eq _ _ _ _ _ (getattr_eq _ _ _ _ Hm)).
    rewrite (bind_eq _ _ _ _ _ (getattr_eq _ _ _ _ Hl)).
    rewrite (bind_eq _ _ _ _ _ (getattr_eq _ _ _ _ Hh)).
    reflexivity. }
  assert (Hrun : ∀ ev n,
            (ev = LogMessage msg ∧ n = "log_message")
            ∨ (ev = Message msg ∧ n = "message") →
            Listeners.notify (S (S f)) ev w
            = notified
                (map (invocation n
                        [APayload (msg_dict (heap w) timestamp message level html)])
                   ls) w).
  { intros ev n Hev.
    destruct Hev as [[-> ->]|[-> ->]]; (apply notify_exact; [done|]);
      cbn [Listeners.routine]; unfold Listeners.log_message, Listeners.message;
      (erewrite bind_eq by (by apply listeners_attribute_eq));
      (eapply (loop_exact _ _ (heap w) (set_recursion true (self w))); [|done..]);
      intros p w' Hw' Hr; rewrite (bind_eq _ _ _ _ _ (Hdict w' Hw'));
      (rewrite call_method_result by (by rewrite Hr)); cbn; by rewrite Hw', Hr. }
  pose proof (Hrun (LogMessage msg) "log_message" (or_introl (conj eq_refl eq_refl)))
    as Hlog.
  pose proof (Hrun (Message msg) "message" (or_intror (conj eq_refl eq_refl)))
    as Hmsg.
  split; [done|]. split; [done|]. intros Hhandled.
  by rewrite Hlog, Hmsg, !notified_handled.
Qed.

(** X13. On a registry without adapters every notification returns
    normally without looking at its arguments: only [start_test] and
    [end_test] change the state, by setting [_running_test]. *)
Theorem no_adapters_no_effect f ev w :
  _recursion (self w) = false → _listeners (self w) = Some [] →
  Listeners.notify (S f) ev w
  = (Val tt,
     {| heap := heap w; log := log w; trace := trace w;
        self := match ev with
                | StartTest _ => set_running_test true (self w)
                | EndTest _ => set_running_test false (self w)
                | _ => self w
                end |}).
Proof.
  intros Hrec Hls. destruct w as [h l t [ls b ty rec]]. cbn in *. subst.
  by destruct ev.
Qed.

End ExactDeliveries.

Section Copies.
Context `{Collaborators}.
Implicit Types (h : Py.Heap) (v item : Py.Value) (n : string).
Implicit Types (attrs acc : gmap string Py.Value).

Lemma take_copy_is_copy h v :
  ∃ v' h', Listeners._take_copy_of_mutable_value v h = (Val v', h')
           ∧ is_copy h v h' v' ∧ h `prefix_of` h'.
Proof.
  unfold Listeners._take_copy_of_mutable_value, Listeners.dict, Listeners.list_of,
    Listeners.iterate, Listeners.is_dict_like, Listeners.is_list_like,
    Listeners.alloc, bind, get, ret, is_copy.
  destruct v as [| | | | |l]; try (by eexists _, h).
  cbn. destruct (h !! l) as [[xs|d|cls a]|] eqn:Hl; cbn; rewrite ?Hl; cbn.
  - eexists _, _. split; [reflexivity|]. split; [|by apply prefix_app_r].
    eexists. split; [reflexivity|]. split; [done|].
    by rewrite lookup_app_r, Nat.sub_diag.
  - eexists _, _. split; [reflexivity|]. split; [|by apply prefix_app_r].
    eexists. split; [reflexivity|]. split; [done|].
    by rewrite lookup_app_r, Nat.sub_diag.
  - by eexists _, h.
  - by eexists _, h.
Qed.

(** X14. Taking a copy of a value never fails and leaves the objects of
    the heap as they are. A list or a dictionary is copied to a new
    object with the same content; every other value, an instance of
    another class included, is returned as it is. *)
Theorem copy_of_mutable_value h v :
  ∃ v' h', Listeners._take_copy_of_mutable_value v h = (Val v', h')
           ∧ h `prefix_of` h'
           ∧ match observe h v with
             | Some (Py.OList xs) =>
                 v' = Py.VRef (length h) ∧ h' = h ++ [Py.OList xs]
             | Some (Py.ODict d) =>
                 v' = Py.VRef (length h) ∧ h' = h ++ [Py.ODict d]
             | Some (Py.OInst _ _) | None => v' = v ∧ h' = h
             end.
Proof.
  unfold Listeners._take_copy_of_mutable_value, Listeners.dict, Listeners.list_of,
    Listeners.iterate, Listeners.is_dict_like, Listeners.is_list_like,
    Listeners.alloc, bind, get, ret.
  destruct v as [| | | | |l]; try (by eexists _, h).
  cbn. destruct (h !! l) as [[xs|d|cls a]|] eqn:Hl; cbn; rewrite ?Hl; cbn.
  - eexists _, _. split; [reflexivity|]. split; [by apply prefix_app_r|done].
  - eexists _, _. split; [reflexivity|]. split; [by apply prefix_app_r|done].
  - by eexists _, h.
  - by eexists _, h.
Qed.

Lemma is_copy_prefix h v h1 h2 v' :
  is_copy h v h1 v' → h1 `prefix_of` h2 → is_copy h v h2 v'.
Proof.
  unfold is_copy. intros Hc Hpre.
  destruct (observe h v) as [[xs|d|cls a]|]; try done;
    destruct Hc as (l' & -> & Hlen & Hl'); exists l';
    (split; [done|]); (split; [done|]); by eapply prefix_lookup_Some.
Qed.

Lemma observe_valid_prefix h h' v :
  is_valid h v = true → h `prefix_of` h' → observe h' v = observe h v.
Proof.
  intros Hv Hpre. destruct v as [| | | | |l]; try done. cbn in *.
  apply bool_decide_eq_true in Hv.
  destruct (lookup_lt_is_Some_2 h l Hv) as [o Ho].
  by rewrite Ho, (prefix_lookup_Some _ _ _ _ Ho Hpre).
Qed.

Lemma is_copy_from_later h h1 h2 v v' :
  is_valid h v = true → h `prefix_of` h1 →
  is_copy h1 v h2 v' → is_copy h v h2 v'.
Proof.
  intros Hv Hpre. unfold is_copy. rewrite (observe_valid_prefix h h1 v Hv Hpre).
  pose proof (prefix_length _ _ Hpre) as Hlen.
  destruct (observe h v) as [[xs|d|cls a]|]; try done;
    intros (l' & -> & Hl & Hl'); exists l'; (split; [done|]); (split; [lia|done]).
Qed.

Lemma has_valid_attr_getattr h item n :
  has_valid_attr h item n = true →
  ∃ v, Py.getattr h item n = inr v ∧ is_valid h v = true.
Proof. unfold has_valid_attr. destruct (Py.getattr h item n); [discriminate|eauto]. Qed.

Lemma dict_of_names_copies h0 item names : ∀ h acc,
  h0 `prefix_of` h → forallb (has_valid_attr h0 item) names = true →
  ∃ attrs h', Listeners.dict_of_names (Listeners._get_attr_value item) names acc h
                = (Val attrs, h')
              ∧ h `prefix_of` h'
              ∧ (∀ n, n ∈ names →
                   ∃ v v', Py.getattr h0 item n = inr v ∧ attrs !! n = Some v'
                           ∧ is_copy h0 v h' v')
              ∧ (∀ n, n ∉ names → attrs !! n = acc !! n).
Proof.
  induction names as [|n names IH]; intros h acc Hpre Hall.
  - exists acc, h. split; [reflexivity|]. split; [done|].
    split; [by intros n Hn%elem_of_nil|done].
  - cbn in Hall. apply andb_true_iff in Hall as [Hn Hall].
    apply has_valid_attr_getattr in Hn as (v & Hv & Hvalid).
    destruct (take_copy_is_copy h v) as (v' & h1 & Hcopy & Hiscopy & Hpre1).
    destruct (IH h1 (<[n := v']> acc)) as (attrs & h2 & Hrun & Hpre2 & Hvals & Hrest);
      [by etrans|done|].
    exists attrs, h2. split.
    { cbn [Listeners.dict_of_names]. unfold bind at 1.
      unfold Listeners._get_attr_value at 1.
      rewrite (bind_eq _ _ _ _ _ (getattr_eq _ _ _ _ (getattr_prefix _ _ _ _ _ Hv Hpre))).
      by rewrite Hcopy. }
    split; [by etrans|]. split.
    + intros m Hm. destruct (decide (m ∈ names)) as [Hin|Hnotin]; [by apply Hvals|].
      apply elem_of_cons in Hm as [->|Hm]; [|done].
      exists v, v'. split; [done|]. split.
      * by rewrite Hrest, lookup_insert_eq.
      * eapply is_copy_prefix; [|exact Hpre2].
        by eapply is_copy_from_later.
    + intros m Hm. apply not_elem_of_cons in Hm as [Hne Hm].
      by rewrite Hrest, lookup_insert_ne.
Qed.

(** X15. The attributes that [_get_attrs] collects for an item that has
    them, with values that refer to objects of the heap, are copies of the
    values of the item: for every collected name the dictionary holds the
    value of the attribute, or a new list or dictionary with the same
    content. It has no other keys, and the objects of the heap stay as
    they are. *)
Theorem collected_attributes_are_copies h item default extra :
  forallb (has_valid_attr h item) (Listeners._get_attr_names default extra) = true →
  ∃ attrs h',
    Listeners._get_attrs item default extra h = (Val attrs, h')
    ∧ h `prefix_of` h'
    ∧ (∀ n, n ∈ Listeners._get_attr_names default extra →
         ∃ v v', Py.getattr h item n = inr v ∧ attrs !! n = Some v'
                 ∧ is_copy h v h' v')
    ∧ (∀ n, n ∉ Listeners._get_attr_names default extra → attrs !! n = None).
Proof.
  intros Hall. unfold Listeners._get_attrs.
  destruct (dict_of_names_copies h item _ h ∅ (reflexivity _) Hall)
    as (attrs & h' & Hrun & Hpre & Hvals & Hrest).
  exists attrs, h'. split; [done|]. split; [done|]. split; [done|].
  intros n Hn. by rewrite Hrest.
Qed.

Lemma names_map_exact xs ns h :
  Forall2 (fun x (nm : Py.Value) => Py.getattr h x "name" = inr nm) xs ns →
  map_m (fun x => Listeners.read x "name") xs h = (Val ns, h).
Proof.
  induction 1 as [|x nm xs ns Hx _ IH]; [done|].
  cbn [map_m]. rewrite (bind_eq _ _ _ _ _ (getattr_eq _ _ _ _ Hx)).
  by rewrite (bind_eq _ _ _ _ _ IH).
Qed.

Lemma iterate_list h l xs :
  h !! l = Some (Py.OList xs) → Listeners.iterate (Py.VRef l) h = (Val xs, h).
Proof. intros Hl. unfold Listeners.iterate. by rewrite bind_get, Hl. Qed.

Lemma names_of_exact h l xs ns :
  h !! l = Some (Py.OList xs) →
  Forall2 (fun x (nm : Py.Value) => Py.getattr h x "name" = inr nm) xs ns →
  Listeners.names_of (Py.VRef l) h = (Val (Py.VRef (length h)), h ++ [Py.OList ns]).
Proof.
  intros Hl Hns. unfold Listeners.names_of.
  rewrite (bind_eq _ _ _ _ _ (iterate_list _ _ _ Hl)).
  by rewrite (bind_eq _ _ _ _ _ (names_map_exact _ _ _ Hns)).
Qed.

Lemma forall2_names_prefix h h' xs ns :
  h `prefix_of` h' →
  Forall2 (fun x (nm : Py.Value) => Py.getattr h x "name" = inr nm) xs ns →
  Forall2 (fun x (nm : Py.Value) => Py.getattr h' x "name" = inr nm) xs ns.
Proof.
  intros Hpre Hall. eapply Forall2_impl; [exact Hall|].
  intros x nm Hx. exact (getattr_prefix _ _ _ _ _ Hx Hpre).
Qed.

(** X16. The attributes that [_get_suite_attrs] adds for a suite are two
    new lists, with the names of its tests and of its child suites in
    their order, its test count as it is, and its source, or the empty
    string when the source is [None] or otherwise false. *)
Theorem suite_attributes h suite lt ls tests suites tnames snames count source :
  Py.getattr h suite "tests" = inr (Py.VRef lt) → h !! lt = Some (Py.OList tests) →
  Forall2 (fun t (nm : Py.Value) => Py.getattr h t "name" = inr nm) tests tnames →
  Py.getattr h suite "suites" = inr (Py.VRef ls) → h !! ls = Some (Py.OList suites) →
  Forall2 (fun s (nm : Py.Value) => Py.getattr h s "name" = inr nm) suites snames →
  Py.getattr h suite "test_count" = inr count →
  Py.getattr h suite "source" = inr source →
  Listeners._get_suite_attrs suite h =
    (Val (<["source" := if Py.truthy (h ++ [Py.OList tnames; Py.OList snames]) source
                        then source else Py.VStr ""]>
          (<["totaltests" := count]>
           (<["suites" := Py.VRef (S (length h))]>
            (<["tests" := Py.VRef (length h)]> ∅)))),
     h ++ [Py.OList tnames; Py.OList snames]).
Proof.
  intros Ht Hlt Htn Hs Hls Hsn Hc Hsrc.
  set (h1 := h ++ [Py.OList tnames]).
  assert (Hpre1 : h `prefix_of` h1) by (by apply prefix_app_r).
  set (h2 := h1 ++ [Py.OList snames]).
  assert (Hpre2 : h `prefix_of` h2) by (etrans; [exact Hpre1|by apply prefix_app_r]).
  assert (Hnames1 : Listeners.names_of (Py.VRef lt) h = (Val (Py.VRef (length h)), h1)).
  { by apply (names_of_exact h lt tests). }
  assert (Hnames2 : Listeners.names_of (Py.VRef ls) h1 = (Val (Py.VRef (length h1)), h2)).
  { apply (names_of_exact h1 ls suites); [by eapply prefix_lookup_Some|].
    by eapply forall2_names_prefix. }
  unfold Listeners._get_suite_attrs.
  rewrite (bind_eq _ _ _ _ _ (getattr_eq _ _ _ _ Ht)).
  rewrite (bind_eq _ _ _ _ _ Hnames1).
  rewrite (bind_eq _ _ _ _ _ (getattr_eq _ _ _ _ (getattr_prefix _ _ _ _ _ Hs Hpre1))).
  rewrite (bind_eq _ _ _ _ _ Hnames2).
  rewrite (bind_eq _ _ _ _ _ (getattr_eq _ _ _ _ (getattr_prefix _ _ _ _ _ Hc Hpre2))).
  rewrite (bind_eq _ _ _ _ _ (getattr_eq _ _ _ _ (getattr_prefix _ _ _ _ _ Hsrc Hpre2))).
  rewrite bind_get. unfold ret, Py.py_or. subst h2 h1.
  rewrite <- !app_assoc. cbn [app]. rewrite length_app. cbn [length].
  by rewrite Nat.add_1_r.
Qed.

End Copies.

Section KeywordTypes.
Context `{Collaborators}.
Implicit Types (h : Py.Heap) (w : World) (r : Registry) (p : Proxy).

Lemma deliveries_length w w' ls :
  map d_listener (deliveries_since w w') = ls →
  length (deliveries_since w w') = length ls.
Proof. intros <-. by rewrite length_map. Qed.

(** X17. A keyword whose declared type is "kw" is reported to every
    adapter with the pending type, or with "Keyword" when none is pending,
    at its start as at its end, and the attributes of the registry stay as
    they are. The adapters report every failure of their methods, so that
    the notification goes through all of them. *)
Theorem plain_keyword_reports_pending_type f ev kw w ls :
  ev = StartKeyword kw ∨ ev = EndKeyword kw →
  _recursion (self w) = false → _listeners (self w) = Some ls →
  Forall handles_failures ls →
  ready (heap w) ev = true →
  Py.getattr (heap w) kw "type" = inr (Py.VStr "kw") →
  ∃ w', Listeners.notify (S (S f)) ev w = (Val tt, w')
        ∧ self w' = self w
        ∧ reported_types (deliveries_since w w') =
            replicate (length ls)
              (Some (Py.VStr (Listeners.pending_or_keyword
                                (_setup_or_teardown_type (self w))))).
Proof.
  intros Hev Hrec Hls Hhandled Hready Hty.
  destruct (notify_step f ev w ls (heap w) Hrec Hls Hhandled (reflexivity _) Hready)
    as (w' & Hrun & _ & _ & _ & Hself & Hmap & Hgood).
  exists w'. split; [done|]. split.
  - rewrite Hself. destruct Hev as [-> | ->]; cbn [after_routine];
      rewrite (declared_type_eq _ _ _ _ Hty (reflexivity _)); by destruct ls.
  - rewrite (keyword_types _ _ _ kw _ Hev Hgood), (deliveries_length _ _ _ Hmap).
    by rewrite (declared_type_eq _ _ _ _ Hty (reflexivity _)).
Qed.

(** X18. A keyword with any other declared type is reported to every
    adapter as "Test" or "Suite", by [_running_test], followed by the
    title-cased type. With at least one adapter, its start makes this
    label the pending type and its end clears the pending type; the other
    attributes of the registry stay as they are. The adapters report
    every failure of their methods, so that the notification goes through
    all of them. *)
Theorem other_keyword_sets_and_clears_pending_type f kw s w ls :
  _recursion (self w) = false → _listeners (self w) = Some ls → ls ≠ [] →
  Forall handles_failures ls →
  Py.getattr (heap w) kw "type" = inr (Py.VStr s) → s ≠ "kw" →
  (ready (heap w) (StartKeyword kw) = true →
   ∃ w', Listeners.notify (S (S f)) (StartKeyword kw) w = (Val tt, w')
         ∧ self w' = set_setup_or_teardown_type
                       (Some (kw_label (_running_test (self w)) s)) (self w)
         ∧ reported_types (deliveries_since w w') =
             replicate (length ls)
               (Some (Py.VStr (kw_label (_running_test (self w)) s))))
  ∧ (ready (heap w) (EndKeyword kw) = true →
     ∃ w', Listeners.notify (S (S f)) (EndKeyword kw) w = (Val tt, w')
           ∧ self w' = set_setup_or_teardown_type None (self w)
           ∧ reported_types (deliveries_since w w') =
               replicate (length ls)
                 (Some (Py.VStr (kw_label (_running_test (self w)) s)))).
Proof.
  intros Hrec Hls Hne Hhandled Hty Hs.
  assert (Hneq : String.eqb s "kw" = false) by (by apply String.eqb_neq).
  split; intros Hready.
  - destruct (notify_step f _ w ls (heap w) Hrec Hls Hhandled (reflexivity _) Hready)
      as (w' & Hrun & _ & _ & _ & Hself & Hmap & Hgood).
    exists w'. split; [done|]. split.
    + rewrite Hself. cbn [after_routine].
      rewrite (declared_type_eq _ _ _ _ Hty (reflexivity _)).
      destruct ls; [done|]. unfold kw_step. by rewrite Hneq.
    + rewrite (keyword_types _ _ _ kw _ (or_introl eq_refl) Hgood),
        (deliveries_length _ _ _ Hmap).
      rewrite (declared_type_eq _ _ _ _ Hty (reflexivity _)).
      unfold reported_type. by rewrite Hneq.
  - destruct (notify_step f _ w ls (heap w) Hrec Hls Hhandled (reflexivity _) Hready)
      as (w' & Hrun & _ & _ & _ & Hself & Hmap & Hgood).
    exists w'. split; [done|]. split.
    + rewrite Hself. cbn [after_routine].
      rewrite (declared_type_eq _ _ _ _ Hty (reflexivity _)).
      destruct ls; [done|]. unfold kw_step. by rewrite Hneq.
    + rewrite (keyword_types _ _ _ kw _ (or_intror eq_refl) Hgood),
        (deliveries_length _ _ _ Hmap).
      rewrite (declared_type_eq _ _ _ _ Hty (reflexivity _)).
      unfold reported_type. by rewrite Hneq.
Qed.

(** X19. The pending type is one slot, not a stack: when a keyword of
    another type than "kw" starts and ends inside a setup or teardown
    keyword that is still running, its end clears the pending type, and a
    plain keyword that starts next inside the outer keyword is reported as
    "Keyword". The adapters report every failure of their methods, so
    that no exception interrupts the sequence. *)
Theorem pending_type_is_a_single_slot f w ls outer inner plain so si :
  _recursion (self w) = false → _listeners (self w) = Some ls → ls ≠ [] →
  Forall handles_failures ls →
  forallb (ready (heap w))
    [StartKeyword outer; StartKeyword inner; EndKeyword inner; StartKeyword plain]
    = true →
  Py.getattr (heap w) outer "type" = inr (Py.VStr so) → so ≠ "kw" →
  Py.getattr (heap w) inner "type" = inr (Py.VStr si) → si ≠ "kw" →
  Py.getattr (heap w) plain "type" = inr (Py.VStr "kw") →
  ∃ w1 w2 w3 w4,
    Listeners.notify (S (S f)) (StartKeyword outer) w = (Val tt, w1)
    ∧ Listeners.notify (S (S f)) (StartKeyword inner) w1 = (Val tt, w2)
    ∧ Listeners.notify (S (S f)) (EndKeyword inner) w2 = (Val tt, w3)
    ∧ Listeners.notify (S (S f)) (StartKeyword plain) w3 = (Val tt, w4)
    ∧ _setup_or_teardown_type (self w3) = None
    ∧ reported_types (deliveries_since w3 w4)
      = replicate (length ls) (Some (Py.VStr "Keyword")).
Proof.
  intros Hrec Hls Hne Hhandled Hready Ho Hso Hi Hsi Hp.
  cbn [forallb] in Hready. rewrite !andb_true_iff in Hready.
  destruct Hready as (R1 & R2 & R3 & R4 & _).
  set (h0 := heap w) in *.
  destruct (notify_step f (StartKeyword outer) w ls h0)
    as (w1 & Hrun1 & Hpre1 & Hrec1 & Hls1 & Hself1 & _ & _); try done.
  destruct (notify_step f (StartKeyword inner) w1 ls h0)
    as (w2 & Hrun2 & Hpre2 & Hrec2 & Hls2 & Hself2 & _ & _); try done.
  destruct (notify_step f (EndKeyword inner) w2 ls h0)
    as (w3 & Hrun3 & Hpre3 & Hrec3 & Hls3 & Hself3 & _ & _); try done.
  destruct (notify_step f (StartKeyword plain) w3 ls h0)
    as (w4 & Hrun4 & Hpre4 & Hrec4 & Hls4 & Hself4 & Hmap4 & Hgood4); try done.
  exists w1, w2, w3, w4. do 4 (split; [assumption|]).
  assert (Hpending : _setup_or_teardown_type (self w3) = None).
  { rewrite Hself3. cbn [after_routine]. destruct ls; [done|].
    rewrite (declared_type_eq _ _ _ _ Hi Hpre2). unfold kw_step.
    apply String.eqb_neq in Hsi. by rewrite Hsi. }
  split; [done|].
  rewrite (keyword_types _ _ _ plain _ (or_introl eq_refl) Hgood4),
    (deliveries_length _ _ _ Hmap4), (declared_type_eq _ _ _ _ Hp Hpre3).
  unfold reported_type. cbn [String.eqb Ascii.eqb Bool.eqb]. by rewrite Hpending.
Qed.

Lemma running_after_cons b ev evs :
  running_after b (ev :: evs)
  = running_after match ev with
                  | StartTest _ => true
                  | EndTest _ => false
                  | _ => b
                  end evs.
Proof. reflexivity. Qed.

Lemma after_routine_running h ev ls r :
  _running_test (after_routine h ev ls r)
  = match ev with
    | StartTest _ => true
    | EndTest _ => false
    | _ => _running_test r
    end.
Proof.
  destruct ev; try done; cbn [after_routine]; destruct ls; try done;
    unfold kw_step; by destruct (String.eqb _ "kw").
Qed.

Lemma run_of_events f ls h0 evs : Forall handles_failures ls → ∀ w,
  _recursion (self w) = false → _listeners (self w) = Some ls →
  h0 `prefix_of` heap w → forallb (ready h0) evs = true →
  ∃ w' ds, for_each evs (Listeners.notify (S (S f))) w = (Val tt, w')
           ∧ trace w' = trace w ++ ds
           ∧ log w' = log w ++ flat_map failure_log ds
           ∧ map d_listener ds = flat_map (fun _ => ls) evs
           ∧ _recursion (self w') = false
           ∧ _running_test (self w') = running_after (_running_test (self w)) evs.
Proof.
  intros Hhandled. induction evs as [|ev evs IH]; intros w Hrec Hls Hpre Hready.
  - exists w, []. cbn. rewrite !app_nil_r. by repeat split.
  - cbn [forallb] in Hready. apply andb_true_iff in Hready as [Hev Hready].
    destruct (notify_spec f ev w ls Hrec Hls Hhandled (ready_prefix _ _ _ Hpre Hev))
      as (ds & w1 & Hrun & Hpre1 & Hlog & Htrace & Hself & Hmap & _).
    destruct (IH w1) as (w' & ds' & Hrun' & Htrace' & Hlog' & Hmap' & Hrec' & Hrunning');
      [by rewrite Hself, after_routine_recursion
      |by rewrite Hself, after_routine_listeners
      |by etrans|done|].
    exists w', (ds ++ ds'). cbn [for_each]. rewrite (bind_eq _ _ _ _ _ Hrun).
    split; [done|]. split; [by rewrite Htrace', Htrace, app_assoc|].
    split; [by rewrite Hlog', Hlog, flat_map_app, app_assoc|].
    split; [cbn; by rewrite map_app, Hmap, Hmap'|].
    split; [done|].
    by rewrite Hrunning', Hself, after_routine_running, running_after_cons.
Qed.

(** X20. A run of notifications, each entered from the run with its
    objects well formed, over adapters that report every failure of their
    methods, never raises: every event is delivered to every adapter,
    event after event and adapter after adapter, the log grows by the
    entries of the invocations that raised, the guard is clear at the
    end, and [_running_test] is true exactly when the last [start_test] or
    [end_test] of the run was a [start_test]. *)
Theorem run_of_notifications f evs w ls :
  _recursion (self w) = false → _listeners (self w) = Some ls →
  Forall handles_failures ls →
  forallb (ready (heap w)) evs = true →
  ∃ w', for_each evs (Listeners.notify (S (S f))) w = (Val tt, w')
        ∧ trace w' = trace w ++ deliveries_since w w'
        ∧ log w' = log w ++ flat_map failure_log (deliveries_since w w')
        ∧ map d_listener (deliveries_since w w') = flat_map (fun _ => ls) evs
        ∧ _recursion (self w') = false
        ∧ _running_test (self w') = running_after (_running_test (self w)) evs.
Proof.
  intros Hrec Hls Hhandled Hready.
  destruct (run_of_events f ls (heap w) evs Hhandled w Hrec Hls (reflexivity _) Hready)
    as (w' & ds & Hrun & Htrace & Hlog & Hmap & Hrec' & Hrunning).
  assert (Hds : deliveries_since w w' = ds).
  { unfold deliveries_since. by rewrite Htrace, drop_app_length. }
  exists w'. rewrite Hds. by repeat split.
Qed.

End KeywordTypes.

Section TestPayloads.
Context `{Collaborators}.
Implicit Types (h : Py.Heap) (w : World) (r : Registry) (p : Proxy).
Implicit Types (attrs : gmap string Py.Value).

Lemma truthy_prefix h h' v :
  is_valid h v = true → h `prefix_of` h' → Py.truthy h' v = Py.truthy h v.
Proof.
  intros Hv Hpre. destruct v as [| | | | |l]; try done. cbn in *.
  apply bool_decide_eq_true_1, lookup_lt_is_Some_2 in Hv as [o Ho].
  by rewrite (prefix_lookup_Some _ _ _ _ Ho Hpre), Ho.
Qed.

Lemma is_valid_scalar h v : is_scalar v = true → is_valid h v = true.
Proof. by destruct v. Qed.

Lemma with_critical_and_template_eq w test attrs cv tv :
  Py.getattr (heap w) test "critical" = inr cv →
  Py.getattr (heap w) test "template" = inr tv →
  Listeners.with_critical_and_template test attrs w
  = (Val (<["template" := Py.py_or (heap w) tv (Py.VStr "")]>
          (<["critical" := Listeners.yes_no (Py.truthy (heap w) cv)]> attrs)),
     {| heap := heap w; log := log w; trace := trace w; self := self w |}).
Proof.
  intros Hc Ht. unfold Listeners.with_critical_and_template.
  rewrite (bind_eq _ _ _ _ _ (lift_getattr_eq _ _ _ _ Hc)), bind_get.
  cbn [heap log trace self].
  erewrite bind_eq by (by apply lift_getattr_eq).
  by rewrite bind_get.
Qed.

Lemma test_body_values f base mname test p w h0 name critical template :
  _recursion (self w) = true → h0 `prefix_of` heap w →
  test_ready h0 test base = true →
  Py.getattr h0 test "name" = inr name →
  Py.getattr h0 test "critical" = inr critical → is_valid h0 critical = true →
  Py.getattr h0 test "template" = inr template →
  ∃ attrs h',
    (attrs <- lift_heap (Listeners._get_attrs test base ["tags"]) ;;
     attrs <- Listeners.with_critical_and_template test attrs ;;
     test_name <- Listeners.item_name test ;;
     ListenerProxy.call_method (Listeners.notify (S f)) p
       (ListenerProxy.attribute p mname)
       [AVal test_name; APayload attrs]) w
    = body_result w h' (self w)
        {| d_listener := p; d_method := ListenerProxy.attribute p mname;
           d_args := [AVal name; APayload attrs] |}
    ∧ heap w `prefix_of` h'
    ∧ attrs !! "critical" = Some (Listeners.yes_no (Py.truthy h0 critical))
    ∧ attrs !! "template" = Some (Py.py_or h0 template (Py.VStr "")).
Proof.
  intros Hrec Hpre Hready Hname Hcrit Hvalid Htempl.
  pose proof (test_ready_prefix _ _ _ _ Hpre Hready) as Hready'.
  unfold test_ready in Hready, Hready'.
  apply andb_true_iff in Hready as [_ Hscalar].
  apply andb_true_iff in Hready' as [Hall _].
  rewrite forallb_app in Hall. apply andb_true_iff in Hall as [Hbase Hrest].
  cbn [forallb] in Hrest. rewrite !andb_true_iff in Hrest.
  destruct Hrest as (Htags & _).
  destruct (get_attrs_spec h0 (heap w) test base ["tags"])
    as (attrs & h1 & Hattrs & Hpre1 & _ & _); [done| |].
  { cbn. rewrite forallb_app, Hbase. cbn. by rewrite Htags. }
  assert (Hpre0 : h0 `prefix_of` h1) by (by etrans).
  set (w1 := {| heap := h1; log := log w; trace := trace w; self := self w |}).
  eexists _, h1. split; [|split; [done|]].
  - rewrite (bind_eq _ _ _ _ _ (lift_heap_eq _ _ _ _ Hattrs)). fold w1.
    rewrite (bind_eq _ _ _ _ _
               (with_critical_and_template_eq w1 test attrs critical template
                  (getattr_prefix _ _ _ _ _ Hcrit Hpre0)
                  (getattr_prefix _ _ _ _ _ Htempl Hpre0))).
    erewrite bind_eq
      by (apply item_name_eq; cbn [heap]; exact (getattr_prefix _ _ _ _ _ Hname Hpre0)).
    by rewrite call_method_result.
  - cbn [heap w1]. split.
    + rewrite lookup_insert_ne by done. rewrite lookup_insert_eq.
      by rewrite (truthy_prefix _ _ _ Hvalid Hpre0).
    + rewrite lookup_insert_eq. unfold Py.py_or.
      destruct (has_scalar_getattr _ _ _ Hscalar) as (tv & Htv & Hs).
      rewrite Htempl in Htv. injection Htv as <-.
      by rewrite (truthy_prefix _ _ _ (is_valid_scalar _ _ Hs) Hpre0).
Qed.

Lemma test_loop_values f base mname test ls w name critical template :
  _recursion (self w) = true → test_ready (heap w) test base = true →
  Py.getattr (heap w) test "name" = inr name →
  Py.getattr (heap w) test "critical" = inr critical →
  is_valid (heap w) critical = true →
  Py.getattr (heap w) test "template" = inr template →
  ∃ ds w',
    for_each ls (fun listener =>
      attrs <- lift_heap (Listeners._get_attrs test base ["tags"]) ;;
      attrs <- Listeners.with_critical_and_template test attrs ;;
      test_name <- Listeners.item_name test ;;
      ListenerProxy.call_method (Listeners.notify (S f)) listener
        (ListenerProxy.attribute listener mname)
        [AVal test_name; APayload attrs]) w = (ending (stopped ds), w')
    ∧ trace w' = trace w ++ ds ∧ self w' = self w
    ∧ reached ls ds
    ∧ Forall (fun d =>
        d_method d = ListenerProxy.attribute (d_listener d) mname
        ∧ ∃ attrs, d_args d = [AVal name; APayload attrs]
            ∧ attrs !! "critical"
              = Some (Listeners.yes_no (Py.truthy (heap w) critical))
            ∧ attrs !! "template"
              = Some (Py.py_or (heap w) template (Py.VStr ""))) ds.
Proof.
  intros Hrec Hready Hname Hcrit Hvalid Htempl.
  destruct (for_each_delivers
              (fun h r => heap w `prefix_of` h ∧ r = self w)
              (fun d =>
                 d_method d = ListenerProxy.attribute (d_listener d) mname
                 ∧ ∃ attrs, d_args d = [AVal name; APayload attrs]
                     ∧ attrs !! "critical"
                       = Some (Listeners.yes_no (Py.truthy (heap w) critical))
                     ∧ attrs !! "template"
                       = Some (Py.py_or (heap w) template (Py.VStr "")))
              (fun r => r)
              (fun listener =>
                 attrs <- lift_heap (Listeners._get_attrs test base ["tags"]) ;;
                 attrs <- Listeners.with_critical_and_template test attrs ;;
                 test_name <- Listeners.item_name test ;;
                 ListenerProxy.call_method (Listeners.notify (S f)) listener
                   (ListenerProxy.attribute listener mname)
                   [AVal test_name; APayload attrs])
              (fun _ => eq_refl)) with (ls := ls) (w := w)
    as (ds & w' & Hrun & _ & _ & Htrace & Hself & Hreach & Hall).
  - intros p w0 [Hpre Hr].
    destruct (test_body_values f base mname test p w0 (heap w) name critical template)
      as (attrs & h' & Hbody & Hpre' & Hc & Ht); try done; [by rewrite Hr|].
    eexists _, h'. split; [exact Hbody|]. split; [done|]. split; [done|].
    split; [|split; [by etrans|done]].
    split; [done|]. by exists attrs.
  - done.
  - exists ds, w'. do 2 (split; [done|]).
    split; [rewrite Hself; by destruct ls|]. by split.
Qed.

Lemma test_notification_values f test w ls name critical template :
  _recursion (self w) = false → _listeners (self w) = Some ls →
  Py.getattr (heap w) test "name" = inr name →
  Py.getattr (heap w) test "critical" = inr critical →
  is_valid (heap w) critical = true →
  Py.getattr (heap w) test "template" = inr template →
  ∀ ev b mname,
    (ev = StartTest test ∧ b = true ∧ mname = "start_test")
    ∨ (ev = EndTest test ∧ b = false ∧ mname = "end_test") →
    ready (heap w) ev = true →
    ∃ w', Listeners.notify (S (S f)) ev w
            = (ending (stopped (deliveries_since w w')), w')
          ∧ _running_test (self w') = b
          ∧ (Forall handles_failures ls →
             stopped (deliveries_since w w') = None
             ∧ map d_listener (deliveries_since w w') = ls
             ∧ self w' = set_running_test b (self w))
          ∧ Forall (fun d =>
              d_method d = ListenerProxy.attribute (d_listener d) mname
              ∧ ∃ attrs, d_args d = [AVal name; APayload attrs]
                  ∧ attrs !! "critical"
                    = Some (Py.VStr (if Py.truthy (heap w) critical
                                     then "yes" else "no"))
                  ∧ attrs !! "template"
                    = Some (if Py.truthy (heap w) template
                            then template else Py.VStr ""))
              (deliveries_since w w').
Proof.
  intros Hrec Hls Hname Hcrit Hvalid Htempl ev b mname Hev Hready.
  set (w0 := set_self (set_running_test b (self (with_recursion true w)))
               (with_recursion true w)).
  assert (Hloop : ∃ base, (∀ h, ready h ev = test_ready h test base)
            ∧ Listeners.routine (Listeners.notify (S f)) ev (with_recursion true w)
              = for_each ls (fun listener =>
                  attrs <- lift_heap (Listeners._get_attrs test base ["tags"]) ;;
                  attrs <- Listeners.with_critical_and_template test attrs ;;
                  test_name <- Listeners.item_name test ;;
                  ListenerProxy.call_method (Listeners.notify (S f)) listener
                    (ListenerProxy.attribute listener mname)
                    [AVal test_name; APayload attrs]) w0).
  { destruct Hev as [(-> & -> & ->)|(-> & -> & ->)].
    - exists Listeners._start_attrs. split; [done|].
      cbn [Listeners.routine].
      unfold Listeners.start_test, Listeners.set_attribute. rewrite bind_modify.
      by erewrite bind_eq by (by apply listeners_attribute_eq).
    - exists Listeners._end_attrs. split; [done|].
      cbn [Listeners.routine].
      unfold Listeners.end_test, Listeners.set_attribute. rewrite bind_modify.
      by erewrite bind_eq by (by apply listeners_attribute_eq). }
  destruct Hloop as (base & Hbase & Hroutine).
  destruct (test_loop_values f base mname test ls w0 name critical template)
    as (ds & w1 & Hrun & Htrace & Hself & [Hreach Hevery] & Hall); try done.
  { by rewrite <- Hbase. }
  rewrite <- Hroutine in Hrun.
  pose proof (notify_wrapped (S f) ev w _ w1 Hrec Hrun) as Hnotify.
  eexists. split.
  { rewrite Hnotify. f_equal. f_equal. f_equal.
    unfold deliveries_since.
    destruct (stopped ds); cbn; rewrite Htrace; cbn; by rewrite drop_app_length. }
  assert (Hds : deliveries_since w
                  match stopped ds with
                  | Some _ => w1
                  | None => with_recursion false w1
                  end = ds).
  { unfold deliveries_since.
    destruct (stopped ds); cbn; rewrite Htrace; cbn; by rewrite drop_app_length. }
  rewrite Hds. split.
  { destruct (stopped ds); cbn; by rewrite Hself. }
  split; [|done]. intros Hhandled.
  assert (Hs : stopped ds = None).
  { apply (handled_not_stopped ls); [done|done|].
    eapply Forall_impl; [exact Hall|]. intros d [Hm _]. by eexists. }
  split; [done|]. split; [by apply Hevery|].
  rewrite Hs. cbn. rewrite Hself. cbn.
  destruct (self w) as [a c d e]. cbn in *. by subst.
Qed.

(** X21. The invocations of [start_test] and of [end_test] carry the name
    of the test as the first argument and a dictionary in which
    [critical] is "yes" or "no" by the truth value of the attribute of
    the test and [template] is the attribute of the test, or the empty
    string when that is false; [start_test] sets [_running_test] and
    [end_test] clears it, whether or not there is an adapter. This holds
    of every invocation made, also when an exception that leaves
    [call_method] interrupts the notification; over adapters that report
    every failure the notification returns normally, every adapter is
    invoked, and nothing else of the registry changes. *)
Theorem test_payload_values f ev test w ls name critical template :
  ev = StartTest test ∨ ev = EndTest test →
  _recursion (self w) = false → _listeners (self w) = Some ls →
  ready (heap w) ev = true →
  Py.getattr (heap w) test "name" = inr name →
  Py.getattr (heap w) test "critical" = inr critical →
  is_valid (heap w) critical = true →
  Py.getattr (heap w) test "template" = inr template →
  ∃ w', Listeners.notify (S (S f)) ev w
          = (ending (stopped (deliveries_since w w')), w')
        ∧ _running_test (self w') = match ev with StartTest _ => true | _ => false end
        ∧ (Forall handles_failures ls →
           stopped (deliveries_since w w') = None
           ∧ map d_listener (deliveries_since w w') = ls
           ∧ self w' = set_running_test
                         match ev with StartTest _ => true | _ => false end (self w))
        ∧ Forall (fun d =>
            d_method d = event_method ev (d_listener d)
            ∧ ∃ attrs, d_args d = [AVal name; APayload attrs]
                ∧ attrs !! "critical"
                  = Some (Py.VStr (if Py.truthy (heap w) critical
                                   then "yes" else "no"))
                ∧ attrs !! "template"
                  = Some (if Py.truthy (heap w) template
                          then template else Py.VStr ""))
            (deliveries_since w w').
Proof.
  intros Hev Hrec Hls Hready Hname Hcrit Hvalid Htempl.
  destruct Hev as [-> | ->].
  - exact (test_notification_values f test w ls name critical template
             Hrec Hls Hname Hcrit Hvalid Htempl (StartTest test) true "start_test"
             (or_introl (conj eq_refl (conj eq_refl eq_refl))) Hready).
  - exact (test_notification_values f test w ls name critical template
             Hrec Hls Hname Hcrit Hvalid Htempl (EndTest test) false "end_test"
             (or_intror (conj eq_refl (conj eq_refl eq_refl))) Hready).
Qed.

End TestPayloads.

(* ===================================================================== *)
(** * The further properties at work                                      *)
(* ===================================================================== *)

(** X1 at work: the adapter of the listener that declares ["2"]. *)
Lemma silent_adapter_has_version_two :
  version (Example.proxy_of Example.silent) = 2
  ∧ ∃ v, ROBOT_LISTENER_API_VERSION (logger (Example.proxy_of Example.silent)) = Some v
         ∧ Py.int v = inr 2.
Proof.
  apply (@constructed_adapter_has_version_two Example.collaborators
           (SpecObject Example.silent)).
  reflexivity.
Defined.

(** X2 at work, on the configured listeners of the example. *)
Lemma configured_registry_is_true :
  ∃ w' ls b,
    @Listeners.new Example.collaborators (Some Example.configured) Example.fresh_run
      = (Val tt, w')
    ∧ _listeners (self w') = Some ls
    ∧ Listeners.__nonzero__ (self w') = inr b
    ∧ (b = true ↔ ∃ s p, s ∈ Example.configured
                         ∧ @ListenerProxy.__init__ Example.collaborators s = inr p)
    ∧ Forall (fun p => version p = 2) ls.
Proof.
  apply (@registry_is_true_iff_some_listener Example.collaborators).
  vm_compute; reflexivity.
Defined.

(** X3 at work: the version marker infinity makes [int] raise
    [OverflowError], which is not caught. *)
Lemma infinite_version_escapes :
  @Listeners.new Example.collaborators
    (Some [SpecName "missing.py"; SpecObject MoreExamples.infinite;
           SpecObject Example.silent]) Example.fresh_run
  = (Exc (Py.OverflowError "cannot convert float infinity to integer"),
     {| heap := Example.objects;
        log := [(ERROR, "Taking listener 'missing.py' into use failed: Importing listener 'missing.py' failed.")];
        trace := []; self := Listeners.blank |}).
Proof.
  apply (@other_exception_escapes_creation Example.collaborators
           [SpecName "missing.py"] (SpecObject MoreExamples.infinite)
           [SpecObject Example.silent]); reflexivity.
Defined.

(** X4 at work: a listener imported by a name with an argument. *)
Lemma imported_listener_with_old_version :
  @Listeners.new MoreExamples.importing (Some [SpecName "Outdated:arg"])
    Example.fresh_run
  = (Val tt,
     {| heap := Example.objects;
        log := [(ERROR, "Taking listener 'Outdated:arg' into use failed: Listener 'Outdated' uses unsupported API version '1'.")];
        trace := [];
        self := {| _listeners := Some []; _running_test := false;
                   _setup_or_teardown_type := None; _recursion := false |} |}).
Proof.
  apply (@named_listener_with_wrong_version MoreExamples.importing "Outdated:arg"
           Example.outdated (Py.VStr "1") 1 Example.fresh_run);
    [reflexivity | reflexivity | reflexivity | lia].
Defined.

(** X5 at work: the names of [start_test]. *)
Lemma start_test_names_are_appended :
  Listeners._get_attr_names Listeners._start_attrs ["tags"]
  = Listeners._start_attrs ++ ["tags"].
Proof. apply attr_names_without_markers. reflexivity. Defined.

(** X6 at work: [id] is removed from the names of [end_keyword]. *)
Lemma id_is_not_a_keyword_attribute :
  "id" ∈ Listeners._get_attr_names Listeners._end_attrs Listeners._kw_extra_attrs
  ↔ ("id" ∈ Listeners._end_attrs ∧ "-id" ∉ Listeners._kw_extra_attrs)
    ∨ ("id" ∈ Listeners._kw_extra_attrs ∧ Py.startswith_dash "id" = false).
Proof.
  apply (attr_names_membership Listeners._end_attrs Listeners._kw_extra_attrs "id").
  - refine (@bool_decide_unpack (NoDup Listeners._end_attrs) _ _).
    vm_compute. exact I.
  - refine (proj1 (list.Forall_forall
                     (fun e => Py.startswith_dash e = false
                               → String "-" e ∉ Listeners._kw_extra_attrs)
                     Listeners._kw_extra_attrs) _).
    refine (@bool_decide_unpack
              (Forall (fun e => Py.startswith_dash e = false
                                → String "-" e ∉ Listeners._kw_extra_attrs)
                 Listeners._kw_extra_attrs) _ _).
    vm_compute. exact I.
Defined.

(** X7 at work: a callable without a [__name__] raises [ValueError], for
    which [get_error_details] returns; the handler fails on the look-up
    of the name, and [AttributeError] leaves [call_method] with nothing
    logged. *)
Lemma nameless_method_example :
  ∃ o entries,
    @ListenerProxy.call_method Example.collaborators
      (@Listeners.notify Example.collaborators 1)
      (Example.proxy_of Example.silent) MoreExamples.nameless [] MoreExamples.guarded_run
    = (o, {| heap := heap MoreExamples.guarded_run;
             log := log MoreExamples.guarded_run ++ entries;
             trace := trace MoreExamples.guarded_run
                      ++ [{| d_listener := Example.proxy_of Example.silent;
                             d_method := MoreExamples.nameless; d_args := [] |}];
             self := self MoreExamples.guarded_run |})
    ∧ o = Exc (Py.AttributeError "__name__") ∧ entries = [].
Proof.
  destruct (@call_method_lets_handler_exceptions_out Example.collaborators 0
              (Example.proxy_of Example.silent) MoreExamples.nameless []
              MoreExamples.guarded_run)
    as (o & entries & Hrun & Hcase); [reflexivity|].
  exists o, entries. split; [exact Hrun|exact Hcase].
Defined.

(** X8 at work. *)
Lemma close_example :
  @Listeners.notify Example.collaborators 2 Close
    (Example.run_with Example.two_listeners)
  = (Val tt,
     @all_delivered Example.collaborators
       (map (@invocation Example.collaborators "close" []) Example.two_listeners)
       (Example.run_with Example.two_listeners)).
Proof.
  destruct (@close_reaches_every_adapter Example.collaborators 0
              (Example.run_with Example.two_listeners) Example.two_listeners)
    as [_ Hhandled]; [reflexivity..|].
  apply Hhandled, two_listeners_report.
Defined.

(** X9 at work: the type is lower-cased. *)
Lemma library_import_example :
  @Listeners.notify Example.collaborators 2
    (Imported (Py.VStr "Library") (Py.VStr "BuiltIn") Py.VNone)
    (Example.run_with Example.two_listeners)
  = (Val tt,
     @all_delivered Example.collaborators
       (map (@invocation Example.collaborators "library_import"
               [AVal (Py.VStr "BuiltIn"); AVal Py.VNone]) Example.two_listeners)
       (Example.run_with Example.two_listeners)).
Proof.
  destruct (@imported_reaches_every_adapter Example.collaborators 0 "Library"
              (Py.VStr "BuiltIn") Py.VNone
              (Example.run_with Example.two_listeners) Example.two_listeners)
    as [_ Hhandled];
    [reflexivity | reflexivity | vm_compute; repeat constructor |].
  apply Hhandled, two_listeners_report.
Defined.

(** X10 at work. *)
Lemma output_file_example :
  @Listeners.notify Example.collaborators 2
    (OutputFile (Py.VStr "Output") (Py.VStr "output.xml"))
    (Example.run_with Example.two_listeners)
  = (Val tt,
     @all_delivered Example.collaborators
       (map (@invocation Example.collaborators "output_file"
               [AVal (Py.VStr "output.xml")]) Example.two_listeners)
       (Example.run_with Example.two_listeners)).
Proof.
  destruct (@output_file_reaches_every_adapter Example.collaborators 0 "Output"
              (Py.VStr "output.xml")
              (Example.run_with Example.two_listeners) Example.two_listeners)
    as [_ Hhandled];
    [reflexivity | reflexivity | vm_compute; repeat constructor |].
  apply Hhandled, two_listeners_report.
Defined.

(** X11 at work. *)
Lemma bogus_type_example :
  @Listeners.notify Example.collaborators 1 Example.bogus_import
    (Example.run_with Example.two_listeners)
  = (Exc (Py.AttributeError "bogus_import"),
     with_recursion true (Example.run_with Example.two_listeners))
  ∧ @Listeners.notify Example.collaborators 1
      (OutputFile (Py.VStr "Bogus") (Py.VStr "x"))
      (Example.run_with Example.two_listeners)
    = (Exc (Py.AttributeError "bogus_file"),
       with_recursion true (Example.run_with Example.two_listeners)).
Proof.
  destruct (@unknown_type_raises_before_delivery Example.collaborators 0 "Bogus"
              (Py.VStr "x") Py.VNone (Py.VStr "x")
              (Example.run_with Example.two_listeners)
              (Example.proxy_of Example.failing) [Example.proxy_of Example.silent])
    as [Himport Hfile]; [reflexivity | reflexivity |].
  split.
  - apply Himport.
    refine (@bool_decide_unpack ("bogus_import" ∉ ListenerProxy._methods) _ _).
    vm_compute. exact I.
  - apply Hfile.
    refine (@bool_decide_unpack ("bogus_file" ∉ ListenerProxy._methods) _ _).
    vm_compute. exact I.
Defined.

(** X12 at work. *)
Lemma message_example :
  @Listeners.notify Example.collaborators 2 (LogMessage Example.msg)
    (Example.run_with Example.two_listeners)
  = (Val tt,
     @all_delivered Example.collaborators
       (map (@invocation Example.collaborators "log_message"
               [APayload (msg_dict Example.objects
                            (Py.VStr "20150101 12:00:00.500") (Py.VStr "hello")
                            (Py.VStr "INFO") (Py.VBool false))])
          Example.two_listeners)
       (Example.run_with Example.two_listeners))
  ∧ @Listeners.notify Example.collaborators 2 (Message Example.msg)
      (Example.run_with Example.two_listeners)
    = (Val tt,
       @all_delivered Example.collaborators
         (map (@invocation Example.collaborators "message"
                 [APayload (msg_dict Example.objects
                              (Py.VStr "20150101 12:00:00.500") (Py.VStr "hello")
                              (Py.VStr "INFO") (Py.VBool false))])
            Example.two_listeners)
         (Example.run_with Example.two_listeners)).
Proof.
  destruct (@message_reaches_every_adapter Example.collaborators 0 Example.msg
              (Py.VStr "20150101 12:00:00.500") (Py.VStr "hello")
              (Py.VStr "INFO") (Py.VBool false)
              (Example.run_with Example.two_listeners) Example.two_listeners)
    as (_ & _ & Hhandled); [vm_compute; reflexivity..|].
  apply Hhandled, two_listeners_report.
Defined.

(** X13 at work: [start_test] on a registry without adapters. *)
Lemma start_test_without_adapters :
  @Listeners.notify Example.collaborators 1 (StartTest Example.test)
    (Example.run_with [])
  = (Val tt,
     {| heap := Example.objects; log := []; trace := [];
        self := {| _listeners := Some []; _running_test := true;
                   _setup_or_teardown_type := None; _recursion := false |} |}).
Proof.
  apply (@no_adapters_no_effect Example.collaborators 0 (StartTest Example.test)
           (Example.run_with [])); reflexivity.
Defined.

(** X15 at work: the attributes of the test of the example at its end. *)
Lemma test_attributes_example :
  ∃ attrs h',
    Listeners._get_attrs Example.test Listeners._end_attrs ["tags"] Example.objects
      = (Val attrs, h')
    ∧ Example.objects `prefix_of` h'
    ∧ (∀ n, n ∈ Listeners._get_attr_names Listeners._end_attrs ["tags"] →
         ∃ v v', Py.getattr Example.objects Example.test n = inr v
                 ∧ attrs !! n = Some v'
                 ∧ is_copy Example.objects v h' v')
    ∧ (∀ n, n ∉ Listeners._get_attr_names Listeners._end_attrs ["tags"] →
         attrs !! n = None).
Proof.
  apply (collected_attributes_are_copies Example.objects Example.test
           Listeners._end_attrs ["tags"]).
  vm_compute; reflexivity.
Defined.

(** X16 at work: the suite of the example has no source. *)
Lemma suite_attributes_example :
  Listeners._get_suite_attrs Example.suite Example.objects
  = (Val (<["source" := Py.VStr ""]>
          (<["totaltests" := Py.VInt 1]>
           (<["suites" := Py.VRef 13]>
            (<["tests" := Py.VRef 12]> ∅)))),
     Example.objects ++ [Py.OList [Py.VStr "Login"]; Py.OList []]).
Proof.
  apply (suite_attributes Example.objects Example.suite 2 3 [Py.VRef 4] []
           [Py.VStr "Login"] [] (Py.VInt 1) Py.VNone).
  - vm_compute; reflexivity.
  - vm_compute; reflexivity.
  - constructor; [vm_compute; reflexivity | constructor].
  - vm_compute; reflexivity.
  - vm_compute; reflexivity.
  - constructor.
  - vm_compute; reflexivity.
  - vm_compute; reflexivity.
Defined.

(** X17 at work: a plain keyword inside a test setup. *)
Lemma plain_keyword_in_setup :
  ∃ w', @Listeners.notify Example.collaborators 2 (StartKeyword Example.nested_kw)
          MoreExamples.in_setup = (Val tt, w')
        ∧ self w' = self MoreExamples.in_setup
        ∧ reported_types (deliveries_since MoreExamples.in_setup w')
          = [Some (Py.VStr "Test Setup"); Some (Py.VStr "Test Setup")].
Proof.
  apply (@plain_keyword_reports_pending_type Example.collaborators 0
           (StartKeyword Example.nested_kw) Example.nested_kw
           MoreExamples.in_setup Example.two_listeners);
    [by left | reflexivity | reflexivity | exact two_listeners_report
    | vm_compute; reflexivity | vm_compute; reflexivity].
Defined.

(** X18 at work: a setup keyword of a suite. *)
Lemma suite_setup_example :
  (∃ w', @Listeners.notify Example.collaborators 2 (StartKeyword Example.setup_kw)
           (Example.run_with Example.two_listeners) = (Val tt, w')
         ∧ _setup_or_teardown_type (self w') = Some "Suite Setup"
         ∧ reported_types (deliveries_since (Example.run_with Example.two_listeners) w')
           = [Some (Py.VStr "Suite Setup"); Some (Py.VStr "Suite Setup")])
  ∧ (∃ w', @Listeners.notify Example.collaborators 2 (EndKeyword Example.setup_kw)
             MoreExamples.in_setup = (Val tt, w')
           ∧ _setup_or_teardown_type (self w') = None
           ∧ reported_types (deliveries_since MoreExamples.in_setup w')
             = [Some (Py.VStr "Test Setup"); Some (Py.VStr "Test Setup")]).
Proof.
  split.
  - destruct (@other_keyword_sets_and_clears_pending_type Example.collaborators 0
                Example.setup_kw "setup" (Example.run_with Example.two_listeners)
                Example.two_listeners) as [Hstart _];
      [reflexivity | reflexivity | discriminate | exact two_listeners_report
      | vm_compute; reflexivity | discriminate |].
    destruct Hstart as (w' & Hrun & Hself & Htypes); [vm_compute; reflexivity|].
    exists w'. split; [exact Hrun|]. split; [by rewrite Hself|exact Htypes].
  - destruct (@other_keyword_sets_and_clears_pending_type Example.collaborators 0
                Example.setup_kw "setup" MoreExamples.in_setup
                Example.two_listeners) as [_ Hend];
      [reflexivity | reflexivity | discriminate | exact two_listeners_report
      | vm_compute; reflexivity | discriminate |].
    destruct Hend as (w' & Hrun & Hself & Htypes); [vm_compute; reflexivity|].
    exists w'. split; [exact Hrun|]. split; [by rewrite Hself|exact Htypes].
Defined.

(** X19 at work: a teardown keyword run inside the setup of a test. *)
Lemma teardown_inside_setup :
  ∃ w1 w2 w3 w4,
    @Listeners.notify Example.collaborators 2 (StartKeyword Example.setup_kw)
      MoreExamples.in_test = (Val tt, w1)
    ∧ @Listeners.notify Example.collaborators 2
        (StartKeyword MoreExamples.teardown_kw) w1 = (Val tt, w2)
    ∧ @Listeners.notify Example.collaborators 2
        (EndKeyword MoreExamples.teardown_kw) w2 = (Val tt, w3)
    ∧ @Listeners.notify Example.collaborators 2
        (StartKeyword Example.nested_kw) w3 = (Val tt, w4)
    ∧ _setup_or_teardown_type (self w3) = None
    ∧ reported_types (deliveries_since w3 w4)
      = [Some (Py.VStr "Keyword"); Some (Py.VStr "Keyword")].
Proof.
  apply (@pending_type_is_a_single_slot Example.collaborators 0
           MoreExamples.in_test Example.two_listeners Example.setup_kw
           MoreExamples.teardown_kw Example.nested_kw "setup" "teardown");
    [reflexivity | reflexivity | discriminate | exact two_listeners_report
    | vm_compute; reflexivity
    | vm_compute; reflexivity | discriminate | vm_compute; reflexivity
    | discriminate | vm_compute; reflexivity].
Defined.

(** X20 at work: the events of a test, delivered to two listeners. *)
Lemma test_run_example :
  ∃ w', for_each MoreExamples.test_events
          (@Listeners.notify Example.collaborators 2)
          (Example.run_with Example.two_listeners) = (Val tt, w')
        ∧ trace w' = trace (Example.run_with Example.two_listeners)
                     ++ deliveries_since (Example.run_with Example.two_listeners) w'
        ∧ log w' = log (Example.run_with Example.two_listeners)
                   ++ flat_map (@failure_log Example.collaborators)
                        (deliveries_since (Example.run_with Example.two_listeners) w')
        ∧ map d_listener (deliveries_since (Example.run_with Example.two_listeners) w')
          = flat_map (fun _ => Example.two_listeners) MoreExamples.test_events
        ∧ _recursion (self w') = false
        ∧ _running_test (self w')
          = running_after
              (_running_test (self (Example.run_with Example.two_listeners)))
              MoreExamples.test_events.
Proof.
  apply (@run_of_notifications Example.collaborators 0 MoreExamples.test_events
           (Example.run_with Example.two_listeners) Example.two_listeners);
    [reflexivity | reflexivity | exact two_listeners_report
    | vm_compute; reflexivity].
Defined.

(** X21 at work: the test of the example is critical and has no
    template. *)
Lemma end_test_values_example :
  ∃ w', @Listeners.notify Example.collaborators 2 (EndTest Example.test)
          MoreExamples.in_setup = (Val tt, w')
        ∧ _running_test (self w') = false
        ∧ map d_listener (deliveries_since MoreExamples.in_setup w')
          = Example.two_listeners
        ∧ Forall (fun d =>
            ∃ attrs, d_args d = [AVal (Py.VStr "Login"); APayload attrs]
              ∧ attrs !! "critical" = Some (Py.VStr "yes")
              ∧ attrs !! "template" = Some (Py.VStr ""))
            (deliveries_since MoreExamples.in_setup w').
Proof.
  destruct (@test_payload_values Example.collaborators 0 (EndTest Example.test)
              Example.test MoreExamples.in_setup Example.two_listeners
              (Py.VStr "Login") (Py.VBool true) Py.VNone)
    as (w' & Hrun & Hrunning & Hhandled & Hall);
    [by right | reflexivity | reflexivity | vm_compute; reflexivity
    | vm_compute; reflexivity | vm_compute; reflexivity | reflexivity
    | vm_compute; reflexivity |].
  destruct (Hhandled two_listeners_report) as (Hs & Hmap & _).
  rewrite Hs in Hrun.
  exists w'. split; [exact Hrun|]. split; [exact Hrunning|]. split; [exact Hmap|].
  eapply Forall_impl; [exact Hall|]. intros d (_ & attrs & Hargs & Hc & Ht).
  exists attrs. split; [exact Hargs|]. split; [exact Hc|exact Ht].
Defined.
